(** * Identity, session and admin subsystem of the Bible server

    A shallow embedding of [BiblicalInspiration/serve_biblical_inspiration.py]:
    the SQLite tables become lists of rows, every request handler becomes a
    function from the store to a new store and a response, and the values the
    handler draws from the clock and from [secrets] are inputs of the request.

    Python [str] values are modelled by [string] (ASCII text), [bytes] by
    [list byte]. *)

From Stdlib Require Import ZArith List String Ascii Bool Lia DecimalString DecimalZ.
From Stdlib.Strings Require Import Byte.
Import ListNotations.
Local Open Scope string_scope.
Local Open Scope list_scope.
Local Open Scope Z_scope.

Local Infix "+s+" := String.append (at level 60, right associativity).

(** ** Python built-ins used by the server *)

Module Py.

(** [str.isspace] on the ASCII range: TAB..CR, FS..US and the space. *)
Definition isspace (c : ascii) : bool :=
  let n := N_of_ascii c in
  (((9 <=? n) && (n <=? 13)) || ((28 <=? n) && (n <=? 32)))%N.

Fixpoint lstrip (s : string) : string :=
  match s with
  | EmptyString => EmptyString
  | String c s' => if isspace c then lstrip s' else s
  end.

Fixpoint rstrip (s : string) : string :=
  match s with
  | EmptyString => EmptyString
  | String c s' =>
      match rstrip s' with
      | EmptyString => if isspace c then EmptyString else String c EmptyString
      | r => String c r
      end
  end.

(** [s.strip()] *)
Definition strip (s : string) : string := rstrip (lstrip s).

Definition lower_char (c : ascii) : ascii :=
  let n := N_of_ascii c in
  if ((65 <=? n) && (n <=? 90))%N then ascii_of_N (n + 32) else c.

(** [s.lower()] *)
Fixpoint lower (s : string) : string :=
  match s with
  | EmptyString => EmptyString
  | String c s' => String (lower_char c) (lower s')
  end.

(** [c in s] for a one-character [c]. *)
Fixpoint contains (c : ascii) (s : string) : bool :=
  match s with
  | EmptyString => false
  | String x s' => Ascii.eqb x c || contains c s'
  end.

(** [s.partition(c)] restricted to the case where [c] occurs:
    [Some (before, after)], and [None] when [c] does not occur. *)
Fixpoint cut (c : ascii) (s : string) : option (string * string) :=
  match s with
  | EmptyString => None
  | String x s' =>
      if Ascii.eqb x c then Some (EmptyString, s')
      else match cut c s' with
           | Some (a, b) => Some (String x a, b)
           | None => None
           end
  end.

(** [s.split(c, 1)] *)
Definition split1 (c : ascii) (s : string) : list string :=
  match cut c s with
  | Some (a, b) => [a; b]
  | None => [s]
  end.

(** [s.split(c)] *)
Fixpoint split (c : ascii) (s : string) : list string :=
  match s with
  | EmptyString => [EmptyString]
  | String x s' =>
      if Ascii.eqb x c then EmptyString :: split c s'
      else match split c s' with
           | [] => [String x EmptyString]
           | h :: t => String x h :: t
           end
  end.

(** [l[-1]] of a list known to be non-empty, with a default. *)
Definition last_item (l : list string) : string := List.last l EmptyString.

(** [len(s)] *)
Definition len (s : string) : Z := Z.of_nat (String.length s).

(** Truthiness of a string: [bool(s)]. *)
Definition truthy (s : string) : bool :=
  match s with EmptyString => false | _ => true end.

(** [x or d] where [x] is [None] or a string. *)
Definition or_else (x : option string) (d : string) : string :=
  match x with
  | Some s => if truthy s then s else d
  | None => d
  end.

Definition digit_of (c : ascii) : option Z :=
  let n := Z.of_N (N_of_ascii c) in
  if (48 <=? n) && (n <=? 57) then Some (n - 48) else None.

(** Digits of a decimal literal; single underscores may separate digits. *)
Fixpoint int_digits (acc : Z) (after_digit : bool) (s : string) : option Z :=
  match s with
  | EmptyString => if after_digit then Some acc else None
  | String c s' =>
      match digit_of c with
      | Some d => int_digits (10 * acc + d) true s'
      | None =>
          if Ascii.eqb c "_" && after_digit then int_digits acc false s'
          else None
      end
  end.

Fixpoint count_digits (s : string) : Z :=
  match s with
  | EmptyString => 0
  | String c s' => (match digit_of c with Some _ => 1 | None => 0 end) + count_digits s'
  end.

(** [sys.int_info.default_max_str_digits] *)
Definition max_str_digits : Z := 4300.

(** The white space that [int] skips at both ends of its argument
    ([Py_ISSPACE]): TAB..CR and the space, but not FS..US, which [str.strip]
    does remove. *)
Definition int_isspace (c : ascii) : bool :=
  let n := N_of_ascii c in
  (((9 <=? n) && (n <=? 13)) || (n =? 32))%N.

Fixpoint int_lstrip (s : string) : string :=
  match s with
  | EmptyString => EmptyString
  | String c s' => if int_isspace c then int_lstrip s' else s
  end.

Fixpoint int_rstrip (s : string) : string :=
  match s with
  | EmptyString => EmptyString
  | String c s' =>
      match int_rstrip s' with
      | EmptyString => if int_isspace c then EmptyString else String c EmptyString
      | r => String c r
      end
  end.

(** [int(s)]: [None] stands for [ValueError]. *)
Definition int (s : string) : option Z :=
  let t := int_rstrip (int_lstrip s) in
  if max_str_digits <? count_digits t then None
  else
    match t with
    | String "-" r => option_map Z.opp (int_digits 0 false r)
    | String "+" r => int_digits 0 false r
    | _ => int_digits 0 false t
    end.

(** [html.escape(s)] with [quote=True]. *)
Fixpoint html_escape (s : string) : string :=
  match s with
  | EmptyString => EmptyString
  | String c s' =>
      (if Ascii.eqb c "&" then "&amp;"
       else if Ascii.eqb c "<" then "&lt;"
       else if Ascii.eqb c ">" then "&gt;"
       else if Ascii.eqb c (ascii_of_N 34) then "&quot;"
       else if Ascii.eqb c "'" then "&#x27;"
       else String c EmptyString) +s+ html_escape s'
  end.

Definition hex_digit (n : N) : ascii :=
  if (n <? 10)%N then ascii_of_N (48 + n) else ascii_of_N (55 + n).

Definition unreserved (c : ascii) : bool :=
  let n := N_of_ascii c in
  (((48 <=? n) && (n <=? 57)) || ((65 <=? n) && (n <=? 90))
   || ((97 <=? n) && (n <=? 122))
   || (n =? 95) || (n =? 46) || (n =? 45) || (n =? 126) || (n =? 47))%N.

(** [urllib.parse.quote(s)] with the default [safe='/']. *)
Fixpoint quote (s : string) : string :=
  match s with
  | EmptyString => EmptyString
  | String c s' =>
      if unreserved c then String c (quote s')
      else
        let n := N_of_ascii c in
        String "%" (String (hex_digit (n / 16)) (String (hex_digit (n mod 16)) (quote s')))
  end.

(** The alphabet of [secrets.token_urlsafe]: letters, digits, [-] and [_]. *)
Definition urlsafe_char (c : ascii) : bool :=
  let n := N_of_ascii c in
  (((48 <=? n) && (n <=? 57)) || ((65 <=? n) && (n <=? 90))
   || ((97 <=? n) && (n <=? 122)) || (n =? 45) || (n =? 95))%N.

Fixpoint urlsafe (s : string) : bool :=
  match s with
  | EmptyString => true
  | String c s' => urlsafe_char c && urlsafe s'
  end.

(** [s.startswith(p)] *)
Definition startswith (s p : string) : bool := String.prefix p s.

(** [s.encode("utf-8")] on ASCII text. *)
Definition encode (s : string) : list byte := list_byte_of_string s.

End Py.

Definition bytes := list byte.

Definition bytes_eqb (a b : bytes) : bool :=
  if list_eq_dec Byte.byte_eq_dec a b then true else false.

Lemma bytes_eqb_eq (a b : bytes) : bytes_eqb a b = true <-> a = b.
Proof.
  unfold bytes_eqb. destruct (list_eq_dec Byte.byte_eq_dec a b); split; congruence.
Qed.

Lemma bytes_eqb_refl (a : bytes) : bytes_eqb a a = true.
Proof. now apply bytes_eqb_eq. Qed.

(** [hmac.compare_digest(a, b)]: equality of byte strings (the constant
    running time is not part of the model). *)
Definition compare_digest (a b : bytes) : bool := bytes_eqb a b.

(** ** The store: the three tables of [_ensure_db] *)

Record user := mk_user {
  u_id : Z;
  u_email : string;
  u_email_norm : string;
  u_pass_salt : bytes;
  u_pass_hash : bytes;
  u_is_admin : Z;
  u_disabled : Z;
  u_created_at : Z
}.

Record session := mk_session {
  s_id : Z;
  s_user_id : Z;
  s_token_hash : bytes;
  s_created_at : Z;
  s_last_seen_at : Z;
  s_expires_at : Z
}.

Record reset_token := mk_reset_token {
  r_id : Z;
  r_user_id : Z;
  r_selector : string;
  r_verifier_hash : bytes;
  r_created_at : Z;
  r_expires_at : Z;
  r_used_at : option Z
}.

(** Rows are kept in insertion order; the [_seq] fields are the
    [sqlite_sequence] counters of the AUTOINCREMENT keys. *)
Record db := mk_db {
  users : list user;
  users_seq : Z;
  sessions : list session;
  sessions_seq : Z;
  password_reset_tokens : list reset_token;
  password_reset_tokens_seq : Z
}.

Definition empty_db : db := mk_db [] 0 [] 0 [] 0.

(** The SQL statements the server executes.  [None] is [sqlite3.IntegrityError]
    (a UNIQUE or FOREIGN KEY constraint refused the row). *)
Module Sql.

(** An integer parameter must fit SQLite's 64-bit INTEGER; binding a larger
    one raises [OverflowError].  The admin routes bind the [user_id] of the
    form to the first statement that takes it, before any row is changed. *)
Definition bindable (i : Z) : bool := (- 2 ^ 63 <=? i) && (i <? 2 ^ 63).

(** AUTOINCREMENT: one more than the largest key ever used. *)
Definition next_rowid (seq : Z) (ids : list Z) : Z := fold_right Z.max seq ids + 1.

Definition with_users (d : db) (l : list user) (seq : Z) : db :=
  mk_db l seq (sessions d) (sessions_seq d)
        (password_reset_tokens d) (password_reset_tokens_seq d).

Definition with_sessions (d : db) (l : list session) (seq : Z) : db :=
  mk_db (users d) (users_seq d) l seq
        (password_reset_tokens d) (password_reset_tokens_seq d).

Definition with_reset_tokens (d : db) (l : list reset_token) (seq : Z) : db :=
  mk_db (users d) (users_seq d) (sessions d) (sessions_seq d) l seq.

Definition user_exists (i : Z) (d : db) : bool :=
  existsb (fun u => u_id u =? i) (users d).

(** INSERT INTO users(...) VALUES (...) *)
Definition insert_user (email email_norm : string) (salt hash : bytes)
           (is_admin disabled created_at : Z) (d : db) : option db :=
  if existsb (fun u => (u_email_norm u =? email_norm)%string) (users d) then None
  else
    let i := next_rowid (users_seq d) (map u_id (users d)) in
    Some (with_users d
            (users d ++ [mk_user i email email_norm salt hash is_admin disabled created_at])
            i).

(** INSERT INTO sessions(...) VALUES (...) *)
Definition insert_session (user_id : Z) (token_hash : bytes)
           (created_at last_seen_at expires_at : Z) (d : db) : option db :=
  if existsb (fun s => bytes_eqb (s_token_hash s) token_hash) (sessions d) then None
  else if negb (user_exists user_id d) then None
  else
    let i := next_rowid (sessions_seq d) (map s_id (sessions d)) in
    Some (with_sessions d
            (sessions d ++ [mk_session i user_id token_hash created_at last_seen_at expires_at])
            i).

(** INSERT INTO password_reset_tokens(...) VALUES (..., NULL) *)
Definition insert_reset_token (user_id : Z) (selector : string) (verifier_hash : bytes)
           (created_at expires_at : Z) (d : db) : option db :=
  if existsb (fun r => (r_selector r =? selector)%string) (password_reset_tokens d) then None
  else if negb (user_exists user_id d) then None
  else
    let i := next_rowid (password_reset_tokens_seq d) (map r_id (password_reset_tokens d)) in
    Some (with_reset_tokens d
            (password_reset_tokens d
               ++ [mk_reset_token i user_id selector verifier_hash created_at expires_at None])
            i).

(** SELECT ... FROM users WHERE email_norm=? *)
Definition user_by_email_norm (e : string) (d : db) : option user :=
  find (fun u => (u_email_norm u =? e)%string) (users d).

(** SELECT id FROM users WHERE email_norm=? AND disabled=0 *)
Definition enabled_user_by_email_norm (e : string) (d : db) : option user :=
  find (fun u => (u_email_norm u =? e)%string && (u_disabled u =? 0)) (users d).

(** SELECT ... FROM users WHERE id=? *)
Definition user_by_id (i : Z) (d : db) : option user :=
  find (fun u => u_id u =? i) (users d).

(** SELECT COUNT( * ) AS n FROM users *)
Definition count_users (d : db) : Z := Z.of_nat (List.length (users d)).

(** SELECT COUNT( * ) AS n FROM users WHERE is_admin=1 *)
Definition count_admins (d : db) : Z :=
  Z.of_nat (List.length (filter (fun u => u_is_admin u =? 1) (users d))).

(** SELECT ... FROM password_reset_tokens WHERE selector=? *)
Definition reset_token_by_selector (sel : string) (d : db) : option reset_token :=
  find (fun r => (r_selector r =? sel)%string) (password_reset_tokens d).

(** UPDATE users SET pass_salt=?, pass_hash=? WHERE id=? *)
Definition update_user_password (salt hash : bytes) (i : Z) (d : db) : db :=
  with_users d
    (map (fun u => if u_id u =? i
                   then mk_user (u_id u) (u_email u) (u_email_norm u) salt hash
                                (u_is_admin u) (u_disabled u) (u_created_at u)
                   else u) (users d))
    (users_seq d).

(** UPDATE users SET disabled=? WHERE id=? *)
Definition update_user_disabled (v : Z) (i : Z) (d : db) : db :=
  with_users d
    (map (fun u => if u_id u =? i
                   then mk_user (u_id u) (u_email u) (u_email_norm u) (u_pass_salt u)
                                (u_pass_hash u) (u_is_admin u) v (u_created_at u)
                   else u) (users d))
    (users_seq d).

(** UPDATE users SET is_admin=? WHERE id=? *)
Definition update_user_is_admin (v : Z) (i : Z) (d : db) : db :=
  with_users d
    (map (fun u => if u_id u =? i
                   then mk_user (u_id u) (u_email u) (u_email_norm u) (u_pass_salt u)
                                (u_pass_hash u) v (u_disabled u) (u_created_at u)
                   else u) (users d))
    (users_seq d).

(** UPDATE sessions SET last_seen_at=? WHERE id=? *)
Definition update_session_last_seen (t : Z) (i : Z) (d : db) : db :=
  with_sessions d
    (map (fun s => if s_id s =? i
                   then mk_session (s_id s) (s_user_id s) (s_token_hash s)
                                   (s_created_at s) t (s_expires_at s)
                   else s) (sessions d))
    (sessions_seq d).

(** UPDATE password_reset_tokens SET used_at=? WHERE id=? *)
Definition update_reset_token_used (t : Z) (i : Z) (d : db) : db :=
  with_reset_tokens d
    (map (fun r => if r_id r =? i
                   then mk_reset_token (r_id r) (r_user_id r) (r_selector r)
                                       (r_verifier_hash r) (r_created_at r)
                                       (r_expires_at r) (Some t)
                   else r) (password_reset_tokens d))
    (password_reset_tokens_seq d).

(** DELETE FROM sessions WHERE token_hash=? *)
Definition delete_sessions_by_token_hash (h : bytes) (d : db) : db :=
  with_sessions d
    (filter (fun s => negb (bytes_eqb (s_token_hash s) h)) (sessions d))
    (sessions_seq d).

(** DELETE FROM sessions WHERE user_id=? *)
Definition delete_sessions_by_user (i : Z) (d : db) : db :=
  with_sessions d
    (filter (fun s => negb (s_user_id s =? i)) (sessions d))
    (sessions_seq d).

(** DELETE FROM users WHERE id=?  -- with both ON DELETE CASCADE clauses *)
Definition delete_user (i : Z) (d : db) : db :=
  mk_db (filter (fun u => negb (u_id u =? i)) (users d)) (users_seq d)
        (filter (fun s => negb (s_user_id s =? i)) (sessions d)) (sessions_seq d)
        (filter (fun r => negb (r_user_id r =? i)) (password_reset_tokens d))
        (password_reset_tokens_seq d).

End Sql.

(** ** Requests, responses and the per-request environment *)

(** A Python [dict] from strings to strings, as an association list with at
    most one entry per key. *)
Definition dict := list (string * string).

Definition dict_get (k : string) (d : dict) : option string :=
  option_map snd (find (fun p => (fst p =? k)%string) d).

Definition dict_mem (k : string) (d : dict) : bool :=
  existsb (fun p => (fst p =? k)%string) d.

Definition dict_set (k v : string) (d : dict) : dict :=
  (k, v) :: filter (fun p => negb (fst p =? k)%string) d.

(** What the handler reads from the request: the path, four headers and the
    pairs that [urllib.parse.parse_qsl] yields for the body of [Content-Length]
    bytes. *)
Record request := mk_request {
  path : string;
  header_host : option string;
  header_origin : option string;
  header_referer : option string;
  header_cookie : option string;
  body_pairs : list (string * string)
}.

(** The clock readings and the [secrets] draws of one POST request. *)
Record env := mk_env {
  clock_auth : Z;                (* [_utc_now_ts()] in [_get_current_user] *)
  clock_post : Z;                (* [now] in [_handle_app_post] *)
  clock_session : Z;             (* [_utc_now_ts()] in [_create_session] *)
  rnd_session_token : string;    (* [secrets.token_urlsafe(32)] *)
  rnd_salt : bytes;              (* [secrets.token_bytes(16)] *)
  rnd_selector : string;         (* [secrets.token_urlsafe(9)] *)
  rnd_verifier : string          (* [secrets.token_urlsafe(24)] *)
}.

Inductive set_cookie :=
| SessionCookie (token : string) (max_age_seconds : Z)   (* [_session_cookie_header] *)
| ClearSessionCookie.                                    (* [_clear_session_cookie_header] *)

(** What a POST handler sends: a page through [_send_html], a 303 redirect
    (with an optional Set-Cookie), or nothing because an exception escaped. *)
Inductive response :=
| SendHtml (status : Z) (title body_html : string)
| Redirect (location : string) (cookie : option set_cookie)
| Unhandled.

(** What a GET handler sends; the bodies of the pages are rendering only. *)
Inductive get_response :=
| GetRedirect (location : string) (cookie : option set_cookie)
| GetPage (status : Z) (title : string).

(** [with conn: ...] around a block that ends in [Some] (normal exit, the
    work is committed) or [None] (an exception escapes, the work is rolled
    back and the client gets no page from the handler). *)
Definition with_transaction (d : db) (block : option (db * response)) : db * response :=
  match block with
  | Some (d', r) => (d', r)
  | None => (d, Unhandled)
  end.

(** The row [_get_current_user] returns. *)
Record current_user := mk_current_user {
  session_id : Z;
  user_id : Z;
  email : string;
  is_admin : Z;
  disabled : Z
}.

(** ** The server *)

(** Three functions come from Python's library and stay abstract:
    [hashlib.sha256(b).digest()], [hashlib.scrypt(pw, salt=.., n=2**14, r=8,
    p=1, dklen=64)] and [urllib.parse.urlparse(s).netloc] ([None] when
    [urlparse] raises). *)
Class PyLib := {
  sha256 : bytes -> bytes;
  scrypt : bytes -> bytes -> bytes;
  urlparse_netloc : string -> option string
}.

Section Server.

Context {lib : PyLib}.

Definition _normalize_email (raw : string) : string := Py.lower (Py.strip raw).

Definition _is_emailish (s : string) : bool :=
  let s := Py.strip s in
  Py.contains "@" s && Py.contains "." (Py.last_item (Py.split1 "@" s)).

Definition _password_hash (password : string) (salt : bytes) : bytes :=
  scrypt (Py.encode password) salt.

Definition _sha256_bytes (raw : string) : bytes := sha256 (Py.encode raw).

Definition _parse_cookies (header_value : option string) : dict :=
  match header_value with
  | None => []
  | Some hv =>
      if negb (Py.truthy hv) then []
      else
        fold_left
          (fun out part =>
             match Py.cut "=" part with
             | None => out
             | Some (k, v) => dict_set (Py.strip k) (Py.strip v) out
             end)
          (Py.split ";" hv) []
  end.

Definition _parse_form_urlencoded (pairs : list (string * string)) : dict :=
  fold_left
    (fun out kv => if dict_mem (fst kv) out then out else dict_set (fst kv) (snd kv) out)
    pairs [].

Definition _same_origin_post (req : request) : bool :=
  let host := Py.strip (Py.or_else (header_host req) "") in
  if negb (Py.truthy host) then false
  else
    let origin := Py.strip (Py.or_else (header_origin req) "") in
    let referer := Py.strip (Py.or_else (header_referer req) "") in
    let candidate := if Py.truthy origin then origin else referer in
    if negb (Py.truthy candidate) then true
    else
      match urlparse_netloc candidate with
      | None => false
      | Some netloc => (netloc =? host)%string
      end.

Definition _create_session (e : env) (uid : Z) (d : db) : option (db * (string * Z)) :=
  let token := rnd_session_token e in
  let now := clock_session e in
  let expires_at := now + 60 * 60 * 24 * 14 in
  match Sql.insert_session uid (_sha256_bytes token) now now expires_at d with
  | Some d' => Some (d', (token, expires_at))
  | None => None
  end.

(** The SELECT of [_get_current_user]: sessions joined with users. *)
Definition select_current_user (token_hash : bytes) (now : Z) (d : db) : list current_user :=
  flat_map
    (fun s =>
       if bytes_eqb (s_token_hash s) token_hash && (s_expires_at s >? now)
       then map (fun u => mk_current_user (s_id s) (s_user_id s) (u_email u)
                                          (u_is_admin u) (u_disabled u))
                (filter (fun u => u_id u =? s_user_id s) (users d))
       else [])
    (sessions d).

Definition _get_current_user (req : request) (now : Z) (d : db) : db * option current_user :=
  let cookies := _parse_cookies (header_cookie req) in
  match dict_get "bi_session" cookies with
  | None => (d, None)
  | Some token =>
      if negb (Py.truthy token) then (d, None)
      else
        match hd_error (select_current_user (_sha256_bytes token) now d) with
        | None => (d, None)
        | Some row => (Sql.update_session_last_seen now (session_id row) d, Some row)
        end
  end.

Definition form_get (form : dict) (k : string) : string := Py.or_else (dict_get k form) "".

Definition login_invalid : response :=
  SendHtml 400 "Login" "<h1>Login</h1><p class='error'>Invalid email or password.</p><p><a href='/app/login'>Back</a></p>".

(** Each branch of [_handle_app_post] returns the store it leaves and the
    response, or [None] when an exception escapes the handler. *)
Definition post_login (form : dict) (e : env) (user : option current_user) (d : db)
  : option (db * response) :=
  match user with
  | Some _ => Some (d, Redirect "/app/account" None)
  | None =>
      let email := _normalize_email (form_get form "email") in
      let password := form_get form "password" in
      if negb (_is_emailish email) || negb (Py.truthy password) then Some (d, login_invalid)
      else
        match Sql.user_by_email_norm email d with
        | None => Some (d, login_invalid)
        | Some row =>
            if negb (u_disabled row =? 0) then
              Some (d, SendHtml 403 "Login" "<h1>Login</h1><p class='error'>This account is disabled.</p><p><a href='/app/login'>Back</a></p>")
            else if negb (compare_digest (_password_hash password (u_pass_salt row)) (u_pass_hash row))
            then Some (d, login_invalid)
            else
              match _create_session e (u_id row) d with
              | None => None
              | Some (d', (token, expires_at)) =>
                  Some (d', Redirect "/app/account"
                              (Some (SessionCookie token (expires_at - clock_post e))))
              end
        end
  end.

Definition post_register (form : dict) (e : env) (user : option current_user) (d : db)
  : option (db * response) :=
  match user with
  | Some _ => Some (d, Redirect "/app/account" None)
  | None =>
      let email := _normalize_email (form_get form "email") in
      let password := form_get form "password" in
      if negb (_is_emailish email) || (Py.len password <? 8) then
        Some (d, SendHtml 400 "Register" "<h1>Register</h1><p class='error'>Use a valid email and a password of at least 8 characters.</p><p><a href='/app/register'>Back</a></p>")
      else
        (* Bootstrap: first user becomes admin. *)
        let existing := Sql.count_users d in
        let is_admin := if existing =? 0 then 1 else 0 in
        let salt := rnd_salt e in
        let pwh := _password_hash password salt in
        match Sql.insert_user email email salt pwh is_admin 0 (clock_post e) d with
        | None =>
            Some (d, SendHtml 400 "Register" "<h1>Register</h1><p class='error'>That email is already registered.</p><p><a href='/app/register'>Back</a></p>")
        | Some d1 =>
            match Sql.user_by_email_norm email d1 with
            | None => None
            | Some row =>
                match _create_session e (u_id row) d1 with
                | None => None
                | Some (d2, (token, expires_at)) =>
                    Some (d2, Redirect "/app/account"
                                (Some (SessionCookie token (expires_at - clock_post e))))
                end
            end
        end
  end.

Definition post_change_password (form : dict) (e : env) (user : option current_user) (d : db)
  : option (db * response) :=
  match user with
  | None => Some (d, Redirect "/app/login" None)
  | Some user =>
      if negb (disabled user =? 0) then
        Some (d, SendHtml 403 "Account" "<h1>Account</h1><p class='error'>Account disabled.</p>")
      else
        let current_password := form_get form "current_password" in
        let new_password := form_get form "new_password" in
        if Py.len new_password <? 8 then
          Some (d, SendHtml 400 "Account" "<h1>Account</h1><p class='error'>New password must be at least 8 characters.</p><p><a href='/app/account'>Back</a></p>")
        else
          match Sql.user_by_id (user_id user) d with
          | None => Some (d, Redirect "/app/logout" None)
          | Some row =>
              if negb (compare_digest (_password_hash current_password (u_pass_salt row)) (u_pass_hash row))
              then Some (d, SendHtml 400 "Account" "<h1>Account</h1><p class='error'>Current password is incorrect.</p><p><a href='/app/account'>Back</a></p>")
              else
                let salt := rnd_salt e in
                let pwh := _password_hash new_password salt in
                Some (Sql.update_user_password salt pwh (user_id user) d,
                      Redirect "/app/account" None)
          end
  end.

Definition post_account_delete (form : dict) (user : option current_user) (d : db)
  : option (db * response) :=
  match user with
  | None => Some (d, Redirect "/app/login" None)
  | Some user =>
      let password := form_get form "password" in
      match Sql.user_by_id (user_id user) d with
      | None => Some (d, Redirect "/app/logout" None)
      | Some row =>
          if negb (compare_digest (_password_hash password (u_pass_salt row)) (u_pass_hash row))
          then Some (d, SendHtml 400 "Account" "<h1>Account</h1><p class='error'>Password is incorrect.</p><p><a href='/app/account'>Back</a></p>")
          else
            (* Hard delete user + cascades. *)
            Some (Sql.delete_user (user_id user) d,
                  Redirect "/app/register" (Some ClearSessionCookie))
      end
  end.

Definition reset_generic_body : string :=
  "<h1>Reset password</h1><p class='ok'>If the account exists, a reset link has been created.</p><p><a href='/app/login'>Back to login</a></p>".

Definition reset_created_body (token : string) : string :=
  let link := "/app/reset/confirm?token=" +s+ Py.quote token in
  "<h1>Reset password</h1>"
  +s+ "<p class='ok'>Reset link created (dev).</p>"
  +s+ "<p><a href='" +s+ Py.html_escape link +s+ "'>Click here to reset your password</a></p>"
  +s+ "<p class='muted'>Token: <code>" +s+ Py.html_escape token +s+ "</code></p>"
  +s+ "<p><a href='/app/login'>Back to login</a></p>".

Definition post_reset (form : dict) (e : env) (user : option current_user) (d : db)
  : option (db * response) :=
  match user with
  | Some _ => Some (d, Redirect "/app/account" None)
  | None =>
      let email := _normalize_email (form_get form "email") in
      (* Avoid leaking existence; message is generic either way. *)
      match Sql.enabled_user_by_email_norm email d with
      | None => Some (d, SendHtml 200 "Reset password" reset_generic_body)
      | Some row =>
          let selector := rnd_selector e in
          let verifier := rnd_verifier e in
          let verifier_hash := _sha256_bytes verifier in
          let now := clock_post e in
          let expires_at := now + 60 * 60 in
          match Sql.insert_reset_token (u_id row) selector verifier_hash now expires_at d with
          | None => None
          | Some d' =>
              let token := selector +s+ "." +s+ verifier in
              Some (d', SendHtml 200 "Reset password" (reset_created_body token))
          end
      end
  end.

Definition confirm_invalid_token : response :=
  SendHtml 400 "Confirm reset" "<h1>Set new password</h1><p class='error'>Invalid token.</p>".

Definition confirm_expired_or_used : response :=
  SendHtml 400 "Confirm reset" "<h1>Set new password</h1><p class='error'>Token expired or already used.</p>".

Definition confirm_weak_password : response :=
  SendHtml 400 "Confirm reset" "<h1>Set new password</h1><p class='error'>Password must be at least 8 characters.</p>".

Definition confirm_success : response :=
  SendHtml 200 "Password reset" "<h1>Password updated</h1><p class='ok'>You can now log in with your new password.</p><p><a href='/app/login'>Login</a></p>".

Definition post_reset_confirm (form : dict) (e : env) (user : option current_user) (d : db)
  : option (db * response) :=
  match user with
  | Some _ => Some (d, Redirect "/app/account" None)
  | None =>
      let token := Py.strip (form_get form "token") in
      let new_password := form_get form "new_password" in
      let now := clock_post e in
      if Py.len new_password <? 8 then Some (d, confirm_weak_password)
      else
        match Py.cut "." token with
        | None => Some (d, confirm_invalid_token)
        | Some (selector, verifier) =>
            match Sql.reset_token_by_selector selector d with
            | None => Some (d, confirm_expired_or_used)
            | Some row =>
                match r_used_at row with
                | Some _ => Some (d, confirm_expired_or_used)
                | None =>
                    if r_expires_at row <=? now then Some (d, confirm_expired_or_used)
                    else if negb (compare_digest (_sha256_bytes verifier) (r_verifier_hash row))
                    then Some (d, confirm_invalid_token)
                    else
                      let salt := rnd_salt e in
                      let pwh := _password_hash new_password salt in
                      let d1 := Sql.update_user_password salt pwh (r_user_id row) d in
                      let d2 := Sql.update_reset_token_used now (r_id row) d1 in
                      (* Revoke all sessions for that user. *)
                      let d3 := Sql.delete_sessions_by_user (r_user_id row) d2 in
                      Some (d3, confirm_success)
                end
            end
        end
  end.

Definition admin_msg (m : string) : response :=
  Redirect ("/app/admin?msg=" +s+ Py.quote m) None.

Definition admin_create_user (form : dict) (e : env) (d : db) : option (db * response) :=
  let email := _normalize_email (form_get form "email") in
  let password := form_get form "password" in
  let is_admin :=
    match dict_get "is_admin" form with
    | Some v => if (v =? "1")%string then 1 else 0
    | None => 0
    end in
  if negb (_is_emailish email) || (Py.len password <? 8) then
    Some (d, admin_msg "Invalid email or password too short")
  else
    let salt := rnd_salt e in
    let pwh := _password_hash password salt in
    match Sql.insert_user email email salt pwh is_admin 0 (clock_post e) d with
    | None => Some (d, admin_msg "Email already exists")
    | Some d' => Some (d', admin_msg "User created")
    end.

Definition admin_toggle_disabled (form : dict) (d : db) : option (db * response) :=
  match Py.int (Py.or_else (dict_get "user_id" form) "0"),
        Py.int (Py.or_else (dict_get "disabled" form) "0") with
  | Some uid, Some v =>
      let disabled := if v =? 0 then 0 else 1 in
      if negb (Sql.bindable uid) then None
      else Some (Sql.update_user_disabled disabled uid d, admin_msg "Updated")
  | _, _ => Some (d, admin_msg "Invalid request")
  end.

Definition admin_toggle_admin (form : dict) (d : db) : option (db * response) :=
  match Py.int (Py.or_else (dict_get "user_id" form) "0"),
        Py.int (Py.or_else (dict_get "is_admin" form) "0") with
  | Some uid, Some v =>
      let is_admin := if v =? 0 then 0 else 1 in
      if negb (Sql.bindable uid) then None
      else
      (* Prevent removing admin from the last admin account. *)
      let refused :=
        if is_admin =? 0 then
          let n_admin := Sql.count_admins d in
          match Sql.user_by_id uid d with
          | Some is_current_admin => (u_is_admin is_current_admin =? 1) && (n_admin <=? 1)
          | None => false
          end
        else false in
      if refused then Some (d, admin_msg "Cannot remove the last admin")
      else Some (Sql.update_user_is_admin is_admin uid d, admin_msg "Updated")
  | _, _ => Some (d, admin_msg "Invalid request")
  end.

Definition admin_create_reset (form : dict) (e : env) (d : db) : option (db * response) :=
  match Py.int (Py.or_else (dict_get "user_id" form) "0") with
  | None => Some (d, admin_msg "Invalid request")
  | Some target_user_id =>
      if negb (Sql.bindable target_user_id) then None
      else
      match Sql.user_by_id target_user_id d with
      | None => Some (d, admin_msg "User not found")
      | Some _ =>
          let selector := rnd_selector e in
          let verifier := rnd_verifier e in
          let verifier_hash := _sha256_bytes verifier in
          let now := clock_post e in
          let expires_at := now + 60 * 60 in
          match Sql.insert_reset_token target_user_id selector verifier_hash now expires_at d with
          | None => None
          | Some d' =>
              let token := selector +s+ "." +s+ verifier in
              Some (d', admin_msg ("Reset token (dev): " +s+ token))
          end
      end
  end.

Definition admin_delete_user (form : dict) (d : db) : option (db * response) :=
  match Py.int (Py.or_else (dict_get "user_id" form) "0") with
  | None => Some (d, admin_msg "Invalid request")
  | Some target_user_id =>
      if negb (Sql.bindable target_user_id) then None
      else
      (* Prevent deleting the last admin. *)
      let refused :=
        match Sql.user_by_id target_user_id d with
        | Some target =>
            if u_is_admin target =? 1 then Sql.count_admins d <=? 1 else false
        | None => false
        end in
      if refused then Some (d, admin_msg "Cannot delete the last admin")
      else Some (Sql.delete_user target_user_id d, admin_msg "User deleted")
  end.

Definition post_not_found : response :=
  SendHtml 404 "Not Found" "<h1>Not Found</h1><p class='muted'>Unknown POST route.</p>".

Definition admin_forbidden : response :=
  SendHtml 403 "Admin" "<h1>Forbidden</h1><p class='error'>Admin access required.</p>".

(** The sub-routes below [/app/admin/], after the authorization gate. *)
Definition admin_routes (p : string) (form : dict) (e : env) (d : db)
  : option (db * response) :=
  if (p =? "/app/admin/create-user")%string then admin_create_user form e d
  else if (p =? "/app/admin/toggle-disabled")%string then admin_toggle_disabled form d
  else if (p =? "/app/admin/toggle-admin")%string then admin_toggle_admin form d
  else if (p =? "/app/admin/create-reset")%string then admin_create_reset form e d
  else if (p =? "/app/admin/delete-user")%string then admin_delete_user form d
  else Some (d, post_not_found).

Definition post_admin (p : string) (form : dict) (e : env) (user : option current_user)
           (d : db) : option (db * response) :=
  match user with
  | None => Some (d, Redirect "/app/login" None)
  | Some user =>
      if is_admin user =? 0 then Some (d, admin_forbidden)
      else admin_routes p form e d
  end.

(** The body of the [with _db_connect() as conn:] block of [_handle_app_post]. *)
Definition post_routes (req : request) (e : env) (d : db) : option (db * response) :=
  let form := _parse_form_urlencoded (body_pairs req) in
  let '(d, user) := _get_current_user req (clock_auth e) d in
  let p := path req in
  if (p =? "/app/login")%string then post_login form e user d
  else if (p =? "/app/register")%string then post_register form e user d
  else if (p =? "/app/account/change-password")%string then post_change_password form e user d
  else if (p =? "/app/account/delete")%string then post_account_delete form user d
  else if (p =? "/app/reset")%string then post_reset form e user d
  else if (p =? "/app/reset/confirm")%string then post_reset_confirm form e user d
  else if Py.startswith p "/app/admin/" then post_admin p form e user d
  else Some (d, post_not_found).

Definition origin_check_failed : response :=
  SendHtml 400 "Bad Request" "<h1>Bad Request</h1><p class='error'>Origin check failed.</p>".

(** [_handle_app_post]: leaving the [with] block normally commits, an
    escaping exception rolls the transaction back. *)
Definition _handle_app_post (req : request) (e : env) (d : db) : db * response :=
  if negb (_same_origin_post req) then (d, origin_check_failed)
  else with_transaction d (post_routes req e d).

(** [_handle_app_get]: what it does to the store and where it sends the
    client. *)
Definition _handle_app_get (req : request) (now : Z) (d : db) : db * get_response :=
  let '(d, user) := _get_current_user req now d in
  let p := path req in
  let when_anonymous (title : string) :=
    match user with
    | Some _ => GetRedirect "/app/account" None
    | None => GetPage 200 title
    end in
  if (p =? "/app")%string then
    (d, match user with
        | None => GetRedirect "/app/login" None
        | Some _ => GetRedirect "/app/account" None
        end)
  else if (p =? "/app/login")%string then (d, when_anonymous "Login")
  else if (p =? "/app/register")%string then (d, when_anonymous "Register")
  else if (p =? "/app/logout")%string then
    let d' :=
      match user with
      | None => d
      | Some _ =>
          match dict_get "bi_session" (_parse_cookies (header_cookie req)) with
          | Some token =>
              if Py.truthy token
              then Sql.delete_sessions_by_token_hash (_sha256_bytes token) d
              else d
          | None => d
          end
      end in
    (d', GetRedirect "/app/login" (Some ClearSessionCookie))
  else if (p =? "/app/account")%string then
    (d, match user with
        | None => GetRedirect "/app/login" None
        | Some _ => GetPage 200 "Account"
        end)
  else if (p =? "/app/reset")%string then (d, when_anonymous "Reset password")
  else if (p =? "/app/reset/confirm")%string then (d, when_anonymous "Confirm reset")
  else if (p =? "/app/admin")%string then
    (d, match user with
        | None => GetRedirect "/app/login" None
        | Some user => if is_admin user =? 0 then GetPage 403 "Admin" else GetPage 200 "Admin"
        end)
  else (d, GetPage 404 "Not Found").

(** ** Runs of the server *)

Inductive event :=
| Get (req : request) (now : Z)
| Post (req : request) (e : env).

Definition step (ev : event) (d : db) : db :=
  match ev with
  | Get req now => fst (_handle_app_get req now d)
  | Post req e => fst (_handle_app_post req e d)
  end.

Definition run (evs : list event) (d : db) : db := fold_left (fun d ev => step ev d) evs d.

(** The stores the server can be in: it starts from the empty tables that
    [_ensure_db] creates and changes the store only through its handlers. *)
Inductive reachable : db -> Prop :=
| reachable_init : reachable empty_db
| reachable_step ev d : reachable d -> reachable (step ev d).

(** The form a request carries. *)
Definition form_of (req : request) : dict := _parse_form_urlencoded (body_pairs req).

(** The request carries the bearer token [token] in its session cookie. *)
Definition presents (req : request) (token : string) : Prop :=
  dict_get "bi_session" (_parse_cookies (header_cookie req)) = Some token.

(** The token hash and the selector that the rows inserted by an event carry. *)
Definition event_token_hash (ev : event) : option bytes :=
  match ev with
  | Get _ _ => None
  | Post _ e => Some (_sha256_bytes (rnd_session_token e))
  end.

Definition event_selector (ev : event) : option string :=
  match ev with
  | Get _ _ => None
  | Post _ e => Some (rnd_selector e)
  end.

(** No request of [evs] draws a session token with the hash of [token]: the
    draws of [secrets.token_urlsafe(32)] do not repeat. *)
Definition fresh_session_tokens (token : string) (evs : list event) : Prop :=
  forall ev, In ev evs -> event_token_hash ev <> Some (_sha256_bytes token).

(** No request of [evs] draws the selector [sel] again. *)
Definition fresh_selectors (sel : string) (evs : list event) : Prop :=
  forall ev, In ev evs -> event_selector ev <> Some sel.

End Server.

(** A small instance of the library, to run the server on concrete requests. *)
Definition toy : PyLib := {|
  sha256 := fun b => b;
  scrypt := fun pw salt => pw ++ salt;
  urlparse_netloc := fun _ => None
|}.

(** ** Notions the properties are stated with *)

(** The count the specification speaks of: admins that are not disabled. *)
Definition count_enabled_admins (d : db) : Z :=
  Z.of_nat (List.length (filter (fun u => negb (u_is_admin u =? 0) && (u_disabled u =? 0))
                           (users d))).

(** Every reset record with selector [sel0] has been redeemed. *)
Definition spent (sel0 : string) (d : db) : Prop :=
  forall r, In r (password_reset_tokens d) -> r_selector r = sel0 -> r_used_at r <> None.

(** [ends_plain s]: the last character of [s], if any, is not white space. *)
Fixpoint ends_plain (s : string) : bool :=
  match s with
  | EmptyString => true
  | String c EmptyString => negb (Py.isspace c)
  | String _ s' => ends_plain s'
  end.

(** Well-formed stores: what the PRIMARY KEY, UNIQUE and FOREIGN KEY clauses
    of the schema guarantee. *)
Record wf (d : db) : Prop := mk_wf {
  wf_user_ids : NoDup (map u_id (users d));
  wf_token_hashes : NoDup (map s_token_hash (sessions d));
  wf_session_owner : forall s, In s (sessions d) -> In (s_user_id s) (map u_id (users d));
  wf_selectors : NoDup (map r_selector (password_reset_tokens d))
}.

(** [evolves h sel d d']: [d'] comes from [d] by SQL statements of the server,
    where an inserted session carries the token hash given by [h] and an
    inserted reset record the selector given by [sel] ([None]: no such row is
    inserted at all). *)
Inductive evolves (h : option bytes) (sel : option string) (d : db) : db -> Prop :=
| ev_refl : evolves h sel d d
| ev_insert_user d1 d2 em en sa ha a di c :
    evolves h sel d d1 -> Sql.insert_user em en sa ha a di c d1 = Some d2 ->
    evolves h sel d d2
| ev_insert_session d1 d2 uid k c l x :
    evolves h sel d d1 -> h = Some k -> Sql.insert_session uid k c l x d1 = Some d2 ->
    evolves h sel d d2
| ev_insert_reset_token d1 d2 uid k vh c x :
    evolves h sel d d1 -> sel = Some k -> Sql.insert_reset_token uid k vh c x d1 = Some d2 ->
    evolves h sel d d2
| ev_update_user_password d1 sa ha i :
    evolves h sel d d1 -> evolves h sel d (Sql.update_user_password sa ha i d1)
| ev_update_user_disabled d1 v i :
    evolves h sel d d1 -> evolves h sel d (Sql.update_user_disabled v i d1)
| ev_update_user_is_admin d1 v i :
    evolves h sel d d1 -> evolves h sel d (Sql.update_user_is_admin v i d1)
| ev_update_session_last_seen d1 t i :
    evolves h sel d d1 -> evolves h sel d (Sql.update_session_last_seen t i d1)
| ev_update_reset_token_used d1 t i :
    evolves h sel d d1 -> evolves h sel d (Sql.update_reset_token_used t i d1)
| ev_delete_sessions_by_token_hash d1 k :
    evolves h sel d d1 -> evolves h sel d (Sql.delete_sessions_by_token_hash k d1)
| ev_delete_sessions_by_user d1 i :
    evolves h sel d d1 -> evolves h sel d (Sql.delete_sessions_by_user i d1)
| ev_delete_user d1 i :
    evolves h sel d d1 -> evolves h sel d (Sql.delete_user i d1).

(** ** Concrete requests and stores *)

Definition local_request (p : string) (cookie : option string)
           (pairs : list (string * string)) : request :=
  mk_request p (Some "localhost:8000") None None cookie pairs.

Definition draws (t : Z) (session_token selector verifier : string) : env :=
  mk_env t t t session_token [x2a] selector verifier.

Definition alice_cookie : option string := Some "bi_session=tokAlice".

Definition alice_registration : request :=
  local_request "/app/register" None
    [("email", "Alice@Example.org"); ("password", "correct horse")].

Definition alice_registers : event :=
  Post alice_registration (draws 1000 "tokAlice" "selA" "verA").

Definition alice_creates_bob : request :=
  local_request "/app/admin/create-user" alice_cookie
    [("email", "bob@example.org"); ("password", "battery staple"); ("is_admin", "1")].

Definition alice_creates_admin_bob : event :=
  Post alice_creates_bob (draws 2000 "tokB" "selB" "verB").

Definition alice_disables_bob : event :=
  Post (local_request "/app/admin/toggle-disabled" alice_cookie
          [("user_id", "2"); ("disabled", "1")])
       (draws 3000 "tokC" "selC" "verC").

Definition alice_disables_herself : request :=
  local_request "/app/admin/toggle-disabled" alice_cookie [("user_id", "1"); ("disabled", "1")].

Definition alice_demotes_herself : request :=
  local_request "/app/admin/toggle-admin" alice_cookie [("user_id", "1"); ("is_admin", "0")].

Definition alice_demotes_bob : request :=
  local_request "/app/admin/toggle-admin" alice_cookie [("user_id", "2"); ("is_admin", "0")].

Definition alice_logs_out : request := local_request "/app/logout" alice_cookie [].

Definition reset_for (email : string) : request :=
  local_request "/app/reset" None [("email", email)].

Definition confirm_with (token password : string) : request :=
  local_request "/app/reset/confirm" None [("token", token); ("new_password", password)].

Definition alice_requests_reset : event :=
  Post (reset_for "alice@example.org") (draws 4000 "tokD" "selR" "verR").

(** One admin, Alice, who holds a session. *)
Definition db_alice : db := run (lib := toy) [alice_registers] empty_db.

(** Two admins: Alice, and Bob whose account is disabled. *)
Definition db_alice_bob_disabled : db :=
  run (lib := toy) [alice_registers; alice_creates_admin_bob; alice_disables_bob] empty_db.

(** Two enabled admins. *)
Definition db_alice_bob : db :=
  run (lib := toy) [alice_registers; alice_creates_admin_bob] empty_db.

(** Alice has asked for a reset token, [selR.verR]. *)
Definition db_alice_reset : db :=
  run (lib := toy) [alice_registers; alice_requests_reset] empty_db.

(** Alice, the only admin, has disabled her own account. *)
Definition db_alice_disabled : db :=
  run (lib := toy) [alice_registers; Post alice_disables_herself (draws 3000 "tokC" "selC" "verC")]
    empty_db.

Definition later : env := draws 5000 "tokE" "selE" "verE".
Definition much_later : env := draws 9000 "tokF" "selF" "verF".

(** ** The rows the handlers write *)

(** What holds of every store the server reaches: keys are unique and were
    handed out by the AUTOINCREMENT counters, normalized e-mails, token hashes
    and selectors are unique, the columns hold what the handlers put there,
    and sessions and reset records belong to existing users. *)
Record schema_ok (d : db) : Prop := mk_schema_ok {
  ok_user_ids : NoDup (map u_id (users d));
  ok_emails : NoDup (map u_email_norm (users d));
  ok_user_range : forall u, In u (users d) -> 1 <= u_id u <= users_seq d;
  ok_user_cols : forall u, In u (users d) ->
    u_email u = u_email_norm u /\ _is_emailish (u_email_norm u) = true
    /\ _normalize_email (u_email_norm u) = u_email_norm u
    /\ (u_is_admin u = 0 \/ u_is_admin u = 1) /\ (u_disabled u = 0 \/ u_disabled u = 1);
  ok_session_ids : NoDup (map s_id (sessions d));
  ok_session_hashes : NoDup (map s_token_hash (sessions d));
  ok_session_range : forall s, In s (sessions d) -> 1 <= s_id s <= sessions_seq d;
  ok_session_cols : forall s, In s (sessions d) ->
    In (s_user_id s) (map u_id (users d))
    /\ s_expires_at s = s_created_at s + 60 * 60 * 24 * 14;
  ok_reset_ids : NoDup (map r_id (password_reset_tokens d));
  ok_reset_selectors : NoDup (map r_selector (password_reset_tokens d));
  ok_reset_range : forall r, In r (password_reset_tokens d) ->
    1 <= r_id r <= password_reset_tokens_seq d;
  ok_reset_cols : forall r, In r (password_reset_tokens d) ->
    In (r_user_id r) (map u_id (users d))
    /\ r_expires_at r = r_created_at r + 60 * 60;
  ok_seqs : 0 <= users_seq d /\ 0 <= sessions_seq d /\ 0 <= password_reset_tokens_seq d
}.

(** [server_writes d d']: [d'] comes from [d] by the SQL statements of the
    handlers, with the values the handlers give them. *)
Inductive server_writes (d : db) : db -> Prop :=
| sw_refl : server_writes d d
| sw_insert_user d1 d2 en sa ha a c :
    server_writes d d1 -> _is_emailish en = true -> _normalize_email en = en ->
    a = 0 \/ a = 1 ->
    Sql.insert_user en en sa ha a 0 c d1 = Some d2 ->
    server_writes d d2
| sw_insert_session d1 d2 uid k t :
    server_writes d d1 ->
    Sql.insert_session uid k t t (t + 60 * 60 * 24 * 14) d1 = Some d2 ->
    server_writes d d2
| sw_insert_reset_token d1 d2 uid k vh t :
    server_writes d d1 ->
    Sql.insert_reset_token uid k vh t (t + 60 * 60) d1 = Some d2 ->
    server_writes d d2
| sw_update_user_password d1 sa ha i :
    server_writes d d1 -> server_writes d (Sql.update_user_password sa ha i d1)
| sw_update_user_disabled d1 v i :
    server_writes d d1 -> v = 0 \/ v = 1 ->
    server_writes d (Sql.update_user_disabled v i d1)
| sw_update_user_is_admin d1 v i :
    server_writes d d1 -> v = 0 \/ v = 1 ->
    server_writes d (Sql.update_user_is_admin v i d1)
| sw_update_session_last_seen d1 t i :
    server_writes d d1 -> server_writes d (Sql.update_session_last_seen t i d1)
| sw_update_reset_token_used d1 t i :
    server_writes d d1 -> server_writes d (Sql.update_reset_token_used t i d1)
| sw_delete_sessions_by_token_hash d1 k :
    server_writes d d1 -> server_writes d (Sql.delete_sessions_by_token_hash k d1)
| sw_delete_sessions_by_user d1 i :
    server_writes d d1 -> server_writes d (Sql.delete_sessions_by_user i d1)
| sw_delete_user d1 i :
    server_writes d d1 -> server_writes d (Sql.delete_user i d1).

(** [starts_plain s]: the first character of [s], if any, is not white space. *)
Definition starts_plain (s : string) : bool :=
  match s with
  | EmptyString => true
  | String c _ => negb (Py.isspace c)
  end.

(** The row that [_get_current_user] returns for session [sid] of user [u]. *)
Definition row_of (sid : Z) (u : user) : current_user :=
  mk_current_user sid (u_id u) (u_email u) (u_is_admin u) (u_disabled u).

(** The page of [/app/login] for a disabled account. *)
Definition login_disabled : response :=
  SendHtml 403 "Login" "<h1>Login</h1><p class='error'>This account is disabled.</p><p><a href='/app/login'>Back</a></p>".

(** The answer to a successful login or registration: a redirect to the
    account page that sets the session cookie. *)
Definition signed_in (e : env) : response :=
  Redirect "/app/account"
    (Some (SessionCookie (rnd_session_token e)
             (clock_session e + 60 * 60 * 24 * 14 - clock_post e))).

(** The password check of the login and account routes:
    [hmac.compare_digest(_password_hash(p, salt=pass_salt), pass_hash)]. *)
Definition verifies `{lib : PyLib} (p : string) (u : user) : bool :=
  compare_digest (_password_hash p (u_pass_salt u)) (u_pass_hash u).

(** The two refusals of [/app/register]. *)
Definition register_invalid : response :=
  SendHtml 400 "Register" "<h1>Register</h1><p class='error'>Use a valid email and a password of at least 8 characters.</p><p><a href='/app/register'>Back</a></p>".

Definition register_duplicate : response :=
  SendHtml 400 "Register" "<h1>Register</h1><p class='error'>That email is already registered.</p><p><a href='/app/register'>Back</a></p>".

(** The refusals of [/app/account/change-password] and [/app/account/delete]. *)
Definition account_disabled : response :=
  SendHtml 403 "Account" "<h1>Account</h1><p class='error'>Account disabled.</p>".

Definition new_password_too_short : response :=
  SendHtml 400 "Account" "<h1>Account</h1><p class='error'>New password must be at least 8 characters.</p><p><a href='/app/account'>Back</a></p>".

Definition current_password_incorrect : response :=
  SendHtml 400 "Account" "<h1>Account</h1><p class='error'>Current password is incorrect.</p><p><a href='/app/account'>Back</a></p>".

Definition password_incorrect : response :=
  SendHtml 400 "Account" "<h1>Account</h1><p class='error'>Password is incorrect.</p><p><a href='/app/account'>Back</a></p>".

(** [u] with the salt and digest that an UPDATE of the password writes. *)
Definition with_password (sa ha : bytes) (u : user) : user :=
  mk_user (u_id u) (u_email u) (u_email_norm u) sa ha
          (u_is_admin u) (u_disabled u) (u_created_at u).

(** ** What a request reads and what a GET leaves *)

(** [s'] is the session [s], possibly seen again at [now]. *)
Definition same_session_seen (now : Z) (s s' : session) : Prop :=
  s_id s' = s_id s /\ s_user_id s' = s_user_id s /\ s_token_hash s' = s_token_hash s
  /\ s_created_at s' = s_created_at s /\ s_expires_at s' = s_expires_at s
  /\ (s_last_seen_at s' = s_last_seen_at s \/ s_last_seen_at s' = now).

(** The name and value pairs of a Cookie header, in the order of the header:
    the parts between semicolons that hold an equals sign, cut at the first
    one and stripped. *)
Definition cookie_pairs (hv : string) : list (string * string) :=
  flat_map
    (fun part =>
       match Py.cut "=" part with
       | Some (k, v) => [(Py.strip k, Py.strip v)]
       | None => []
       end)
    (Py.split ";" hv).

(** [req] with another Referer header. *)
Definition with_referer (referer : option string) (req : request) : request :=
  mk_request (path req) (header_host req) (header_origin req) referer
             (header_cookie req) (body_pairs req).

(** No character of [s] is one that [html.escape] replaces. *)
Fixpoint html_plain (s : string) : bool :=
  match s with
  | EmptyString => true
  | String c s' =>
      negb (Ascii.eqb c "&" || Ascii.eqb c "<" || Ascii.eqb c ">"
            || Ascii.eqb c (ascii_of_N 34) || Ascii.eqb c "'")
      && html_plain s'
  end.

(** ** Clean routes to the static pages *)

Module Re.

(** The classes [[A-Za-z0-9]] and [[0-9]]. *)
Definition alnum (c : ascii) : bool :=
  let n := N_of_ascii c in
  (((48 <=? n) && (n <=? 57)) || ((65 <=? n) && (n <=? 90)) || ((97 <=? n) && (n <=? 122)))%N.

Definition digit (c : ascii) : bool :=
  let n := N_of_ascii c in ((48 <=? n) && (n <=? 57))%N.

(** Every character of [s] is in the class [cls]. *)
Fixpoint all (cls : ascii -> bool) (s : string) : bool :=
  match s with
  | EmptyString => true
  | String c s' => cls c && all cls s'
  end.

(** A greedy [[cls]*]: the longest prefix of [s] in the class, and the rest.
    What follows the class in the pattern is never in the class, so no shorter
    prefix can lead to a match. *)
Fixpoint span (cls : ascii -> bool) (s : string) : string * string :=
  match s with
  | EmptyString => (EmptyString, EmptyString)
  | String c s' =>
      if cls c then let (a, r) := span cls s' in (String c a, r)
      else (EmptyString, s)
  end.

(** [$] without [re.MULTILINE]: the end of the string, or just before a
    newline that ends the string. *)
Definition at_end (s : string) : bool :=
  (s =? "")%string || (s =? String (ascii_of_N 10) "")%string.

(** [(?:/)?$] *)
Definition optional_slash_end (s : string) : bool :=
  at_end s
  || match s with
     | String c r => Ascii.eqb c "/" && at_end r
     | EmptyString => false
     end.

End Re.

(** [_BOOK_CHAPTER_RE.match(p)] for [^/([A-Za-z0-9]+)/([0-9]+)(?:/)?$]: the
    groups 1 and 2 of the match, if there is one. *)
Definition _BOOK_CHAPTER_RE_match (p : string) : option (string * string) :=
  match p with
  | String c r =>
      if Ascii.eqb c "/" then
        let (book, r1) := Re.span Re.alnum r in
        match r1 with
        | String c1 r2 =>
            if Ascii.eqb c1 "/" && Py.truthy book then
              let (chapter, r3) := Re.span Re.digit r2 in
              if Py.truthy chapter && Re.optional_slash_end r3
              then Some (book, chapter)
              else None
            else None
        | EmptyString => None
        end
      else None
  | EmptyString => None
  end.

Module PyStr.

(** [s.count(c)] for a one-character [c]. *)
Fixpoint count (c : ascii) (s : string) : Z :=
  match s with
  | EmptyString => 0
  | String x s' => (if Ascii.eqb x c then 1 else 0) + count c s'
  end.

(** [s.endswith(c)] for a one-character [c]. *)
Fixpoint endswith (c : ascii) (s : string) : bool :=
  match s with
  | EmptyString => false
  | String x s' =>
      match s' with
      | EmptyString => Ascii.eqb x c
      | String _ _ => endswith c s'
      end
  end.

(** [f"{n}"] for an [int]. *)
Definition str (n : Z) : string := NilZero.string_of_int (Z.to_int n).

End PyStr.

(** The number that the decimal digits [digits] denote, after the digits
    that gave [acc]. *)
Fixpoint decimal_value (acc : Z) (digits : string) : Z :=
  match digits with
  | EmptyString => acc
  | String c rest => decimal_value (10 * acc + (Z.of_N (N_of_ascii c) - 48)) rest
  end.

(** What [_rewrite_path] does with the path component of the URL: it puts
    [new_path] in its place, returns the URL as it came, or lets the
    [ValueError] of [int] escape. *)
Inductive rewritten :=
| Rewritten (new_path : string)
| Unchanged
| RaisesValueError.

(** [_rewrite_path] on [parsed.path], the path component that
    [urllib.parse.urlparse] finds in the URL; the other components are carried
    over by [parsed._replace]. *)
Definition _rewrite_path (parsed_path : string) : rewritten :=
  let p := Py.or_else (Some parsed_path) "/" in
  (* /Book/<n> -> /Book/Book<n>.html *)
  match _BOOK_CHAPTER_RE_match p with
  | Some (book, chapter_digits) =>
      match Py.int chapter_digits with
      | None => RaisesValueError
      | Some chapter =>
          Rewritten ("/" +s+ book +s+ "/" +s+ book +s+ PyStr.str chapter +s+ ".html")
      end
  | None =>
      (* /Book or /Book/ -> /Book/index.html *)
      if negb (p =? "/")%string && (PyStr.count "/" p <=? 2) then
        if negb (PyStr.endswith "/" p) then
          (* Only rewrite if there is no extension. *)
          if negb (Py.contains "." (Py.last_item (Py.split "/" p)))
          then Rewritten (p +s+ "/index.html")
          else Unchanged
        else Rewritten (p +s+ "index.html")
      else Unchanged
  end.

(** ** More requests and stores *)

Definition login_as (email password : string) : request :=
  local_request "/app/login" None [("email", email); ("password", password)].

(** Alice's row in [db_alice]. *)
Definition alice_row : user :=
  mk_user 1 "alice@example.org" "alice@example.org" [x2a]
          (Py.encode "correct horse" ++ [x2a]) 1 0 1000.

(** Alice as [_get_current_user] sees her. *)
Definition alice_identity : current_user := mk_current_user 1 1 "alice@example.org" 1 0.

(** Alice has logged in a second time and holds the token [tokE] as well. *)
Definition db_alice_twice : db :=
  run (lib := toy) [alice_registers; Post (login_as "alice@example.org" "correct horse") later]
    empty_db.

(** Bob registers himself after Alice: an account without the admin flag. *)
Definition bob_cookie : option string := Some "bi_session=tokBob".

Definition bob_registers : event :=
  Post (local_request "/app/register" None
          [("email", "bob@example.org"); ("password", "battery staple")])
       (draws 2000 "tokBob" "selB" "verB").

Definition db_alice_and_bob : db := run (lib := toy) [alice_registers; bob_registers] empty_db.

(** Bob's row in [db_alice_bob_disabled]. *)
Definition bob_row_disabled : user :=
  mk_user 2 "bob@example.org" "bob@example.org" [x2a]
          (Py.encode "battery staple" ++ [x2a]) 1 1 2000.

Definition alice_changes_password (current new : string) : request :=
  local_request "/app/account/change-password" alice_cookie
    [("current_password", current); ("new_password", new)].

Definition alice_deletes_her_account (password : string) : request :=
  local_request "/app/account/delete" alice_cookie [("password", password)].

(** A form that names no user. *)
Definition alice_deletes_nobody : request :=
  local_request "/app/admin/delete-user" alice_cookie [].

Definition bob_deletes_alice : request :=
  local_request "/app/admin/delete-user" bob_cookie [("user_id", "1")].

(** A request without a Host header, and one that another site sends. *)
Definition hostless_request : request :=
  mk_request "/app/login" None None None None
    [("email", "alice@example.org"); ("password", "correct horse")].

Definition foreign_request : request :=
  mk_request "/app/account/delete" (Some "localhost:8000") (Some "http://evil.example")
    None alice_cookie [("password", "correct horse")].

(** A chapter number of 4301 digits. *)
Definition long_chapter : string := string_of_list_ascii (repeat "1"%char 4301).

(** Alice asks for a reset record for Bob. *)
Definition alice_creates_reset_for_bob : request :=
  local_request "/app/admin/create-reset" alice_cookie [("user_id", "2")].

(** ** What rows keep *)

(** [s'] is the row of session [s] with the times of its life as they were:
    the same id, creation and expiry. *)
Definition same_lifetime (s s' : session) : Prop :=
  s_id s' = s_id s /\ s_created_at s' = s_created_at s /\ s_expires_at s' = s_expires_at s.

(** The same for a reset record. *)
Definition same_reset_lifetime (r r' : reset_token) : Prop :=
  r_id r' = r_id r /\ r_created_at r' = r_created_at r /\ r_expires_at r' = r_expires_at r.

(** Alice, the only user, has deleted her own account: the users table is
    empty again, and its AUTOINCREMENT counter remembers her row. *)
Definition db_alice_gone : db :=
  run (lib := toy)
    [alice_registers; Post (alice_deletes_her_account "correct horse") later] empty_db.

(** Bob registers after that. *)
Definition bob_registration : request :=
  local_request "/app/register" None
    [("email", "bob@example.org"); ("password", "battery staple")].

Definition bob_registers_late : event :=
  Post bob_registration (draws 6000 "tokBob" "selB" "verB").

(** An administrator's form whose [user_id] is the digit 2 after the
    separator FS, which [int] does not skip. *)
Definition alice_deletes_separator_two : request :=
  local_request "/app/admin/delete-user" alice_cookie
    [("user_id", String (ascii_of_N 28) "2")].

(** * Proofs *)

Ltac inv_handler H :=
  cbv zeta in H;
  repeat match type of H with
    | _ = _ => discriminate H
    | Some _ = Some _ => injection H as H; subst
    | (_, _) = (_, _) => injection H as H; subst
    | None = Some _ => discriminate H
    | context [match ?x with _ => _ end] => destruct x eqn:?
    | context [if ?x then _ else _] => destruct x eqn:?
    end.

(** Decide the comparisons of a known path against the route literals. *)
Ltac route :=
  repeat match goal with
    | |- context [String.eqb ?a ?b] =>
        let v := eval vm_compute in (String.eqb a b) in
        progress change (String.eqb a b) with v
    | |- context [Py.startswith ?a ?b] =>
        let v := eval vm_compute in (Py.startswith a b) in
        progress change (Py.startswith a b) with v
    end;
  cbv iota.

Example py_strip_ex : Py.strip "  A@x.Com  " = "A@x.Com".
Proof. reflexivity. Qed.
Example py_int_ex : Py.int " -1_0 " = Some (-10) /\ Py.int "1__0" = None /\ Py.int "" = None.
Proof. repeat split; reflexivity. Qed.

(** [int] does not skip the separators FS..US, which [str.strip] removes. *)
Example py_int_separator_ex :
  Py.int (String (ascii_of_N 28) "2") = None
  /\ Py.int (String "2" (String (ascii_of_N 31) "")) = None
  /\ Py.strip (String (ascii_of_N 28) "2") = "2"
  /\ Py.int (String (ascii_of_N 11) "2 ") = Some 2.
Proof. repeat split; reflexivity. Qed.
Example py_quote_ex : Py.quote "Cannot remove the last admin" = "Cannot%20remove%20the%20last%20admin".
Proof. reflexivity. Qed.
Example py_split_ex : Py.split ";" "a=1; b=2" = ["a=1"; " b=2"] /\ Py.split1 "." "s.v.w" = ["s"; "v.w"].
Proof. split; reflexivity. Qed.
Example bytes_eqb_ex : bytes_eqb (Py.encode "ab") (Py.encode "ab") = true.
Proof. vm_compute. reflexivity. Qed.

(** ** Facts about lists and about the SQL statements *)

Lemma NoDup_map_filter {A B} (key : A -> B) (keep : A -> bool) (rows : list A) :
  NoDup (map key rows) -> NoDup (map key (filter keep rows)).
Proof.
  induction rows as [|a rows IH]; simpl; intros H; [constructor|].
  inversion H as [|? ? Hnotin Hnd]; subst.
  destruct (keep a); simpl; auto.
  constructor; auto.
  intros Hin. apply Hnotin.
  apply in_map_iff in Hin as (x & Hx & Hin).
  apply filter_In in Hin as [Hin _].
  apply in_map_iff. eauto.
Qed.

Lemma NoDup_map_snoc {A B} (f : A -> B) (l : list A) (x : A) :
  NoDup (map f l) -> ~ In (f x) (map f l) -> NoDup (map f (l ++ [x])).
Proof.
  intros Hnd Hx. rewrite map_app. simpl.
  apply NoDup_app; [assumption | repeat constructor; intros [] |].
  intros a Ha [<-|[]]. contradiction.
Qed.

Lemma map_key_preserved {A B} (key : A -> B) (g : A -> A) (l : list A) :
  (forall a, key (g a) = key a) -> map key (map g l) = map key l.
Proof.
  intros Hg. rewrite map_map. apply map_ext. exact Hg.
Qed.

Lemma existsb_false_In {A} (p : A -> bool) (l : list A) :
  existsb p l = false -> forall a, In a l -> p a = false.
Proof.
  intros H a Ha. destruct (p a) eqn:E; [|reflexivity].
  assert (existsb p l = true) by (apply existsb_exists; eauto). congruence.
Qed.

Lemma find_app_none {A} (p : A -> bool) (l : list A) (x : A) :
  find p l = None -> find p (l ++ [x]) = if p x then Some x else None.
Proof.
  induction l as [|a l IH]; simpl; [reflexivity|].
  destruct (p a); [discriminate | exact IH].
Qed.

Lemma find_app_some {A} (p : A -> bool) (l l' : list A) (a : A) :
  find p l = Some a -> find p (l ++ l') = Some a.
Proof.
  induction l as [|b l IH]; simpl; [discriminate|].
  destruct (p b); auto.
Qed.

Lemma find_none_iff {A} (p : A -> bool) (l : list A) :
  find p l = None <-> existsb p l = false.
Proof.
  induction l as [|a l IH]; simpl; [tauto|].
  destruct (p a); simpl; [split; discriminate | exact IH].
Qed.

Lemma fold_max_ge (seq : Z) (ids : list Z) :
  seq <= fold_right Z.max seq ids /\ forall i, In i ids -> i <= fold_right Z.max seq ids.
Proof.
  induction ids as [|a ids [IH1 IH2]]; simpl.
  - split; [lia | intros i []].
  - split; [lia|]. intros i [<-|Hi]; [lia|]. specialize (IH2 i Hi). lia.
Qed.

Lemma next_rowid_fresh (seq : Z) (ids : list Z) : ~ In (Sql.next_rowid seq ids) ids.
Proof.
  unfold Sql.next_rowid. intros Hin.
  apply (proj2 (fold_max_ge seq ids)) in Hin. lia.
Qed.

Lemma user_exists_In (i : Z) (d : db) :
  Sql.user_exists i d = true <-> In i (map u_id (users d)).
Proof.
  unfold Sql.user_exists. rewrite existsb_exists, in_map_iff.
  split; intros (u & H1 & H2).
  - exists u. split; [now apply Z.eqb_eq | assumption].
  - exists u. split; [assumption | now apply Z.eqb_eq].
Qed.

Lemma wf_empty : wf empty_db.
Proof. constructor; simpl; try constructor; intros s []. Qed.

Lemma evolves_trans h sel d1 d2 d3 :
  evolves h sel d1 d2 -> evolves h sel d2 d3 -> evolves h sel d1 d3.
Proof.
  intros H12 H23. induction H23; eauto using evolves.
Qed.

Local Ltac same_keys :=
  apply map_key_preserved; intros x; match goal with |- context [if ?c then _ else _] => destruct c end; reflexivity.

Lemma update_user_password_ids sa ha i d :
  map u_id (users (Sql.update_user_password sa ha i d)) = map u_id (users d).
Proof. simpl. same_keys. Qed.

Lemma update_user_disabled_ids v i d :
  map u_id (users (Sql.update_user_disabled v i d)) = map u_id (users d).
Proof. simpl. same_keys. Qed.

Lemma update_user_is_admin_ids v i d :
  map u_id (users (Sql.update_user_is_admin v i d)) = map u_id (users d).
Proof. simpl. same_keys. Qed.

Lemma update_session_last_seen_hashes t i d :
  map s_token_hash (sessions (Sql.update_session_last_seen t i d))
  = map s_token_hash (sessions d).
Proof. simpl. same_keys. Qed.

Lemma update_session_last_seen_owners t i d :
  map s_user_id (sessions (Sql.update_session_last_seen t i d))
  = map s_user_id (sessions d).
Proof. simpl. same_keys. Qed.

Lemma update_reset_token_used_selectors t i d :
  map r_selector (password_reset_tokens (Sql.update_reset_token_used t i d))
  = map r_selector (password_reset_tokens d).
Proof. simpl. same_keys. Qed.

Lemma session_owner_alt (d : db) :
  (forall s, In s (sessions d) -> In (s_user_id s) (map u_id (users d)))
  <-> (forall i, In i (map s_user_id (sessions d)) -> In i (map u_id (users d))).
Proof.
  split.
  - intros H i Hi. apply in_map_iff in Hi as (s & <- & Hs). auto.
  - intros H s Hs. apply H. now apply in_map.
Qed.

Lemma wf_insert_user em en sa ha a di c d d' :
  wf d -> Sql.insert_user em en sa ha a di c d = Some d' -> wf d'.
Proof.
  intros [H1 H2 H3 H4]. unfold Sql.insert_user.
  destruct (existsb _ _); [discriminate|]. intros [= <-].
  constructor; simpl; auto.
  - apply NoDup_map_snoc; [assumption|]. simpl. apply next_rowid_fresh.
  - intros s Hs. rewrite map_app. apply in_or_app. left. auto.
Qed.

Lemma wf_insert_session uid h c l x d d' :
  wf d -> Sql.insert_session uid h c l x d = Some d' -> wf d'.
Proof.
  intros [H1 H2 H3 H4]. unfold Sql.insert_session.
  destruct (existsb _ _) eqn:Hex; [discriminate|].
  destruct (Sql.user_exists uid d) eqn:Hu; [|discriminate]. simpl.
  intros [= <-]. constructor; simpl; auto.
  - apply NoDup_map_snoc; [assumption|]. simpl.
    intros Hin. apply in_map_iff in Hin as (s & Hs & Hin).
    apply (existsb_false_In _ _ Hex) in Hin. apply bytes_eqb_eq in Hs. congruence.
  - intros s Hs. apply in_app_or in Hs as [Hs|[<-|[]]]; auto.
    simpl. now apply user_exists_In.
Qed.

Lemma wf_insert_reset_token uid sel vh c x d d' :
  wf d -> Sql.insert_reset_token uid sel vh c x d = Some d' -> wf d'.
Proof.
  intros [H1 H2 H3 H4]. unfold Sql.insert_reset_token.
  destruct (existsb _ _) eqn:Hex; [discriminate|].
  destruct (negb _); [discriminate|].
  intros [= <-]. constructor; simpl; auto.
  apply NoDup_map_snoc; [assumption|]. simpl.
  intros Hin. apply in_map_iff in Hin as (r & Hr & Hin).
  apply (existsb_false_In _ _ Hex) in Hin. apply String.eqb_eq in Hr. congruence.
Qed.

Lemma wf_delete_user i d : wf d -> wf (Sql.delete_user i d).
Proof.
  intros [H1 H2 H3 H4]. constructor; simpl.
  - now apply NoDup_map_filter.
  - now apply NoDup_map_filter.
  - intros s Hs. apply filter_In in Hs as [Hs Hne].
    specialize (H3 s Hs). apply in_map_iff in H3 as (u & Hu & Hin).
    apply in_map_iff. exists u. split; [assumption|].
    apply filter_In. split; [assumption|]. now rewrite Hu.
  - now apply NoDup_map_filter.
Qed.

Lemma wf_evolves h sel d d' : wf d -> evolves h sel d d' -> wf d'.
Proof.
  intros Hwf Hev. induction Hev; auto.
  - eapply wf_insert_user; eauto.
  - eapply wf_insert_session; eauto.
  - eapply wf_insert_reset_token; eauto.
  - destruct IHHev as [H1 H2 H3 H4]. constructor; auto.
    + now rewrite update_user_password_ids.
    + intros s Hs. rewrite update_user_password_ids. now apply H3.
  - destruct IHHev as [H1 H2 H3 H4]. constructor; auto.
    + now rewrite update_user_disabled_ids.
    + intros s Hs. rewrite update_user_disabled_ids. now apply H3.
  - destruct IHHev as [H1 H2 H3 H4]. constructor; auto.
    + now rewrite update_user_is_admin_ids.
    + intros s Hs. rewrite update_user_is_admin_ids. now apply H3.
  - destruct IHHev as [H1 H2 H3 H4]. constructor; auto.
    + now rewrite update_session_last_seen_hashes.
    + apply session_owner_alt. rewrite update_session_last_seen_owners.
      now apply session_owner_alt.
  - destruct IHHev as [H1 H2 H3 H4]. constructor; auto.
    now rewrite update_reset_token_used_selectors.
  - destruct IHHev as [H1 H2 H3 H4]. constructor; simpl; auto.
    + now apply NoDup_map_filter.
    + intros s Hs. apply filter_In in Hs as [Hs _]. auto.
  - destruct IHHev as [H1 H2 H3 H4]. constructor; simpl; auto.
    + now apply NoDup_map_filter.
    + intros s Hs. apply filter_In in Hs as [Hs _]. auto.
  - now apply wf_delete_user.
Qed.

(** ** What the INSERT statements leave behind *)

Lemma insert_user_inv em en sa ha a di c d d' :
  Sql.insert_user em en sa ha a di c d = Some d' ->
  Sql.user_by_email_norm en d = None
  /\ d' = Sql.with_users d
            (users d ++ [mk_user (Sql.next_rowid (users_seq d) (map u_id (users d)))
                           em en sa ha a di c])
            (Sql.next_rowid (users_seq d) (map u_id (users d))).
Proof.
  unfold Sql.insert_user, Sql.user_by_email_norm.
  destruct (existsb _ _) eqn:E; [discriminate|]. intros [= <-].
  split; [now apply find_none_iff | reflexivity].
Qed.

Lemma insert_session_inv uid h c l x d d' :
  Sql.insert_session uid h c l x d = Some d' ->
  (forall s, In s (sessions d) -> s_token_hash s <> h)
  /\ In uid (map u_id (users d))
  /\ d' = Sql.with_sessions d
            (sessions d ++ [mk_session (Sql.next_rowid (sessions_seq d) (map s_id (sessions d)))
                              uid h c l x])
            (Sql.next_rowid (sessions_seq d) (map s_id (sessions d))).
Proof.
  unfold Sql.insert_session.
  destruct (existsb _ _) eqn:E; [discriminate|].
  destruct (Sql.user_exists uid d) eqn:U; [|discriminate]. simpl. intros [= <-].
  repeat split.
  - intros s Hs Hh. apply (existsb_false_In _ _ E) in Hs.
    rewrite Hh, bytes_eqb_refl in Hs. discriminate.
  - now apply user_exists_In.
Qed.

Lemma insert_reset_token_inv uid sel vh c x d d' :
  Sql.insert_reset_token uid sel vh c x d = Some d' ->
  Sql.reset_token_by_selector sel d = None
  /\ In uid (map u_id (users d))
  /\ d' = Sql.with_reset_tokens d
            (password_reset_tokens d
               ++ [mk_reset_token
                     (Sql.next_rowid (password_reset_tokens_seq d)
                        (map r_id (password_reset_tokens d)))
                     uid sel vh c x None])
            (Sql.next_rowid (password_reset_tokens_seq d) (map r_id (password_reset_tokens d))).
Proof.
  unfold Sql.insert_reset_token, Sql.reset_token_by_selector.
  destruct (existsb _ _) eqn:E; [discriminate|].
  destruct (Sql.user_exists uid d) eqn:U; [|discriminate]. simpl. intros [= <-].
  repeat split; [now apply find_none_iff | now apply user_exists_In].
Qed.

(** ** Every handler changes the store through the SQL statements only *)

Section Evolution.

Context {lib : PyLib}.

Lemma create_session_inv e uid d d' tok x :
  _create_session e uid d = Some (d', (tok, x)) ->
  Sql.insert_session uid (_sha256_bytes (rnd_session_token e))
    (clock_session e) (clock_session e) (clock_session e + 60 * 60 * 24 * 14) d = Some d'
  /\ tok = rnd_session_token e /\ x = clock_session e + 60 * 60 * 24 * 14.
Proof.
  unfold _create_session. destruct (Sql.insert_session _ _ _ _ _ _); [|discriminate].
  intros [= <- <- <-]. auto.
Qed.

Lemma get_current_user_evolves h sel req now d :
  evolves h sel d (fst (_get_current_user req now d)).
Proof.
  unfold _get_current_user.
  repeat match goal with
    | |- context [match ?x with _ => _ end] => destruct x
    end; simpl; eauto using evolves.
Qed.

Section Branches.

Variables (form : dict) (e : env) (user : option current_user).
Variables (d d' : db) (r : response).

Let h := Some (_sha256_bytes (rnd_session_token e)).
Let sel := Some (rnd_selector e).

Lemma post_login_evolves :
  post_login form e user d = Some (d', r) -> evolves h sel d d'.
Proof.
  unfold h, sel, post_login. intros H. inv_handler H; try constructor.
  match goal with H : _create_session _ _ _ = _ |- _ =>
    apply create_session_inv in H as (H & _ & _) end.
  eauto using evolves.
Qed.

Lemma post_register_evolves :
  post_register form e user d = Some (d', r) -> evolves h sel d d'.
Proof.
  unfold h, sel, post_register. intros H. inv_handler H; try constructor.
  match goal with H : _create_session _ _ _ = _ |- _ =>
    apply create_session_inv in H as (H & _ & _) end.
  eauto using evolves.
Qed.

Lemma post_change_password_evolves :
  post_change_password form e user d = Some (d', r) -> evolves h sel d d'.
Proof.
  unfold h, sel, post_change_password. intros H. inv_handler H; eauto using evolves.
Qed.

Lemma post_account_delete_evolves :
  post_account_delete form user d = Some (d', r) -> evolves h sel d d'.
Proof.
  unfold h, sel, post_account_delete. intros H. inv_handler H; eauto using evolves.
Qed.

Lemma post_reset_evolves :
  post_reset form e user d = Some (d', r) -> evolves h sel d d'.
Proof.
  unfold h, sel, post_reset. intros H. inv_handler H; eauto using evolves.
Qed.

Lemma post_reset_confirm_evolves :
  post_reset_confirm form e user d = Some (d', r) -> evolves h sel d d'.
Proof.
  unfold h, sel, post_reset_confirm. intros H. inv_handler H; eauto 6 using evolves.
Qed.

Lemma admin_routes_evolves p :
  admin_routes p form e d = Some (d', r) -> evolves h sel d d'.
Proof.
  unfold h, sel, admin_routes, admin_create_user, admin_toggle_disabled, admin_toggle_admin,
    admin_create_reset, admin_delete_user.
  intros H. inv_handler H; eauto using evolves.
Qed.

Lemma post_admin_evolves p :
  post_admin p form e user d = Some (d', r) -> evolves h sel d d'.
Proof.
  unfold h, sel, post_admin. intros H.
  destruct user; [|injection H as <- _; constructor].
  destruct (is_admin _ =? 0); [injection H as <- _; constructor|].
  eapply admin_routes_evolves; eauto.
Qed.

End Branches.

Lemma post_routes_evolves req e d d' r :
  post_routes req e d = Some (d', r) ->
  evolves (Some (_sha256_bytes (rnd_session_token e))) (Some (rnd_selector e)) d d'.
Proof.
  unfold post_routes. intros H.
  pose proof (get_current_user_evolves (Some (_sha256_bytes (rnd_session_token e)))
                (Some (rnd_selector e)) req (clock_auth e) d) as Hu.
  destruct (_get_current_user req (clock_auth e) d) as [d0 user]. simpl in Hu.
  eapply evolves_trans; [exact Hu|].
  repeat match type of H with
    | context [if ?x then _ else _] => destruct x
    end;
    eauto using post_login_evolves, post_register_evolves, post_change_password_evolves,
      post_account_delete_evolves, post_reset_evolves, post_reset_confirm_evolves,
      post_admin_evolves.
  injection H as <- _. constructor.
Qed.

Lemma handle_app_post_evolves req e d :
  evolves (Some (_sha256_bytes (rnd_session_token e))) (Some (rnd_selector e)) d
    (fst (_handle_app_post req e d)).
Proof.
  unfold _handle_app_post. destruct (negb _); [constructor|].
  destruct (post_routes req e d) as [[d' r]|] eqn:H; simpl; [|constructor].
  eapply post_routes_evolves; eauto.
Qed.

Lemma handle_app_get_evolves h sel req now d :
  evolves h sel d (fst (_handle_app_get req now d)).
Proof.
  unfold _handle_app_get.
  pose proof (get_current_user_evolves h sel req now d) as Hu.
  destruct (_get_current_user req now d) as [d0 user]. simpl in Hu.
  repeat match goal with
    | |- context [if ?x then _ else _] => destruct x
    | |- context [match ?x with _ => _ end] => destruct x
    end; simpl; try exact Hu.
  now constructor.
Qed.

Lemma step_evolves ev d :
  evolves (event_token_hash ev) (event_selector ev) d (step ev d).
Proof.
  destruct ev as [req now|req e]; simpl.
  - apply handle_app_get_evolves.
  - apply handle_app_post_evolves.
Qed.

Lemma reachable_wf d : reachable d -> wf d.
Proof.
  intros H. induction H as [|ev d _ IH]; [apply wf_empty|].
  eapply wf_evolves; eauto using step_evolves.
Qed.

End Evolution.

(** ** Routing *)

Section Routing.

Context {lib : PyLib}.

Lemma get_current_user_anonymous req now d :
  snd (_get_current_user req now d) = None -> _get_current_user req now d = (d, None).
Proof.
  unfold _get_current_user.
  repeat match goal with
    | |- context [match ?x with _ => _ end] => destruct x
    end; simpl; intros; congruence.
Qed.

Lemma handle_app_post_same_origin req e d :
  _same_origin_post req = true ->
  _handle_app_post req e d = with_transaction d (post_routes req e d).
Proof. unfold _handle_app_post. now intros ->. Qed.

Lemma post_routes_register req e d :
  path req = "/app/register" ->
  post_routes req e d
  = post_register (form_of req) e (snd (_get_current_user req (clock_auth e) d))
      (fst (_get_current_user req (clock_auth e) d)).
Proof.
  intros Hp. unfold post_routes. rewrite Hp.
  destruct (_get_current_user req (clock_auth e) d). route. reflexivity.
Qed.

Lemma post_routes_account_delete req e d :
  path req = "/app/account/delete" ->
  post_routes req e d
  = post_account_delete (form_of req) (snd (_get_current_user req (clock_auth e) d))
      (fst (_get_current_user req (clock_auth e) d)).
Proof.
  intros Hp. unfold post_routes. rewrite Hp.
  destruct (_get_current_user req (clock_auth e) d). route. reflexivity.
Qed.

Lemma post_routes_reset req e d :
  path req = "/app/reset" ->
  post_routes req e d
  = post_reset (form_of req) e (snd (_get_current_user req (clock_auth e) d))
      (fst (_get_current_user req (clock_auth e) d)).
Proof.
  intros Hp. unfold post_routes. rewrite Hp.
  destruct (_get_current_user req (clock_auth e) d). route. reflexivity.
Qed.

Lemma post_routes_reset_confirm req e d :
  path req = "/app/reset/confirm" ->
  post_routes req e d
  = post_reset_confirm (form_of req) e (snd (_get_current_user req (clock_auth e) d))
      (fst (_get_current_user req (clock_auth e) d)).
Proof.
  intros Hp. unfold post_routes. rewrite Hp.
  destruct (_get_current_user req (clock_auth e) d). route. reflexivity.
Qed.

Lemma not_admin_prefix (p lit : string) :
  Py.startswith p "/app/admin/" = true ->
  Py.startswith lit "/app/admin/" = false ->
  (p =? lit)%string = false.
Proof.
  intros Hp Hl. destruct (p =? lit)%string eqn:E; [|reflexivity].
  apply String.eqb_eq in E. congruence.
Qed.

Lemma post_routes_admin req e d :
  Py.startswith (path req) "/app/admin/" = true ->
  post_routes req e d
  = post_admin (path req) (form_of req) e (snd (_get_current_user req (clock_auth e) d))
      (fst (_get_current_user req (clock_auth e) d)).
Proof.
  intros Hp. unfold post_routes.
  destruct (_get_current_user req (clock_auth e) d).
  rewrite !(not_admin_prefix _ _ Hp) by reflexivity. rewrite Hp. reflexivity.
Qed.

End Routing.

(** ** Resolving a bearer token *)

Section Resolve.
Context {lib : PyLib}.

Lemma select_current_user_In row h now d :
  In row (select_current_user h now d) <->
  exists s u, In s (sessions d) /\ In u (users d)
    /\ s_token_hash s = h /\ s_expires_at s > now /\ u_id u = s_user_id s
    /\ row = mk_current_user (s_id s) (s_user_id s) (u_email u) (u_is_admin u) (u_disabled u).
Proof.
  unfold select_current_user. rewrite in_flat_map. split.
  - intros (s & Hs & Hin).
    destruct (bytes_eqb (s_token_hash s) h && (s_expires_at s >? now)) eqn:E; [|destruct Hin].
    apply andb_true_iff in E as [E1 E2]. apply bytes_eqb_eq in E1. apply Z.gtb_lt in E2.
    apply in_map_iff in Hin as (u & <- & Hu). apply filter_In in Hu as [Hu Hid].
    apply Z.eqb_eq in Hid. exists s, u. repeat split; auto. lia.
  - intros (s & u & Hs & Hu & Hh & Hx & Hid & ->). exists s. split; [assumption|].
    replace (bytes_eqb (s_token_hash s) h && (s_expires_at s >? now)) with true.
    + apply in_map_iff. exists u. split; [reflexivity|].
      apply filter_In. split; [assumption | now apply Z.eqb_eq].
    + symmetry. apply andb_true_iff. split; [now apply bytes_eqb_eq | apply Z.gtb_lt; lia].
Qed.

Lemma hd_error_In {A} (l : list A) (x : A) : hd_error l = Some x -> In x l.
Proof. destruct l; simpl; [discriminate | intros [= ->]; now left]. Qed.

Lemma hd_error_none_In {A} (l : list A) : hd_error l = None -> forall x, ~ In x l.
Proof. destruct l; simpl; [intros _ x [] | discriminate]. Qed.

Lemma get_current_user_token req now d token :
  dict_get "bi_session" (_parse_cookies (header_cookie req)) = Some token ->
  token <> "" ->
  _get_current_user req now d
  = match hd_error (select_current_user (_sha256_bytes token) now d) with
    | None => (d, None)
    | Some row => (Sql.update_session_last_seen now (session_id row) d, Some row)
    end.
Proof.
  intros Hc Hne. unfold _get_current_user. rewrite Hc.
  destruct token; [now elim Hne | reflexivity].
Qed.

Lemma touched_session_In now s d :
  In s (sessions d) ->
  In (mk_session (s_id s) (s_user_id s) (s_token_hash s) (s_created_at s) now (s_expires_at s))
     (sessions (Sql.update_session_last_seen now (s_id s) d)).
Proof.
  intros Hs. simpl. apply in_map_iff. exists s. split; [|assumption].
  now rewrite Z.eqb_refl.
Qed.

Lemma update_session_last_seen_expiry t i d :
  map s_expires_at (sessions (Sql.update_session_last_seen t i d))
  = map s_expires_at (sessions d).
Proof.
  simpl. apply map_key_preserved. intros s. now destruct (s_id s =? i).
Qed.

(** C7: a presented bearer token resolves to a session and its user exactly
    when a stored session has the hash of the token and expires after [now];
    the row returned describes that session and its owner, and a successful
    resolution sets [last_seen_at] of the session to [now] while no
    [expires_at] changes (nor any other column or table). *)
Theorem get_current_user_resolves req now d token d' result :
  reachable d ->
  dict_get "bi_session" (_parse_cookies (header_cookie req)) = Some token ->
  token <> "" ->
  _get_current_user req now d = (d', result) ->
  ((exists row, result = Some row) <->
   (exists s, In s (sessions d)
      /\ s_token_hash s = _sha256_bytes token /\ s_expires_at s > now))
  /\ (forall row, result = Some row ->
      exists s u, In s (sessions d) /\ In u (users d)
        /\ s_token_hash s = _sha256_bytes token /\ s_expires_at s > now
        /\ u_id u = s_user_id s
        /\ row = mk_current_user (s_id s) (s_user_id s) (u_email u)
                   (u_is_admin u) (u_disabled u)
        /\ In (mk_session (s_id s) (s_user_id s) (s_token_hash s) (s_created_at s)
                 now (s_expires_at s)) (sessions d')
        /\ map s_expires_at (sessions d') = map s_expires_at (sessions d)
        /\ users d' = users d
        /\ password_reset_tokens d' = password_reset_tokens d)
  /\ (result = None -> d' = d).
Proof.
  intros Hreach Hc Hne. rewrite (get_current_user_token _ _ _ _ Hc Hne).
  apply reachable_wf in Hreach. destruct Hreach as [_ _ Hfk _].
  destruct (hd_error _) as [row|] eqn:Hhd; intros [= <- <-].
  - pose proof (hd_error_In _ _ Hhd) as Hin.
    apply select_current_user_In in Hin as (s & u & Hs & Hu & Hh & Hx & Hid & ->).
    repeat split.
    + intros _. exists s. auto.
    + intros _. eauto.
    + intros row [= <-]. exists s, u. simpl session_id.
      repeat split; auto using touched_session_In, update_session_last_seen_expiry.
    + discriminate.
  - repeat split.
    + intros [row Hrow]. discriminate.
    + intros (s & Hs & Hh & Hx). exfalso.
      specialize (Hfk s Hs). apply in_map_iff in Hfk as (u & Hid & Hu).
      eapply (hd_error_none_In _ Hhd). apply select_current_user_In.
      exists s, u. repeat split; eauto.
    + discriminate.
Qed.
End Resolve.

(** ** Rows that are gone stay gone *)

Lemma in_map_filter {A B} (f : A -> B) (p : A -> bool) (l : list A) (b : B) :
  In b (map f (filter p l)) -> In b (map f l).
Proof.
  intros H. apply in_map_iff in H as (a & <- & Ha).
  apply filter_In in Ha as [Ha _]. now apply in_map.
Qed.

Lemma NoDup_map_eq {A B} (f : A -> B) (l : list A) (a b : A) :
  NoDup (map f l) -> In a l -> In b l -> f a = f b -> a = b.
Proof.
  induction l as [|x l IH]; simpl; [intros _ []|].
  intros Hnd Ha Hb Hf. inversion Hnd as [|? ? Hx Hnd']; subst.
  destruct Ha as [->|Ha], Hb as [->|Hb]; auto.
  - elim Hx. rewrite Hf. now apply in_map.
  - elim Hx. rewrite <- Hf. now apply in_map.
Qed.

Lemma token_hash_absent_evolves h0 h sel d d' :
  h <> Some h0 -> evolves h sel d d' ->
  ~ In h0 (map s_token_hash (sessions d)) -> ~ In h0 (map s_token_hash (sessions d')).
Proof.
  intros Hne Hev H0. induction Hev; auto.
  - apply insert_user_inv in H as [_ ->]. exact IHHev.
  - apply insert_session_inv in H1 as (_ & _ & ->). simpl. rewrite map_app.
    intros Hin. apply in_app_or in Hin as [Hin|[Hin|[]]]; [contradiction|].
    simpl in Hin. congruence.
  - apply insert_reset_token_inv in H1 as (_ & _ & ->). exact IHHev.
  - now rewrite update_session_last_seen_hashes.
  - simpl. intros Hin. apply in_map_filter in Hin. contradiction.
  - simpl. intros Hin. apply in_map_filter in Hin. contradiction.
  - simpl. intros Hin. apply in_map_filter in Hin. contradiction.
Qed.

Lemma spent_evolves sel0 h sel d d' :
  sel <> Some sel0 -> evolves h sel d d' -> spent sel0 d -> spent sel0 d'.
Proof.
  intros Hne Hev H0. induction Hev; auto.
  - apply insert_user_inv in H as [_ ->]. exact IHHev.
  - apply insert_session_inv in H1 as (_ & _ & ->). exact IHHev.
  - apply insert_reset_token_inv in H1 as (_ & _ & ->). intros r Hr Hs. simpl in Hr.
    apply in_app_or in Hr as [Hr|[<-|[]]]; [now apply IHHev|].
    simpl in Hs. congruence.
  - intros r Hr Hs. simpl in Hr. apply in_map_iff in Hr as (r0 & <- & Hr0).
    destruct (r_id r0 =? i); [discriminate|]. now apply IHHev.
  - intros r Hr Hs. simpl in Hr. apply filter_In in Hr as [Hr _]. now apply IHHev.
Qed.

Section Runs.
Context {lib : PyLib}.

Lemma run_invariant (P : db -> Prop) evs :
  (forall ev d, In ev evs -> P d -> P (step ev d)) -> forall d, P d -> P (run evs d).
Proof.
  unfold run. induction evs as [|ev evs IH]; simpl; intros Hstep d Hd; [assumption|].
  apply IH; auto.
Qed.

Lemma reachable_run evs d : reachable d -> reachable (run evs d).
Proof.
  revert d. apply run_invariant. intros ev d0 _ Hd. now constructor.
Qed.

Lemma get_current_user_absent req now d token :
  presents req token ->
  ~ In (_sha256_bytes token) (map s_token_hash (sessions d)) ->
  snd (_get_current_user req now d) = None.
Proof.
  intros Hp Habs. unfold _get_current_user. rewrite Hp.
  destruct (negb _); [reflexivity|].
  destruct (hd_error _) as [row|] eqn:Hhd; [|reflexivity].
  apply hd_error_In, select_current_user_In in Hhd as (s & u & Hs & _ & Hh & _).
  elim Habs. rewrite <- Hh. now apply in_map.
Qed.

Lemma reset_confirm_inv req e d d1 :
  path req = "/app/reset/confirm" ->
  _handle_app_post req e d = (d1, confirm_success) ->
  exists sel ver row,
    _same_origin_post req = true
    /\ snd (_get_current_user req (clock_auth e) d) = None
    /\ 8 <= Py.len (form_get (form_of req) "new_password")
    /\ Py.cut "." (Py.strip (form_get (form_of req) "token")) = Some (sel, ver)
    /\ Sql.reset_token_by_selector sel d = Some row
    /\ r_used_at row = None
    /\ r_expires_at row > clock_post e
    /\ _sha256_bytes ver = r_verifier_hash row
    /\ d1 = Sql.delete_sessions_by_user (r_user_id row)
              (Sql.update_reset_token_used (clock_post e) (r_id row)
                 (Sql.update_user_password (rnd_salt e)
                    (_password_hash (form_get (form_of req) "new_password") (rnd_salt e))
                    (r_user_id row) d)).
Proof.
  intros Hp H. unfold _handle_app_post in H.
  destruct (_same_origin_post req) eqn:Ho; simpl in H; [|discriminate].
  rewrite post_routes_reset_confirm in H by assumption.
  destruct (snd (_get_current_user req (clock_auth e) d)) eqn:Hu.
  { simpl in H. discriminate. }
  rewrite (get_current_user_anonymous _ _ _ Hu) in H. simpl fst in H.
  destruct (post_reset_confirm _ _ _ _) as [[d2 r]|] eqn:E; simpl in H; [|discriminate].
  injection H as -> ->. unfold post_reset_confirm in E. inv_handler E.
  exists s, s0, r. repeat split; auto.
  - apply Z.ltb_ge in Heqb. lia.
  - apply Z.leb_gt in Heqb0. lia.
  - apply negb_false_iff in Heqb1. now apply bytes_eqb_eq in Heqb1.
Qed.
End Runs.

(** ** Revoked sessions and redeemed reset tokens *)

Section Revocation.
Context {lib : PyLib}.

Lemma token_hash_absent_run token evs d :
  fresh_session_tokens token evs ->
  ~ In (_sha256_bytes token) (map s_token_hash (sessions d)) ->
  ~ In (_sha256_bytes token) (map s_token_hash (sessions (run evs d))).
Proof.
  intros Hfresh. revert d.
  apply (run_invariant
           (fun d => ~ In (_sha256_bytes token) (map s_token_hash (sessions d)))).
  intros ev d Hev Hd.
  eapply token_hash_absent_evolves; [apply Hfresh, Hev | apply step_evolves | exact Hd].
Qed.

Lemma spent_run sel evs d :
  fresh_selectors sel evs -> spent sel d -> spent sel (run evs d).
Proof.
  intros Hfresh. revert d. apply (run_invariant (spent sel)).
  intros ev d Hev Hd.
  eapply spent_evolves; [apply Hfresh, Hev | apply step_evolves | exact Hd].
Qed.

Lemma logout_deletes_session req now d token :
  path req = "/app/logout" -> presents req token ->
  snd (_get_current_user req now d) <> None ->
  ~ In (_sha256_bytes token) (map s_token_hash (sessions (step (Get req now) d))).
Proof.
  intros Hp Hc Hu. simpl. unfold _handle_app_get. rewrite Hp.
  destruct (_get_current_user req now d) as [d0 user] eqn:E. simpl in Hu.
  route. destruct user as [u|]; [|now elim Hu].
  unfold presents in Hc. rewrite Hc.
  destruct (Py.truthy token) eqn:Ht.
  - simpl. intros Hin. apply in_map_iff in Hin as (s & Hh & Hs).
    apply filter_In in Hs as [_ Hs]. rewrite Hh, bytes_eqb_refl in Hs. discriminate.
  - unfold _get_current_user in E. rewrite Hc, Ht in E. simpl in E. discriminate.
Qed.

Lemma reset_confirm_deletes_sessions d e pw row s :
  wf d -> In s (sessions d) -> s_user_id s = r_user_id row ->
  ~ In (s_token_hash s)
      (map s_token_hash
         (sessions (Sql.delete_sessions_by_user (r_user_id row)
                      (Sql.update_reset_token_used (clock_post e) (r_id row)
                         (Sql.update_user_password (rnd_salt e) pw (r_user_id row) d))))).
Proof.
  intros [_ Hnd _ _] Hs Hown. simpl. intros Hin.
  apply in_map_iff in Hin as (s' & Hh & Hs').
  apply filter_In in Hs' as [Hs' Hne].
  assert (s' = s) by (eapply NoDup_map_eq; eauto). subst s'.
  rewrite Hown, Z.eqb_refl in Hne. discriminate.
Qed.

(** C6: once a session is revoked, by a logout that presents its token or by
    the revoke-all step of a successful reset confirmation for its owner, no
    request presenting that token resolves to an identity again, whatever
    requests the server handles in between (the session tokens drawn later
    being different from the revoked one). *)
Theorem revoked_session_never_resolves d token :
  reachable d ->
  (forall req now,
      path req = "/app/logout" -> presents req token ->
      snd (_get_current_user req now d) <> None ->
      forall evs, fresh_session_tokens token evs ->
      forall req' now', presents req' token ->
        snd (_get_current_user req' now' (run evs (step (Get req now) d))) = None)
  /\
  (forall req e s sel ver row,
      path req = "/app/reset/confirm" ->
      snd (_handle_app_post req e d) = confirm_success ->
      Py.cut "." (Py.strip (form_get (form_of req) "token")) = Some (sel, ver) ->
      Sql.reset_token_by_selector sel d = Some row ->
      In s (sessions d) -> s_user_id s = r_user_id row ->
      s_token_hash s = _sha256_bytes token ->
      forall evs, fresh_session_tokens token evs ->
      forall req' now', presents req' token ->
        snd (_get_current_user req' now' (run evs (step (Post req e) d))) = None).
Proof.
  intros Hreach. split.
  - intros req now Hp Hc Hu evs Hfresh req' now' Hc'.
    apply (get_current_user_absent _ _ _ token Hc').
    apply token_hash_absent_run; [assumption|].
    now apply logout_deletes_session.
  - intros req e s sel ver row Hp Hok Hcut Hrow Hs Hown Hh evs Hfresh req' now' Hc'.
    apply (get_current_user_absent _ _ _ token Hc').
    apply token_hash_absent_run; [assumption|].
    simpl. destruct (_handle_app_post req e d) as [d1 r] eqn:E. simpl in Hok. subst r.
    apply reset_confirm_inv in E as (sel' & ver' & row' & _ & _ & _ & Hcut' & Hrow' & _ & _ & _ & ->);
      [|assumption].
    rewrite Hcut in Hcut'. injection Hcut' as <- <-.
    rewrite Hrow in Hrow'. injection Hrow' as <-.
    rewrite <- Hh.
    apply reset_confirm_deletes_sessions; [now apply reachable_wf | assumption..].
Qed.

Lemma find_In {A} (p : A -> bool) (l : list A) (a : A) :
  find p l = Some a -> In a l /\ p a = true.
Proof. apply find_some. Qed.

Lemma reset_confirm_spends d e pw row uid :
  wf d -> Sql.reset_token_by_selector (r_selector row) d = Some row ->
  spent (r_selector row)
    (Sql.delete_sessions_by_user uid
       (Sql.update_reset_token_used (clock_post e) (r_id row)
          (Sql.update_user_password (rnd_salt e) pw uid d))).
Proof.
  intros [_ _ _ Hnd] Hrow r Hr Hsel. simpl in Hr.
  apply find_some in Hrow as [Hrow _].
  apply in_map_iff in Hr as (r0 & <- & Hr0).
  destruct (r_id r0 =? r_id row) eqn:Hid; [discriminate|].
  assert (r0 = row) by (eapply NoDup_map_eq; eauto). subst r0.
  rewrite Z.eqb_refl in Hid. discriminate.
Qed.

Lemma spent_confirm_fails form e d sel ver :
  spent sel d ->
  Py.cut "." (Py.strip (form_get form "token")) = Some (sel, ver) ->
  post_reset_confirm form e None d
  = Some (d, if Py.len (form_get form "new_password") <? 8
             then confirm_weak_password else confirm_expired_or_used).
Proof.
  intros Hspent Hcut. unfold post_reset_confirm. rewrite Hcut.
  destruct (Py.len _ <? 8); [reflexivity|].
  destruct (Sql.reset_token_by_selector sel d) as [row|] eqn:Hrow; [|reflexivity].
  apply find_some in Hrow as [Hin Hsel]. apply String.eqb_eq in Hsel.
  specialize (Hspent row Hin Hsel).
  destruct (r_used_at row); [reflexivity | now elim Hspent].
Qed.

(** C5: a reset confirmation succeeds only on a record whose [used_at] is
    NULL, whose [expires_at] is after [now] and whose stored hash is the hash
    of the presented verifier; it sets [used_at], and from then on every
    confirmation with the same token fails with the token error page and
    changes nothing, whatever requests the server handles in between (the
    selectors drawn later being different from this one). *)
Theorem reset_token_redeems_at_most_once req e d d1 :
  reachable d ->
  path req = "/app/reset/confirm" ->
  _handle_app_post req e d = (d1, confirm_success) ->
  exists sel ver row,
    Py.cut "." (Py.strip (form_get (form_of req) "token")) = Some (sel, ver)
    /\ Sql.reset_token_by_selector sel d = Some row
    /\ r_used_at row = None
    /\ r_expires_at row > clock_post e
    /\ _sha256_bytes ver = r_verifier_hash row
    /\ (exists row', Sql.reset_token_by_selector sel d1 = Some row'
                     /\ r_id row' = r_id row /\ r_used_at row' = Some (clock_post e))
    /\ (forall evs req2 e2,
           fresh_selectors sel evs ->
           path req2 = "/app/reset/confirm" ->
           Py.strip (form_get (form_of req2) "token")
           = Py.strip (form_get (form_of req) "token") ->
           snd (_handle_app_post req2 e2 (run evs d1)) <> confirm_success
           /\ (_same_origin_post req2 = true ->
               snd (_get_current_user req2 (clock_auth e2) (run evs d1)) = None ->
               8 <= Py.len (form_get (form_of req2) "new_password") ->
               _handle_app_post req2 e2 (run evs d1) = (run evs d1, confirm_expired_or_used))).
Proof.
  intros Hreach Hp H.
  apply reset_confirm_inv in H as (sel & ver & row & _ & _ & _ & Hcut & Hrow & Hused & Hexp & Hh & ->);
    [|assumption].
  exists sel, ver, row. repeat (split; [assumption|]).
  pose proof (find_some _ _ Hrow) as [Hin Hsel]. apply String.eqb_eq in Hsel. subst sel.
  split.
  - exists (mk_reset_token (r_id row) (r_user_id row) (r_selector row) (r_verifier_hash row)
              (r_created_at row) (r_expires_at row) (Some (clock_post e))).
    repeat split. unfold Sql.reset_token_by_selector in *. simpl.
    clear - Hrow. induction (password_reset_tokens d) as [|r l IH]; simpl in *; [discriminate|].
    destruct (r_selector r =? r_selector row)%string eqn:E.
    + injection Hrow as ->. rewrite Z.eqb_refl. simpl. now rewrite String.eqb_refl.
    + destruct (r_id r =? r_id row); simpl; rewrite E; auto.
  - intros evs req2 e2 Hfresh Hp2 Htok.
    assert (Hspent : spent (r_selector row)
              (run evs (Sql.delete_sessions_by_user (r_user_id row)
                 (Sql.update_reset_token_used (clock_post e) (r_id row)
                    (Sql.update_user_password (rnd_salt e)
                       (_password_hash (form_get (form_of req) "new_password") (rnd_salt e))
                       (r_user_id row) d))))).
    { apply spent_run; [assumption|].
      apply reset_confirm_spends; [now apply reachable_wf | assumption]. }
    set (dN := run evs _) in *. rewrite <- Htok in Hcut.
    unfold _handle_app_post. rewrite post_routes_reset_confirm by assumption.
    destruct (snd (_get_current_user req2 (clock_auth e2) dN)) eqn:Hu.
    + split.
      * destruct (negb _); simpl; discriminate.
      * discriminate.
    + rewrite (get_current_user_anonymous _ _ _ Hu). simpl fst.
      rewrite (spent_confirm_fails _ _ _ _ _ Hspent Hcut). split.
      * destruct (negb _); simpl; [discriminate|]. destruct (_ <? 8); discriminate.
      * intros -> _ Hlen. simpl.
        replace (Py.len (form_get (form_of req2) "new_password") <? 8) with false;
          [reflexivity|]. symmetry. apply Z.ltb_ge. lia.
Qed.
End Revocation.

(** ** Strings of URL-safe characters *)

Lemma urlsafe_char_plain c :
  Py.urlsafe_char c = true -> Py.isspace c = false /\ Ascii.eqb c "." = false.
Proof.
  destruct c as [[] [] [] [] [] [] [] []]; intros H; try discriminate H; split; reflexivity.
Qed.

Lemma lstrip_plain c s : Py.isspace c = false -> Py.lstrip (String c s) = String c s.
Proof. intros H. simpl. now rewrite H. Qed.

Lemma rstrip_plain s : ends_plain s = true -> Py.rstrip s = s.
Proof.
  induction s as [|c s IH]; [reflexivity|]. simpl.
  destruct s as [|c' s'].
  - simpl. intros H. apply negb_true_iff in H. now rewrite H.
  - intros H. rewrite (IH H). reflexivity.
Qed.

Lemma ends_plain_app a b : b <> "" -> ends_plain (a +s+ b) = ends_plain b.
Proof.
  intros Hb. induction a as [|c a IH]; [reflexivity|]. simpl.
  destruct (a +s+ b) eqn:E; [|exact IH].
  destruct a; simpl in E; [now elim Hb | discriminate].
Qed.

Lemma urlsafe_ends_plain s : Py.urlsafe s = true -> ends_plain s = true.
Proof.
  induction s as [|c s IH]; [reflexivity|]. simpl. intros H.
  apply andb_true_iff in H as [Hc Hs]. destruct s; [|auto].
  apply urlsafe_char_plain in Hc as [-> _]. reflexivity.
Qed.

Lemma cut_token sel ver :
  Py.urlsafe sel = true -> Py.cut "." (sel +s+ String "." ver) = Some (sel, ver).
Proof.
  induction sel as [|c sel IH]; simpl; [reflexivity|]. intros H.
  apply andb_true_iff in H as [Hc Hs]. apply urlsafe_char_plain in Hc as [_ ->].
  now rewrite IH.
Qed.

Lemma strip_token sel ver :
  Py.urlsafe sel = true -> Py.urlsafe ver = true ->
  Py.strip (sel +s+ String "." ver) = sel +s+ String "." ver.
Proof.
  intros Hs Hv. unfold Py.strip.
  assert (Hl : Py.lstrip (sel +s+ String "." ver) = sel +s+ String "." ver).
  { destruct sel as [|c sel]; [reflexivity|]. simpl in Hs.
    apply andb_true_iff in Hs as [Hc _]. apply urlsafe_char_plain in Hc as [Hc _].
    simpl. now rewrite Hc. }
  rewrite Hl. apply rstrip_plain.
  rewrite ends_plain_app by discriminate.
  destruct ver as [|c ver]; [reflexivity|].
  change (ends_plain (String "." (String c ver))) with (ends_plain (String c ver)).
  now apply urlsafe_ends_plain.
Qed.

Lemma cut_none_iff c s : Py.cut c s = None <-> Py.contains c s = false.
Proof.
  induction s as [|x s IH]; simpl; [tauto|].
  destruct (Ascii.eqb x c); simpl; [split; discriminate|].
  destruct (Py.cut c s) as [[a b]|]; [|tauto].
  split; [discriminate|]. intros H. apply IH in H. discriminate.
Qed.

Section ResetFlow.
Context {lib : PyLib}.

Lemma handle_reset_confirm req e d :
  _same_origin_post req = true ->
  path req = "/app/reset/confirm" ->
  snd (_get_current_user req (clock_auth e) d) = None ->
  _handle_app_post req e d
  = with_transaction d (post_reset_confirm (form_of req) e None d).
Proof.
  intros Ho Hp Hu. rewrite handle_app_post_same_origin by assumption.
  rewrite post_routes_reset_confirm by assumption.
  now rewrite (get_current_user_anonymous _ _ _ Hu).
Qed.

Lemma handle_reset req e d :
  _same_origin_post req = true ->
  path req = "/app/reset" ->
  snd (_get_current_user req (clock_auth e) d) = None ->
  _handle_app_post req e d = with_transaction d (post_reset (form_of req) e None d).
Proof.
  intros Ho Hp Hu. rewrite handle_app_post_same_origin by assumption.
  rewrite post_routes_reset by assumption.
  now rewrite (get_current_user_anonymous _ _ _ Hu).
Qed.

(** C4, as the code has it: with an acceptable new password every token
    failure answers with a 400 page titled [Confirm reset] and changes
    nothing.  A token without separator and a verifier whose hash does not
    match get the same page, [Invalid token.]; an absent, a used and an
    expired record get another page, [Token expired or already used.]. *)
Theorem reset_confirm_failure_responses req e d :
  _same_origin_post req = true ->
  path req = "/app/reset/confirm" ->
  snd (_get_current_user req (clock_auth e) d) = None ->
  8 <= Py.len (form_get (form_of req) "new_password") ->
  let token := Py.strip (form_get (form_of req) "token") in
  (Py.contains "." token = false ->
   _handle_app_post req e d = (d, confirm_invalid_token))
  /\ (forall sel ver, Py.cut "." token = Some (sel, ver) ->
        (Sql.reset_token_by_selector sel d = None ->
         _handle_app_post req e d = (d, confirm_expired_or_used))
        /\ (forall row, Sql.reset_token_by_selector sel d = Some row ->
              (r_used_at row <> None ->
               _handle_app_post req e d = (d, confirm_expired_or_used))
              /\ (r_expires_at row <= clock_post e ->
                  _handle_app_post req e d = (d, confirm_expired_or_used))
              /\ (r_used_at row = None -> r_expires_at row > clock_post e ->
                  _sha256_bytes ver <> r_verifier_hash row ->
                  _handle_app_post req e d = (d, confirm_invalid_token))))
  /\ confirm_invalid_token <> confirm_expired_or_used
  /\ (exists body, confirm_invalid_token = SendHtml 400 "Confirm reset" body)
  /\ (exists body, confirm_expired_or_used = SendHtml 400 "Confirm reset" body).
Proof.
  intros Ho Hp Hu Hlen token.
  rewrite (handle_reset_confirm _ _ _ Ho Hp Hu). unfold post_reset_confirm.
  assert (Hpw : (Py.len (form_get (form_of req) "new_password") <? 8) = false)
    by (apply Z.ltb_ge; lia).
  rewrite Hpw. fold token.
  split; [|split; [|split; [|split]]].
  - intros Hdot. apply cut_none_iff in Hdot. now rewrite Hdot.
  - intros sel ver ->. split.
    + now intros ->.
    + intros row ->. split; [|split].
      * destruct (r_used_at row); [reflexivity | now intros []].
      * intros Hx. destruct (r_used_at row); [reflexivity|].
        now replace (r_expires_at row <=? clock_post e) with true
          by (symmetry; apply Z.leb_le; lia).
      * intros -> Hx Hh.
        replace (r_expires_at row <=? clock_post e) with false
          by (symmetry; apply Z.leb_gt; lia).
        unfold compare_digest.
        destruct (bytes_eqb _ _) eqn:E; [apply bytes_eqb_eq in E; contradiction|].
        reflexivity.
  - discriminate.
  - eexists. reflexivity.
  - eexists. reflexivity.
Qed.

Lemma enabled_user_absent en d :
  Sql.user_by_email_norm en d = None -> Sql.enabled_user_by_email_norm en d = None.
Proof.
  unfold Sql.user_by_email_norm, Sql.enabled_user_by_email_norm.
  induction (users d) as [|u l IH]; simpl; [reflexivity|].
  destruct (u_email_norm u =? en)%string; simpl; [discriminate | exact IH].
Qed.

Lemma reset_created_body_not_generic token : reset_created_body token <> reset_generic_body.
Proof. unfold reset_created_body, reset_generic_body. simpl. discriminate. Qed.

(** What [/app/reset] answers: both reset requests are answered with a 200 page
    titled [Reset password], but the bodies differ.  For an e-mail of no
    account the body is the fixed acknowledgement and the store is unchanged;
    for an enabled account a reset record is created and the body shows its
    token [selector.verifier], which redeems successfully within the hour. *)
Theorem reset_request_responses req1 req2 e1 e2 d u :
  _same_origin_post req1 = true -> _same_origin_post req2 = true ->
  path req1 = "/app/reset" -> path req2 = "/app/reset" ->
  snd (_get_current_user req1 (clock_auth e1) d) = None ->
  snd (_get_current_user req2 (clock_auth e2) d) = None ->
  Sql.enabled_user_by_email_norm (_normalize_email (form_get (form_of req1) "email")) d
  = Some u ->
  Sql.user_by_email_norm (_normalize_email (form_get (form_of req2) "email")) d = None ->
  Sql.reset_token_by_selector (rnd_selector e1) d = None ->
  Py.urlsafe (rnd_selector e1) = true -> Py.urlsafe (rnd_verifier e1) = true ->
  let token := rnd_selector e1 +s+ "." +s+ rnd_verifier e1 in
  exists d1,
    _handle_app_post req1 e1 d = (d1, SendHtml 200 "Reset password" (reset_created_body token))
    /\ _handle_app_post req2 e2 d = (d, SendHtml 200 "Reset password" reset_generic_body)
    /\ reset_created_body token <> reset_generic_body
    /\ (forall req3 e3,
          _same_origin_post req3 = true -> path req3 = "/app/reset/confirm" ->
          snd (_get_current_user req3 (clock_auth e3) d1) = None ->
          form_get (form_of req3) "token" = token ->
          8 <= Py.len (form_get (form_of req3) "new_password") ->
          clock_post e3 < clock_post e1 + 60 * 60 ->
          snd (_handle_app_post req3 e3 d1) = confirm_success).
Proof.
  intros Ho1 Ho2 Hp1 Hp2 Hu1 Hu2 Hacc Hnone Hfresh Hsel Hver token.
  rewrite (handle_reset _ _ _ Ho1 Hp1 Hu1), (handle_reset _ _ _ Ho2 Hp2 Hu2).
  unfold post_reset. rewrite Hacc, (enabled_user_absent _ _ Hnone).
  destruct (Sql.insert_reset_token _ _ _ _ _ d) as [d1|] eqn:Hins.
  2:{ exfalso. unfold Sql.insert_reset_token in Hins.
      apply find_none_iff in Hfresh. unfold Sql.reset_token_by_selector in Hfresh.
      rewrite Hfresh in Hins.
      apply find_some in Hacc as [Hin _].
      assert (Hex : Sql.user_exists (u_id u) d = true)
        by (apply user_exists_In; now apply in_map).
      rewrite Hex in Hins. discriminate. }
  exists d1. simpl. repeat split.
  - apply reset_created_body_not_generic.
  - intros req3 e3 Ho3 Hp3 Hu3 Htok Hlen Htime.
    rewrite (handle_reset_confirm _ _ _ Ho3 Hp3 Hu3). unfold post_reset_confirm.
    rewrite Htok. unfold token.
    change ("." +s+ rnd_verifier e1) with (String "." (rnd_verifier e1)).
    rewrite strip_token, cut_token by assumption.
    replace (Py.len (form_get (form_of req3) "new_password") <? 8) with false
      by (symmetry; apply Z.ltb_ge; lia).
    apply insert_reset_token_inv in Hins as (_ & _ & ->).
    unfold Sql.reset_token_by_selector. simpl password_reset_tokens.
    unfold Sql.reset_token_by_selector in Hfresh.
    rewrite (find_app_none _ _ _ Hfresh). simpl r_selector. rewrite String.eqb_refl.
    simpl r_used_at. simpl r_expires_at. cbv iota.
    match goal with |- context [?a <=? ?b] => destruct (Z.leb_spec a b); [lia|] end.
    simpl r_verifier_hash. unfold compare_digest. rewrite bytes_eqb_refl. reflexivity.
Qed.
End ResetFlow.

(** ** The last-admin safeguard *)

Lemma count_admins_pos d :
  1 <= Sql.count_admins d <-> exists u, In u (users d) /\ u_is_admin u = 1.
Proof.
  unfold Sql.count_admins. split.
  - intros H. destruct (filter _ (users d)) as [|u l] eqn:E; [simpl in H; lia|].
    assert (Hin : In u (filter (fun u => u_is_admin u =? 1) (users d)))
      by (rewrite E; now left).
    apply filter_In in Hin as [Hin Ha]. exists u. split; [assumption | now apply Z.eqb_eq].
  - intros (u & Hin & Ha).
    assert (Hf : In u (filter (fun u => u_is_admin u =? 1) (users d)))
      by (apply filter_In; split; [assumption | now apply Z.eqb_eq]).
    destruct (filter _ (users d)); [destruct Hf | simpl List.length; lia].
Qed.

Lemma another_admin (l : list user) (k : Z) :
  NoDup (map u_id l) ->
  (2 <= List.length (filter (fun u => (u_is_admin u =? 1)%Z) l))%nat ->
  exists u, In u l /\ u_is_admin u = 1 /\ u_id u <> k.
Proof.
  induction l as [|a l IH]; simpl; [lia|]. intros Hnd Hlen.
  inversion Hnd as [|? ? Ha Hnd']; subst.
  destruct (u_is_admin a =? 1) eqn:E.
  - destruct (Z.eq_dec (u_id a) k) as [Hk|Hk].
    + simpl in Hlen.
      destruct (filter (fun u => u_is_admin u =? 1) l) as [|b l'] eqn:F; [simpl in Hlen; lia|].
      assert (Hb : In b (filter (fun u => u_is_admin u =? 1) l)) by (rewrite F; now left).
      apply filter_In in Hb as [Hb Hadm]. exists b. repeat split; auto.
      * now apply Z.eqb_eq.
      * intros Hbk. apply Ha. rewrite Hk, <- Hbk. now apply in_map.
    + exists a. repeat split; auto. now apply Z.eqb_eq.
  - destruct (IH Hnd' Hlen) as (u & Hu & H1 & H2). exists u. auto.
Qed.

Lemma count_admins_update_disabled v i d :
  Sql.count_admins (Sql.update_user_disabled v i d) = Sql.count_admins d.
Proof.
  unfold Sql.count_admins. simpl. f_equal.
  induction (users d) as [|u l IH]; simpl; [reflexivity|].
  destruct (u_id u =? i); simpl; destruct (u_is_admin u =? 1); simpl; now rewrite IH.
Qed.

Lemma user_by_id_In i d t :
  Sql.user_by_id i d = Some t -> In t (users d) /\ u_id t = i.
Proof.
  intros H. apply find_some in H as [Hin Hid]. split; [assumption | now apply Z.eqb_eq].
Qed.

Lemma admin_survives_update v i d a :
  In a (users d) -> u_is_admin a = 1 -> u_id a <> i \/ v = 1 ->
  1 <= Sql.count_admins (Sql.update_user_is_admin v i d).
Proof.
  intros Ha Hadm Hor. apply count_admins_pos. simpl.
  destruct (u_id a =? i) eqn:E.
  - destruct Hor as [Hor| ->]; [apply Z.eqb_eq in E; contradiction|].
    eexists. split; [apply in_map_iff; exists a; split; [reflexivity | assumption]|].
    rewrite E. reflexivity.
  - exists a. split; [|assumption]. apply in_map_iff. exists a. now rewrite E.
Qed.

(** Promotions keep an admin; so do demotions that pass the guard of
    [/app/admin/toggle-admin]. *)
Lemma keep_admin_update_is_admin v i d :
  wf d -> 1 <= Sql.count_admins d ->
  v = 1 \/
  match Sql.user_by_id i d with
  | Some t => (u_is_admin t =? 1) && (Sql.count_admins d <=? 1)
  | None => false
  end = false ->
  1 <= Sql.count_admins (Sql.update_user_is_admin v i d).
Proof.
  intros [Hnd _ _ _] Hpos Hguard.
  apply count_admins_pos in Hpos as (a & Ha & Hadm).
  destruct Hguard as [->|Hguard]; [eapply admin_survives_update; eauto|].
  destruct (Z.eq_dec (u_id a) i) as [Hai|Hai]; [|eapply admin_survives_update; eauto].
  destruct (Sql.user_by_id i d) as [t|] eqn:Ht.
  - apply user_by_id_In in Ht as [Hin Hid].
    assert (a = t) by (eapply NoDup_map_eq; eauto; congruence). subst a.
    rewrite Hadm in Hguard. simpl in Hguard. apply Z.leb_gt in Hguard.
    unfold Sql.count_admins in Hguard.
    destruct (another_admin (users d) i Hnd) as (b & Hb & Hbadm & Hbi); [lia|].
    eapply admin_survives_update; eauto.
  - exfalso. unfold Sql.user_by_id in Ht.
    apply find_none_iff in Ht. apply (existsb_false_In _ _ Ht) in Ha.
    apply Z.eqb_neq in Ha. contradiction.
Qed.

(** Deletions that pass the guard of [/app/admin/delete-user] keep an admin. *)
Lemma keep_admin_delete_user i d :
  wf d -> 1 <= Sql.count_admins d ->
  match Sql.user_by_id i d with
  | Some t => if u_is_admin t =? 1 then Sql.count_admins d <=? 1 else false
  | None => false
  end = false ->
  1 <= Sql.count_admins (Sql.delete_user i d).
Proof.
  intros [Hnd _ _ _] Hpos Hguard.
  assert (Hkeep : forall a, In a (users d) -> u_is_admin a = 1 -> u_id a <> i ->
            1 <= Sql.count_admins (Sql.delete_user i d)).
  { intros a Ha Hadm Hai. apply count_admins_pos. exists a. split; [|assumption].
    simpl. apply filter_In. split; [assumption|]. apply negb_true_iff. now apply Z.eqb_neq. }
  apply count_admins_pos in Hpos as (a & Ha & Hadm).
  destruct (Z.eq_dec (u_id a) i) as [Hai|Hai]; [|eapply Hkeep; eauto].
  destruct (Sql.user_by_id i d) as [t|] eqn:Ht.
  - apply user_by_id_In in Ht as [Hin Hid].
    assert (a = t) by (eapply NoDup_map_eq; eauto; congruence). subst a.
    rewrite Hadm in Hguard. simpl in Hguard. apply Z.leb_gt in Hguard.
    unfold Sql.count_admins in Hguard.
    destruct (another_admin (users d) i Hnd) as (b & Hb & Hbadm & Hbi); [lia|].
    eapply Hkeep; eauto.
  - exfalso. unfold Sql.user_by_id in Ht.
    apply find_none_iff in Ht. apply (existsb_false_In _ _ Ht) in Ha.
    apply Z.eqb_neq in Ha. contradiction.
Qed.

Lemma keep_admin_insert_user em en sa ha a di c d d' :
  Sql.insert_user em en sa ha a di c d = Some d' ->
  1 <= Sql.count_admins d -> 1 <= Sql.count_admins d'.
Proof.
  intros H Hpos. apply insert_user_inv in H as [_ ->].
  apply count_admins_pos in Hpos as (u & Hu & Hadm). apply count_admins_pos.
  exists u. split; [simpl; apply in_or_app; now left | assumption].
Qed.

Section AdminSafeguard.
Context {lib : PyLib}.

Lemma get_current_user_some req now d d0 u :
  _get_current_user req now d = (d0, Some u) ->
  d0 = Sql.update_session_last_seen now (session_id u) d.
Proof.
  unfold _get_current_user.
  repeat match goal with
    | |- context [match ?x with _ => _ end] => destruct x
    end; intros [= <- <-]; reflexivity.
Qed.

Lemma get_current_user_users req now d :
  users (fst (_get_current_user req now d)) = users d.
Proof.
  destruct (_get_current_user req now d) as [d0 [u|]] eqn:E.
  - apply get_current_user_some in E. now subst d0.
  - pose proof (get_current_user_anonymous req now d) as H. rewrite E in H.
    specialize (H eq_refl). now injection H as ->.
Qed.

Lemma admin_toggle_admin_keeps_admin form d d' r :
  admin_toggle_admin form d = Some (d', r) ->
  wf d -> 1 <= Sql.count_admins d -> 1 <= Sql.count_admins d'.
Proof.
  unfold admin_toggle_admin. intros H Hwf Hpos.
  destruct (Py.int (Py.or_else (dict_get "user_id" form) "0")) as [uid|];
    [|now injection H as <- _].
  destruct (Py.int (Py.or_else (dict_get "is_admin" form) "0")) as [v|];
    [|now injection H as <- _].
  cbv zeta in H. destruct (negb (Sql.bindable uid)); [discriminate|].
  destruct (v =? 0).
  - change (0 =? 0) with true in H. cbv iota in H.
    destruct (match Sql.user_by_id uid d with Some _ => _ | None => _ end) eqn:G.
    + now injection H as <- _.
    + injection H as <- _. apply keep_admin_update_is_admin; auto.
  - change (1 =? 0) with false in H. cbv iota in H. injection H as <- _.
    apply keep_admin_update_is_admin; auto.
Qed.

Lemma admin_delete_user_keeps_admin form d d' r :
  admin_delete_user form d = Some (d', r) ->
  wf d -> 1 <= Sql.count_admins d -> 1 <= Sql.count_admins d'.
Proof.
  unfold admin_delete_user. intros H Hwf Hpos.
  destruct (Py.int _) as [uid|]; [|now injection H as <- _].
  cbv zeta in H. destruct (negb (Sql.bindable uid)); [discriminate|].
  destruct (match Sql.user_by_id uid d with Some _ => _ | None => _ end) eqn:G.
  - now injection H as <- _.
  - injection H as <- _. apply keep_admin_delete_user; auto.
Qed.

Lemma admin_routes_keep_admin p form e d d' r :
  admin_routes p form e d = Some (d', r) ->
  wf d -> 1 <= Sql.count_admins d -> 1 <= Sql.count_admins d'.
Proof.
  unfold admin_routes. intros H Hwf Hpos.
  destruct (p =? "/app/admin/create-user")%string.
  { unfold admin_create_user in H. inv_handler H; eauto using keep_admin_insert_user. }
  destruct (p =? "/app/admin/toggle-disabled")%string.
  { unfold admin_toggle_disabled in H. inv_handler H;
      rewrite ?count_admins_update_disabled; assumption. }
  destruct (p =? "/app/admin/toggle-admin")%string.
  { eapply admin_toggle_admin_keeps_admin; eauto. }
  destruct (p =? "/app/admin/create-reset")%string.
  { unfold admin_create_reset in H. inv_handler H; try assumption.
    match goal with H : Sql.insert_reset_token _ _ _ _ _ _ = _ |- _ =>
      apply insert_reset_token_inv in H as (_ & _ & ->) end. exact Hpos. }
  destruct (p =? "/app/admin/delete-user")%string.
  { eapply admin_delete_user_keeps_admin; eauto. }
  now injection H as <- _.
Qed.

(** C1, as the code has it: in every reachable store with at least one user
    whose [is_admin] is 1, no request to an [/app/admin/] route (create-user,
    toggle-disabled, toggle-admin, create-reset, delete-user) leaves the
    store without such a user.  The [disabled] flag plays no part: the admin
    that remains may be disabled. *)
Theorem admin_operations_keep_an_admin req e d :
  reachable d ->
  Py.startswith (path req) "/app/admin/" = true ->
  1 <= Sql.count_admins d ->
  1 <= Sql.count_admins (fst (_handle_app_post req e d)).
Proof.
  intros Hreach Hp Hpos. unfold _handle_app_post.
  destruct (negb _); [assumption|].
  rewrite post_routes_admin by assumption.
  assert (Hwf0 : wf (fst (_get_current_user req (clock_auth e) d))).
  { apply (wf_evolves None None d); [apply reachable_wf, Hreach|].
    apply get_current_user_evolves. }
  assert (Hpos0 : 1 <= Sql.count_admins (fst (_get_current_user req (clock_auth e) d))).
  { unfold Sql.count_admins. now rewrite get_current_user_users. }
  destruct (_get_current_user req (clock_auth e) d) as [d0 user]. simpl in *.
  unfold post_admin. destruct user as [u|]; [|assumption].
  destruct (is_admin u =? 0); [assumption|].
  destruct (admin_routes _ _ _ _) as [[d' r]|] eqn:E; simpl; [|assumption].
  eapply admin_routes_keep_admin; eauto.
Qed.

(** [/app/admin/toggle-disabled] writes the flag without any guard, whoever
    the target is. *)
Lemma toggle_disabled_is_unguarded req e d d0 u uid v :
  _same_origin_post req = true ->
  _get_current_user req (clock_auth e) d = (d0, Some u) ->
  is_admin u <> 0 ->
  path req = "/app/admin/toggle-disabled" ->
  Py.int (Py.or_else (dict_get "user_id" (form_of req)) "0") = Some uid ->
  - 2 ^ 63 <= uid < 2 ^ 63 ->
  Py.int (Py.or_else (dict_get "disabled" (form_of req)) "0") = Some v ->
  _handle_app_post req e d
  = (Sql.update_user_disabled (if v =? 0 then 0 else 1) uid d0, admin_msg "Updated").
Proof.
  intros Ho Hu Hadm Hp Huid Hrange Hv.
  rewrite handle_app_post_same_origin by assumption.
  rewrite post_routes_admin by (rewrite Hp; reflexivity).
  rewrite Hu, Hp. simpl fst. simpl snd. unfold post_admin.
  apply Z.eqb_neq in Hadm. rewrite Hadm.
  unfold admin_routes. route. unfold admin_toggle_disabled. rewrite Huid, Hv.
  cbv zeta.
  replace (Sql.bindable uid) with true; [reflexivity|].
  symmetry. unfold Sql.bindable. apply andb_true_iff.
  split; [apply Z.leb_le | apply Z.ltb_lt]; lia.
Qed.

(** C2, as the code has it: a demotion and a deletion by an admin count the
    users whose [is_admin] is 1, disabled or not; they are refused exactly
    when the target is such a user and that count is at most one, and a
    refusal leaves the users table as it was; otherwise the change is made.
    With two admins the count is two, so demoting one of them succeeds. *)
Theorem last_admin_guard_counts_every_admin req e d d0 u uid :
  _same_origin_post req = true ->
  _get_current_user req (clock_auth e) d = (d0, Some u) ->
  is_admin u <> 0 ->
  Py.int (Py.or_else (dict_get "user_id" (form_of req)) "0") = Some uid ->
  - 2 ^ 63 <= uid < 2 ^ 63 ->
  let target_is_admin :=
    match Sql.user_by_id uid d with
    | Some target => u_is_admin target =? 1
    | None => false
    end in
  let refused := target_is_admin && (Sql.count_admins d <=? 1) in
  users d0 = users d
  /\ (path req = "/app/admin/toggle-admin" ->
      Py.int (Py.or_else (dict_get "is_admin" (form_of req)) "0") = Some 0 ->
      _handle_app_post req e d
      = if refused then (d0, admin_msg "Cannot remove the last admin")
        else (Sql.update_user_is_admin 0 uid d0, admin_msg "Updated"))
  /\ (path req = "/app/admin/delete-user" ->
      _handle_app_post req e d
      = if refused then (d0, admin_msg "Cannot delete the last admin")
        else (Sql.delete_user uid d0, admin_msg "User deleted"))
  /\ (2 <= Sql.count_admins d -> refused = false)
  /\ (forall v i, Sql.count_admins (Sql.update_user_disabled v i d) = Sql.count_admins d).
Proof.
  intros Ho Hu Hadm Huid Hrange target_is_admin refused.
  pose proof (get_current_user_some _ _ _ _ _ Hu) as Hd0.
  assert (Hbind : Sql.bindable uid = true)
    by (unfold Sql.bindable; apply andb_true_iff; split;
        [apply Z.leb_le | apply Z.ltb_lt]; lia).
  assert (Hgate : Py.startswith (path req) "/app/admin/" = true ->
            _handle_app_post req e d
            = with_transaction d (admin_routes (path req) (form_of req) e d0)).
  { intros Hp. rewrite handle_app_post_same_origin by assumption.
    rewrite post_routes_admin by assumption. rewrite Hu. simpl.
    apply Z.eqb_neq in Hadm. now rewrite Hadm. }
  split; [now subst d0|]. split; [|split; [|split]].
  - intros Hp Hv. rewrite Hgate by (rewrite Hp; reflexivity). rewrite Hp.
    unfold admin_routes. route. unfold admin_toggle_admin. rewrite Huid, Hv.
    cbv zeta. rewrite Hbind. change (0 =? 0) with true. cbv iota.
    replace (Sql.user_by_id uid d0) with (Sql.user_by_id uid d) by now subst d0.
    replace (Sql.count_admins d0) with (Sql.count_admins d) by now subst d0.
    subst refused target_is_admin.
    destruct (Sql.user_by_id uid d) as [t|]; [|reflexivity].
    destruct (u_is_admin t =? 1), (Sql.count_admins d <=? 1); reflexivity.
  - intros Hp. rewrite Hgate by (rewrite Hp; reflexivity). rewrite Hp.
    unfold admin_routes. route. unfold admin_delete_user. rewrite Huid.
    cbv zeta. rewrite Hbind. cbv iota.
    replace (Sql.user_by_id uid d0) with (Sql.user_by_id uid d) by now subst d0.
    replace (Sql.count_admins d0) with (Sql.count_admins d) by now subst d0.
    subst refused target_is_admin.
    destruct (Sql.user_by_id uid d) as [t|]; [|reflexivity].
    destruct (u_is_admin t =? 1), (Sql.count_admins d <=? 1); reflexivity.
  - intros Hn. subst refused.
    replace (Sql.count_admins d <=? 1) with false by (symmetry; apply Z.leb_gt; lia).
    apply andb_false_r.
  - intros v i. apply count_admins_update_disabled.
Qed.
End AdminSafeguard.

(** ** Registration and the two gates of [_handle_app_post] *)

Section Gates.
Context {lib : PyLib}.

(** C10: a POST whose Host header is non-empty (once trimmed, as the code
    tests it) and which carries neither Origin nor Referer passes the
    same-origin check, and the handler goes on to process the request. *)
Theorem same_origin_post_accepts_missing_origin req e d host :
  header_host req = Some host -> Py.strip host <> "" ->
  header_origin req = None -> header_referer req = None ->
  _same_origin_post req = true
  /\ _handle_app_post req e d = with_transaction d (post_routes req e d).
Proof.
  intros Hh Hne Ho Hr.
  assert (Hs : _same_origin_post req = true).
  { unfold _same_origin_post. rewrite Hh, Ho, Hr. simpl.
    destruct host as [|c s]; [now elim Hne|]. simpl Py.truthy. cbv iota.
    destruct (Py.strip (String c s)); [now elim Hne|]. reflexivity. }
  split; [exact Hs | now apply handle_app_post_same_origin].
Qed.

(** C9: a request whose session resolves to a user with [is_admin] set passes
    the gate of the [/app/admin/] routes although [disabled] is set too, and
    each of the five admin operations is executed. *)
Theorem disabled_admin_passes_admin_gate req e d d0 u :
  _same_origin_post req = true ->
  _get_current_user req (clock_auth e) d = (d0, Some u) ->
  is_admin u <> 0 -> disabled u <> 0 ->
  (Py.startswith (path req) "/app/admin/" = true ->
   _handle_app_post req e d = with_transaction d (admin_routes (path req) (form_of req) e d0))
  /\ (path req = "/app/admin/create-user" ->
      _handle_app_post req e d = with_transaction d (admin_create_user (form_of req) e d0))
  /\ (path req = "/app/admin/toggle-disabled" ->
      _handle_app_post req e d = with_transaction d (admin_toggle_disabled (form_of req) d0))
  /\ (path req = "/app/admin/toggle-admin" ->
      _handle_app_post req e d = with_transaction d (admin_toggle_admin (form_of req) d0))
  /\ (path req = "/app/admin/create-reset" ->
      _handle_app_post req e d = with_transaction d (admin_create_reset (form_of req) e d0))
  /\ (path req = "/app/admin/delete-user" ->
      _handle_app_post req e d = with_transaction d (admin_delete_user (form_of req) d0)).
Proof.
  intros Ho Hu Ha _.
  assert (Hgate : Py.startswith (path req) "/app/admin/" = true ->
            _handle_app_post req e d
            = with_transaction d (admin_routes (path req) (form_of req) e d0)).
  { intros Hp. rewrite handle_app_post_same_origin by assumption.
    rewrite post_routes_admin by assumption. rewrite Hu. simpl.
    apply Z.eqb_neq in Ha. now rewrite Ha. }
  split; [exact Hgate|].
  repeat split; intros Hp; rewrite Hgate by (rewrite Hp; reflexivity);
    rewrite Hp; unfold admin_routes; route; reflexivity.
Qed.

End Gates.

(** ** The properties on concrete runs *)

Lemma reachable_from_empty `{lib : PyLib} evs : reachable (run evs empty_db).
Proof. apply reachable_run. constructor. Qed.

(** C1 fails as stated: Alice is the only admin and her account is enabled;
    she disables it through [/app/admin/toggle-disabled], which is accepted
    and leaves no enabled admin. *)
Lemma last_enabled_admin_can_be_disabled :
  reachable (lib := toy) db_alice
  /\ count_enabled_admins db_alice = 1
  /\ snd (_handle_app_post (lib := toy) alice_disables_herself later db_alice)
     = admin_msg "Updated"
  /\ count_enabled_admins (fst (_handle_app_post (lib := toy) alice_disables_herself later db_alice))
     = 0.
Proof.
  split; [apply (reachable_from_empty (lib := toy))|]. repeat split; vm_compute; reflexivity.
Qed.

(** [/app/account/delete] has no guard either: the only admin can delete its
    own account, which empties the store. *)
Example sole_admin_deletes_own_account :
  fst (_handle_app_post (lib := toy)
         (local_request "/app/account/delete" alice_cookie [("password", "correct horse")])
         later db_alice)
  = mk_db [] 1 [] 1 [] 0.
Proof. vm_compute. reflexivity. Qed.

(** C2 fails as stated: with Alice an enabled admin and Bob a disabled one,
    demoting Alice would leave no enabled admin, yet it is accepted, because
    the guard counts Bob. *)
Lemma demotion_guard_ignores_disabled_flag :
  reachable (lib := toy) db_alice_bob_disabled
  /\ count_enabled_admins db_alice_bob_disabled = 1
  /\ option_map u_is_admin (Sql.user_by_id 1 db_alice_bob_disabled) = Some 1
  /\ snd (_handle_app_post (lib := toy) alice_demotes_herself later db_alice_bob_disabled)
     = admin_msg "Updated"
  /\ count_enabled_admins
       (fst (_handle_app_post (lib := toy) alice_demotes_herself later db_alice_bob_disabled))
     = 0.
Proof.
  split; [apply (reachable_from_empty (lib := toy))|]. repeat split; vm_compute; reflexivity.
Qed.

(** C3: the answers of [/app/reset] do not have the same shape, although the
    handler's own comment promises a message that is generic either way.  In
    the store that holds Alice's account, the page for her e-mail shows the
    link and the token, the page for an unknown e-mail shows the generic
    acknowledgement, and the two differ. *)
Lemma reset_response_tells_whether_account_exists :
  snd (_handle_app_post (lib := toy) (reset_for "alice@example.org") later db_alice)
  = SendHtml 200 "Reset password"
      "<h1>Reset password</h1><p class='ok'>Reset link created (dev).</p><p><a href='/app/reset/confirm?token=selE.verE'>Click here to reset your password</a></p><p class='muted'>Token: <code>selE.verE</code></p><p><a href='/app/login'>Back to login</a></p>"
  /\ snd (_handle_app_post (lib := toy) (reset_for "nobody@example.org") later db_alice)
     = SendHtml 200 "Reset password"
         "<h1>Reset password</h1><p class='ok'>If the account exists, a reset link has been created.</p><p><a href='/app/login'>Back to login</a></p>"
  /\ snd (_handle_app_post (lib := toy) (reset_for "alice@example.org") later db_alice)
     <> snd (_handle_app_post (lib := toy) (reset_for "nobody@example.org") later db_alice).
Proof.
  repeat split; try (vm_compute; reflexivity). vm_compute. discriminate.
Qed.

(** C4 fails as stated: a malformed token is answered with [Invalid token.],
    an absent or expired record with [Token expired or already used.]. *)
Lemma absent_record_is_told_apart_from_malformed_token :
  _handle_app_post (lib := toy) (confirm_with "garbage" "new password") later db_alice_reset
  = (db_alice_reset,
     SendHtml 400 "Confirm reset" "<h1>Set new password</h1><p class='error'>Invalid token.</p>")
  /\ _handle_app_post (lib := toy) (confirm_with "nosuch.token" "new password") later db_alice_reset
     = (db_alice_reset,
        SendHtml 400 "Confirm reset"
          "<h1>Set new password</h1><p class='error'>Token expired or already used.</p>")
  /\ _handle_app_post (lib := toy) (confirm_with "selR.verR" "new password") much_later db_alice_reset
     = (db_alice_reset,
        SendHtml 400 "Confirm reset"
          "<h1>Set new password</h1><p class='error'>Token expired or already used.</p>")
  /\ snd (_handle_app_post (lib := toy) (confirm_with "garbage" "new password") later db_alice_reset)
     <> snd (_handle_app_post (lib := toy) (confirm_with "nosuch.token" "new password") later
               db_alice_reset).
Proof.
  repeat split; try (vm_compute; reflexivity). vm_compute. discriminate.
Qed.

Lemma admin_operations_keep_an_admin_witness :
  1 <= Sql.count_admins (fst (_handle_app_post (lib := toy) alice_demotes_herself later db_alice)).
Proof.
  apply (admin_operations_keep_an_admin (lib := toy) alice_demotes_herself later db_alice).
  - apply (reachable_from_empty (lib := toy)).
  - reflexivity.
  - vm_compute. discriminate.
Defined.

Lemma last_admin_guard_counts_every_admin_witness :
  snd (_handle_app_post (lib := toy) alice_demotes_bob later db_alice_bob) = admin_msg "Updated"
  /\ snd (_handle_app_post (lib := toy) alice_demotes_herself later db_alice)
     = admin_msg "Cannot remove the last admin".
Proof.
  split.
  - destruct (last_admin_guard_counts_every_admin (lib := toy) alice_demotes_bob later db_alice_bob
                (fst (_get_current_user (lib := toy) alice_demotes_bob 5000 db_alice_bob))
                (mk_current_user 1 1 "alice@example.org" 1 0) 2)
      as (_ & H & _); [reflexivity | vm_compute; reflexivity | discriminate | reflexivity | lia |].
    rewrite H by reflexivity. vm_compute. reflexivity.
  - destruct (last_admin_guard_counts_every_admin (lib := toy) alice_demotes_herself later db_alice
                (fst (_get_current_user (lib := toy) alice_demotes_herself 5000 db_alice))
                (mk_current_user 1 1 "alice@example.org" 1 0) 1)
      as (_ & H & _); [reflexivity | vm_compute; reflexivity | discriminate | reflexivity | lia |].
    rewrite H by reflexivity. vm_compute. reflexivity.
Defined.

Lemma reset_request_responses_witness :
  exists d1,
    _handle_app_post (lib := toy) (reset_for "alice@example.org") later db_alice
    = (d1, SendHtml 200 "Reset password" (reset_created_body "selE.verE"))
    /\ _handle_app_post (lib := toy) (reset_for "nobody@example.org") later db_alice
       = (db_alice, SendHtml 200 "Reset password" reset_generic_body)
    /\ snd (_handle_app_post (lib := toy) (confirm_with "selE.verE" "new password")
              (draws 6000 "tokG" "selG" "verG") d1)
       = confirm_success.
Proof.
  destruct (reset_request_responses (lib := toy)
              (reset_for "alice@example.org") (reset_for "nobody@example.org") later later db_alice
              (mk_user 1 "alice@example.org" "alice@example.org" [x2a]
                 (Py.encode "correct horse" ++ [x2a]) 1 0 1000))
    as (d1 & H1 & H2 & _ & H3); try reflexivity.
  exists d1. split; [exact H1|]. split; [exact H2|].
  apply H3; try reflexivity. vm_compute. discriminate.
Defined.

Lemma reset_confirm_failure_responses_witness :
  _handle_app_post (lib := toy) (confirm_with "garbage" "new password") later db_alice_reset
  = (db_alice_reset, confirm_invalid_token).
Proof.
  apply (reset_confirm_failure_responses (lib := toy) (confirm_with "garbage" "new password")
           later db_alice_reset); try reflexivity.
  vm_compute. discriminate.
Defined.

Lemma reset_token_redeems_at_most_once_witness :
  let first := _handle_app_post (lib := toy) (confirm_with "selR.verR" "new password") later
                 db_alice_reset in
  let afterwards :=
    run (lib := toy) [Post (reset_for "alice@example.org") (draws 6000 "tokG" "selG" "verG")]
      (fst first) in
  snd first = confirm_success
  /\ _handle_app_post (lib := toy) (confirm_with "selR.verR" "another password") much_later
       afterwards
     = (afterwards, confirm_expired_or_used).
Proof.
  intros first afterwards. split; [vm_compute; reflexivity|].
  destruct (reset_token_redeems_at_most_once (lib := toy)
              (confirm_with "selR.verR" "new password") later db_alice_reset (fst first))
    as (sel & ver & row & Hcut & _ & _ & _ & _ & _ & H).
  - apply (reachable_from_empty (lib := toy)).
  - reflexivity.
  - vm_compute. reflexivity.
  - assert (sel = "selR") by (vm_compute in Hcut; congruence). subst sel.
    apply (H [Post (reset_for "alice@example.org") (draws 6000 "tokG" "selG" "verG")]
             (confirm_with "selR.verR" "another password") much_later);
      try reflexivity.
    + intros ev [<-|[]]. vm_compute. discriminate.
    + vm_compute. discriminate.
Defined.

Lemma revoked_session_never_resolves_witness :
  snd (_get_current_user (lib := toy) alice_demotes_herself 6000
         (run (lib := toy) [alice_requests_reset]
            (step (lib := toy) (Get alice_logs_out 5000) db_alice)))
  = None
  /\ snd (_get_current_user (lib := toy) alice_demotes_herself 6000
            (run (lib := toy) [alice_creates_admin_bob]
               (step (lib := toy) (Post (confirm_with "selR.verR" "new password") later)
                  db_alice_reset)))
     = None.
Proof.
  split.
  - destruct (revoked_session_never_resolves (lib := toy) db_alice "tokAlice") as [H _].
    + apply (reachable_from_empty (lib := toy)).
    + apply H.
      * reflexivity.
      * reflexivity.
      * vm_compute. discriminate.
      * intros ev [<-|[]]. vm_compute. discriminate.
      * reflexivity.
  - destruct (revoked_session_never_resolves (lib := toy) db_alice_reset "tokAlice") as [_ H].
    + apply (reachable_from_empty (lib := toy)).
    + apply (H (confirm_with "selR.verR" "new password") later
               (mk_session 1 1 (Py.encode "tokAlice") 1000 1000 1210600)
               "selR" "verR"
               (mk_reset_token 1 1 "selR" (Py.encode "verR") 4000 7600 None)).
      * reflexivity.
      * vm_compute. reflexivity.
      * vm_compute. reflexivity.
      * vm_compute. reflexivity.
      * vm_compute. left. reflexivity.
      * reflexivity.
      * vm_compute. reflexivity.
      * intros ev [<-|[]]. vm_compute. discriminate.
      * reflexivity.
Defined.

Lemma get_current_user_resolves_witness :
  exists row, snd (_get_current_user (lib := toy) alice_logs_out 1500 db_alice) = Some row.
Proof.
  destruct (get_current_user_resolves (lib := toy) alice_logs_out 1500 db_alice "tokAlice"
              (fst (_get_current_user (lib := toy) alice_logs_out 1500 db_alice))
              (snd (_get_current_user (lib := toy) alice_logs_out 1500 db_alice)))
    as (H & _).
  - apply (reachable_from_empty (lib := toy)).
  - reflexivity.
  - discriminate.
  - vm_compute. reflexivity.
  - apply H. eexists. split; [|split].
    + simpl. left. reflexivity.
    + reflexivity.
    + vm_compute. reflexivity.
Defined.

Lemma disabled_admin_passes_admin_gate_witness :
  snd (_handle_app_post (lib := toy) alice_creates_bob later db_alice_disabled)
  = admin_msg "User created".
Proof.
  destruct (disabled_admin_passes_admin_gate (lib := toy) alice_creates_bob later db_alice_disabled
              (fst (_get_current_user (lib := toy) alice_creates_bob 5000 db_alice_disabled))
              (mk_current_user 1 1 "alice@example.org" 1 1))
    as (_ & H & _); [reflexivity | vm_compute; reflexivity | discriminate | discriminate |].
  rewrite H by reflexivity. vm_compute. reflexivity.
Defined.

Lemma same_origin_post_accepts_missing_origin_witness :
  _same_origin_post (lib := toy) alice_registration = true
  /\ _handle_app_post (lib := toy) alice_registration later empty_db
     = with_transaction empty_db (post_routes (lib := toy) alice_registration later empty_db).
Proof.
  apply (same_origin_post_accepts_missing_origin (lib := toy) alice_registration later empty_db
           "localhost:8000").
  - reflexivity.
  - vm_compute. discriminate.
  - reflexivity.
  - reflexivity.
Defined.

(** * Further properties of the code *)

(** ** Normalizing and recognizing e-mail addresses *)

Lemma lower_char_idempotent c : Py.lower_char (Py.lower_char c) = Py.lower_char c.
Proof. destruct c as [[] [] [] [] [] [] [] []]; reflexivity. Qed.

Lemma isspace_lower_char c : Py.isspace (Py.lower_char c) = Py.isspace c.
Proof. destruct c as [[] [] [] [] [] [] [] []]; reflexivity. Qed.

Lemma lower_idempotent s : Py.lower (Py.lower s) = Py.lower s.
Proof.
  induction s as [|c s IH]; simpl; [reflexivity|].
  now rewrite lower_char_idempotent, IH.
Qed.

Lemma lstrip_lower s : Py.lstrip (Py.lower s) = Py.lower (Py.lstrip s).
Proof.
  induction s as [|c s IH]; simpl; [reflexivity|].
  rewrite isspace_lower_char. destruct (Py.isspace c); [exact IH | reflexivity].
Qed.

Lemma rstrip_lower s : Py.rstrip (Py.lower s) = Py.lower (Py.rstrip s).
Proof.
  induction s as [|c s IH]; simpl; [reflexivity|].
  rewrite IH, isspace_lower_char.
  destruct (Py.rstrip s); simpl; [destruct (Py.isspace c)|]; reflexivity.
Qed.

Lemma strip_lower s : Py.strip (Py.lower s) = Py.lower (Py.strip s).
Proof. unfold Py.strip. now rewrite lstrip_lower, rstrip_lower. Qed.

Lemma lstrip_starts_plain s : starts_plain (Py.lstrip s) = true.
Proof.
  induction s as [|c s IH]; simpl; [reflexivity|].
  destruct (Py.isspace c) eqn:E; [exact IH|]. simpl. now rewrite E.
Qed.

Lemma lstrip_of_plain s : starts_plain s = true -> Py.lstrip s = s.
Proof.
  destruct s as [|c s]; simpl; [reflexivity|]. intros H.
  apply negb_true_iff in H. now rewrite H.
Qed.

Lemma rstrip_starts_plain s : starts_plain s = true -> starts_plain (Py.rstrip s) = true.
Proof.
  destruct s as [|c s]; simpl; [reflexivity|]. intros H.
  destruct (Py.rstrip s); simpl; [|assumption].
  apply negb_true_iff in H. rewrite H. simpl. now rewrite H.
Qed.

Lemma rstrip_ends_plain s : ends_plain (Py.rstrip s) = true.
Proof.
  induction s as [|c s IH]; simpl; [reflexivity|].
  destruct (Py.rstrip s) as [|c' r] eqn:E.
  - destruct (Py.isspace c) eqn:Hc; simpl; [reflexivity | now rewrite Hc].
  - exact IH.
Qed.

Lemma strip_idempotent s : Py.strip (Py.strip s) = Py.strip s.
Proof.
  unfold Py.strip.
  rewrite (lstrip_of_plain (Py.rstrip (Py.lstrip s)))
    by apply rstrip_starts_plain, lstrip_starts_plain.
  apply rstrip_plain, rstrip_ends_plain.
Qed.

Lemma normalize_email_fixed raw : _normalize_email (_normalize_email raw) = _normalize_email raw.
Proof.
  unfold _normalize_email.
  now rewrite strip_lower, lower_idempotent, strip_idempotent.
Qed.

Lemma cut_some_iff c s a b :
  Py.cut c s = Some (a, b) <-> s = a +s+ String c b /\ Py.contains c a = false.
Proof.
  revert a b. induction s as [|x s IH]; intros a b; simpl.
  - split; [discriminate|]. intros [H _]. destruct a; discriminate.
  - destruct (Ascii.eqb x c) eqn:E.
    + apply Ascii.eqb_eq in E. subst x. split.
      * intros [= <- <-]. auto.
      * intros [H Hc]. destruct a as [|y a]; simpl in *.
        -- now injection H as ->.
        -- injection H as <- _. rewrite Ascii.eqb_refl in Hc. discriminate.
    + split.
      * destruct (Py.cut c s) as [[a' b']|] eqn:Hcut in |- *; [|discriminate].
        intros [= <- <-]. apply IH in Hcut as [-> Hc]. simpl. rewrite E. auto.
      * intros [H Hc]. destruct a as [|y a]; simpl in *.
        -- injection H as -> _. rewrite Ascii.eqb_refl in E. discriminate.
        -- injection H as <- ->. rewrite E in Hc. simpl in Hc.
           assert (Hcut : Py.cut c (a +s+ String c b) = Some (a, b)) by (apply IH; auto).
           now rewrite Hcut.
Qed.

(** ** The schema invariant *)

Lemma schema_ok_empty : schema_ok empty_db.
Proof.
  constructor; simpl; try constructor; try (intros ? []); lia.
Qed.

Lemma next_rowid_range seq ids :
  0 <= seq -> (forall i, In i ids -> 1 <= i <= seq) ->
  1 <= Sql.next_rowid seq ids
  /\ forall i, In i ids -> 1 <= i <= Sql.next_rowid seq ids.
Proof.
  intros Hseq Hids. unfold Sql.next_rowid.
  destruct (fold_max_ge seq ids) as [H1 H2]. split; [lia|].
  intros i Hi. specialize (Hids i Hi). specialize (H2 i Hi). lia.
Qed.

Lemma server_writes_trans d1 d2 d3 :
  server_writes d1 d2 -> server_writes d2 d3 -> server_writes d1 d3.
Proof. intros H12 H23. induction H23; eauto using server_writes. Qed.

Lemma in_map_key_preserved {A B} (key : A -> B) (g : A -> A) (l : list A) (b : B) :
  (forall a, key (g a) = key a) -> In b (map key (map g l)) <-> In b (map key l).
Proof. intros Hg. now rewrite (map_key_preserved key g l Hg). Qed.

Lemma schema_ok_insert_user en sa ha a c d d' :
  schema_ok d -> _is_emailish en = true -> _normalize_email en = en -> a = 0 \/ a = 1 ->
  Sql.insert_user en en sa ha a 0 c d = Some d' -> schema_ok d'.
Proof.
  intros H Hem Hnorm Ha Hins. destruct H.
  unfold Sql.insert_user in Hins.
  destruct (existsb _ _) eqn:Hex; [discriminate|]. injection Hins as <-.
  destruct (next_rowid_range (users_seq d) (map u_id (users d))) as [Hnew Hold];
    [tauto | |].
  { intros i Hi. apply in_map_iff in Hi as (u & <- & Hu). auto. }
  constructor; simpl; auto.
  - apply NoDup_map_snoc; [assumption|]. simpl. apply next_rowid_fresh.
  - apply NoDup_map_snoc; [assumption|]. simpl.
    intros Hin. apply in_map_iff in Hin as (u & Hu & Hin).
    apply (existsb_false_In _ _ Hex) in Hin. apply String.eqb_neq in Hin. contradiction.
  - intros u Hu. apply in_app_or in Hu as [Hu|[<-|[]]]; simpl.
    + apply Hold. now apply in_map.
    + lia.
  - intros u Hu. apply in_app_or in Hu as [Hu|[<-|[]]]; simpl; auto 10.
  - intros s Hs. destruct (ok_session_cols0 s Hs) as [H1 H2]. split; [|assumption].
    rewrite map_app. apply in_or_app. now left.
  - intros r Hr. destruct (ok_reset_cols0 r Hr) as [H1 H2]. split; [|assumption].
    rewrite map_app. apply in_or_app. now left.
  - lia.
Qed.

Lemma schema_ok_insert_session uid k t d d' :
  schema_ok d ->
  Sql.insert_session uid k t t (t + 60 * 60 * 24 * 14) d = Some d' -> schema_ok d'.
Proof.
  intros H Hins. destruct H.
  unfold Sql.insert_session in Hins.
  destruct (existsb _ _) eqn:Hex; [discriminate|].
  destruct (Sql.user_exists uid d) eqn:Hu; [|discriminate]. simpl in Hins.
  injection Hins as <-.
  destruct (next_rowid_range (sessions_seq d) (map s_id (sessions d))) as [Hnew Hold];
    [tauto | |].
  { intros i Hi. apply in_map_iff in Hi as (s & <- & Hs). auto. }
  constructor; simpl; auto.
  - apply NoDup_map_snoc; [assumption|]. simpl. apply next_rowid_fresh.
  - apply NoDup_map_snoc; [assumption|]. simpl.
    intros Hin. apply in_map_iff in Hin as (s & Hs & Hin).
    apply (existsb_false_In _ _ Hex) in Hin. apply bytes_eqb_eq in Hs. congruence.
  - intros s Hs. apply in_app_or in Hs as [Hs|[<-|[]]]; simpl.
    + apply Hold. now apply in_map.
    + lia.
  - intros s Hs. apply in_app_or in Hs as [Hs|[<-|[]]]; simpl; auto.
    split; [now apply user_exists_In | reflexivity].
  - lia.
Qed.

Lemma schema_ok_insert_reset_token uid k vh t d d' :
  schema_ok d ->
  Sql.insert_reset_token uid k vh t (t + 60 * 60) d = Some d' -> schema_ok d'.
Proof.
  intros H Hins. destruct H.
  unfold Sql.insert_reset_token in Hins.
  destruct (existsb _ _) eqn:Hex; [discriminate|].
  destruct (Sql.user_exists uid d) eqn:Hu; [|discriminate]. simpl in Hins.
  injection Hins as <-.
  destruct (next_rowid_range (password_reset_tokens_seq d)
              (map r_id (password_reset_tokens d))) as [Hnew Hold]; [tauto | |].
  { intros i Hi. apply in_map_iff in Hi as (r & <- & Hr). auto. }
  constructor; simpl; auto.
  - apply NoDup_map_snoc; [assumption|]. simpl. apply next_rowid_fresh.
  - apply NoDup_map_snoc; [assumption|]. simpl.
    intros Hin. apply in_map_iff in Hin as (r & Hr & Hin).
    apply (existsb_false_In _ _ Hex) in Hin. apply String.eqb_neq in Hin. contradiction.
  - intros r Hr. apply in_app_or in Hr as [Hr|[<-|[]]]; simpl.
    + apply Hold. now apply in_map.
    + lia.
  - intros r Hr. apply in_app_or in Hr as [Hr|[<-|[]]]; simpl; auto.
    split; [now apply user_exists_In | reflexivity].
  - lia.
Qed.

(** Updating columns other than the keys of the users table. *)
Lemma schema_ok_update_users (g : user -> user) d :
  schema_ok d ->
  (forall u, u_id (g u) = u_id u /\ u_email (g u) = u_email u
             /\ u_email_norm (g u) = u_email_norm u) ->
  (forall u, (u_is_admin u = 0 \/ u_is_admin u = 1) ->
             (u_is_admin (g u) = 0 \/ u_is_admin (g u) = 1)) ->
  (forall u, (u_disabled u = 0 \/ u_disabled u = 1) ->
             (u_disabled (g u) = 0 \/ u_disabled (g u) = 1)) ->
  schema_ok (Sql.with_users d (map g (users d)) (users_seq d)).
Proof.
  intros H Hkeys Hadm Hdis. destruct H.
  assert (Hids : map u_id (map g (users d)) = map u_id (users d))
    by (apply map_key_preserved; intros u; apply Hkeys).
  assert (Hems : map u_email_norm (map g (users d)) = map u_email_norm (users d))
    by (apply map_key_preserved; intros u; apply Hkeys).
  constructor; simpl; try rewrite Hids; try rewrite Hems; auto.
  - intros u Hu. apply in_map_iff in Hu as (u0 & <- & Hu0).
    destruct (Hkeys u0) as (-> & _). auto.
  - intros u Hu. apply in_map_iff in Hu as (u0 & <- & Hu0).
    destruct (Hkeys u0) as (_ & -> & ->).
    destruct (ok_user_cols0 u0 Hu0) as (? & ? & ? & ? & ?). auto 10.
Qed.

Lemma schema_ok_writes d d' : schema_ok d -> server_writes d d' -> schema_ok d'.
Proof.
  intros Hok Hw. induction Hw; auto.
  - eapply schema_ok_insert_user; eauto.
  - eapply schema_ok_insert_session; eauto.
  - eapply schema_ok_insert_reset_token; eauto.
  - apply (schema_ok_update_users
             (fun u => if u_id u =? i
                       then mk_user (u_id u) (u_email u) (u_email_norm u) sa ha
                              (u_is_admin u) (u_disabled u) (u_created_at u)
                       else u)); auto;
      intros u; destruct (u_id u =? i); simpl; auto.
  - apply (schema_ok_update_users
             (fun u => if u_id u =? i
                       then mk_user (u_id u) (u_email u) (u_email_norm u) (u_pass_salt u)
                              (u_pass_hash u) (u_is_admin u) v (u_created_at u)
                       else u)); auto;
      intros u; destruct (u_id u =? i); simpl; auto.
  - apply (schema_ok_update_users
             (fun u => if u_id u =? i
                       then mk_user (u_id u) (u_email u) (u_email_norm u) (u_pass_salt u)
                              (u_pass_hash u) v (u_disabled u) (u_created_at u)
                       else u)); auto;
      intros u; destruct (u_id u =? i); simpl; auto.
  - destruct IHHw. constructor; simpl; auto.
    + rewrite map_key_preserved; [assumption|]. intros s. now destruct (s_id s =? i).
    + rewrite map_key_preserved; [assumption|]. intros s. now destruct (s_id s =? i).
    + intros s Hs. apply in_map_iff in Hs as (s0 & <- & Hs0).
      destruct (s_id s0 =? i); simpl; auto.
    + intros s Hs. apply in_map_iff in Hs as (s0 & <- & Hs0).
      destruct (s_id s0 =? i); simpl; auto.
  - destruct IHHw. constructor; simpl; auto.
    + rewrite map_key_preserved; [assumption|]. intros r. now destruct (r_id r =? i).
    + rewrite map_key_preserved; [assumption|]. intros r. now destruct (r_id r =? i).
    + intros r Hr. apply in_map_iff in Hr as (r0 & <- & Hr0).
      destruct (r_id r0 =? i); simpl; auto.
    + intros r Hr. apply in_map_iff in Hr as (r0 & <- & Hr0).
      destruct (r_id r0 =? i); simpl; auto.
  - destruct IHHw. constructor; simpl; auto using NoDup_map_filter.
    + intros s Hs. apply filter_In in Hs as [Hs _]. auto.
    + intros s Hs. apply filter_In in Hs as [Hs _]. auto.
  - destruct IHHw. constructor; simpl; auto using NoDup_map_filter.
    + intros s Hs. apply filter_In in Hs as [Hs _]. auto.
    + intros s Hs. apply filter_In in Hs as [Hs _]. auto.
  - destruct IHHw. constructor; simpl; auto using NoDup_map_filter.
    + intros u Hu. apply filter_In in Hu as [Hu _]. auto.
    + intros u Hu. apply filter_In in Hu as [Hu _]. auto.
    + intros s Hs. apply filter_In in Hs as [Hs _]. auto.
    + intros s Hs. apply filter_In in Hs as [Hs Hne].
      destruct (ok_session_cols0 s Hs) as [Hown Hx]. split; [|assumption].
      apply in_map_iff in Hown as (u & Hu & Hin).
      apply in_map_iff. exists u. split; [assumption|].
      apply filter_In. split; [assumption|]. now rewrite Hu.
    + intros r Hr. apply filter_In in Hr as [Hr _]. auto.
    + intros r Hr. apply filter_In in Hr as [Hr Hne].
      destruct (ok_reset_cols0 r Hr) as [Hown Hx]. split; [|assumption].
      apply in_map_iff in Hown as (u & Hu & Hin).
      apply in_map_iff. exists u. split; [assumption|].
      apply filter_In. split; [assumption|]. now rewrite Hu.
Qed.

Ltac flag01 :=
  repeat match goal with
    | |- context [match ?c with _ => _ end] => destruct c
    end; auto.

Ltac emailish_checked :=
  match goal with
  | H : negb (_is_emailish ?x) || _ = false |- _is_emailish ?x = true =>
      apply orb_false_iff in H as [H _]; now apply negb_false_iff in H
  end.

Ltac sw_step :=
  first
    [ apply sw_refl
    | apply sw_update_user_password
    | apply sw_update_session_last_seen
    | apply sw_update_reset_token_used
    | apply sw_delete_sessions_by_token_hash
    | apply sw_delete_sessions_by_user
    | apply sw_delete_user
    | apply sw_update_user_disabled; [|flag01]
    | apply sw_update_user_is_admin; [|flag01]
    | eapply sw_insert_session; [|eassumption]
    | eapply sw_insert_reset_token; [|eassumption]
    | eapply sw_insert_user; [| | | |eassumption];
      [|emailish_checked|apply normalize_email_fixed|flag01] ].

Section Writes.
Context {lib : PyLib}.

Lemma get_current_user_writes req now d :
  server_writes d (fst (_get_current_user req now d)).
Proof.
  unfold _get_current_user.
  repeat match goal with
    | |- context [match ?x with _ => _ end] => destruct x
    end; simpl; repeat sw_step.
Qed.

Section Branches.
Variables (form : dict) (e : env) (user : option current_user).
Variables (d d' : db) (r : response).

Ltac session_created :=
  try match goal with H : _create_session _ _ _ = _ |- _ =>
        apply create_session_inv in H as (H & _ & _) end.

Lemma post_login_writes :
  post_login form e user d = Some (d', r) -> server_writes d d'.
Proof.
  unfold post_login. intros H. inv_handler H; session_created; repeat sw_step.
Qed.

Lemma post_register_writes :
  post_register form e user d = Some (d', r) -> server_writes d d'.
Proof.
  unfold post_register. intros H. inv_handler H; session_created; repeat sw_step.
Qed.

Lemma post_change_password_writes :
  post_change_password form e user d = Some (d', r) -> server_writes d d'.
Proof.
  unfold post_change_password. intros H. inv_handler H; repeat sw_step.
Qed.

Lemma post_account_delete_writes :
  post_account_delete form user d = Some (d', r) -> server_writes d d'.
Proof.
  unfold post_account_delete. intros H. inv_handler H; repeat sw_step.
Qed.

Lemma post_reset_writes :
  post_reset form e user d = Some (d', r) -> server_writes d d'.
Proof.
  unfold post_reset. intros H. inv_handler H; repeat sw_step.
Qed.

Lemma post_reset_confirm_writes :
  post_reset_confirm form e user d = Some (d', r) -> server_writes d d'.
Proof.
  unfold post_reset_confirm. intros H. inv_handler H; repeat sw_step.
Qed.

Lemma admin_routes_writes p :
  admin_routes p form e d = Some (d', r) -> server_writes d d'.
Proof.
  unfold admin_routes, admin_create_user, admin_toggle_disabled, admin_toggle_admin,
    admin_create_reset, admin_delete_user.
  intros H. inv_handler H; repeat sw_step.
Qed.

Lemma post_admin_writes p :
  post_admin p form e user d = Some (d', r) -> server_writes d d'.
Proof.
  unfold post_admin. intros H.
  destruct user; [|injection H as <- _; constructor].
  destruct (is_admin _ =? 0); [injection H as <- _; constructor|].
  eapply admin_routes_writes; eauto.
Qed.

End Branches.

Lemma post_routes_writes req e d d' r :
  post_routes req e d = Some (d', r) -> server_writes d d'.
Proof.
  unfold post_routes. intros H.
  pose proof (get_current_user_writes req (clock_auth e) d) as Hu.
  destruct (_get_current_user req (clock_auth e) d) as [d0 user]. simpl in Hu.
  eapply server_writes_trans; [exact Hu|].
  repeat match type of H with
    | context [if ?x then _ else _] => destruct x
    end;
    eauto using post_login_writes, post_register_writes, post_change_password_writes,
      post_account_delete_writes, post_reset_writes, post_reset_confirm_writes,
      post_admin_writes.
  injection H as <- _. constructor.
Qed.

Lemma step_writes ev d : server_writes d (step ev d).
Proof.
  destruct ev as [req now|req e]; simpl.
  - unfold _handle_app_get.
    pose proof (get_current_user_writes req now d) as Hu.
    destruct (_get_current_user req now d) as [d0 user]. simpl in Hu.
    repeat match goal with
      | |- context [if ?x then _ else _] => destruct x
      | |- context [match ?x with _ => _ end] => destruct x
      end; simpl; try exact Hu.
    now constructor.
  - unfold _handle_app_post. destruct (negb _); [constructor|].
    destruct (post_routes req e d) as [[d' r]|] eqn:H; simpl; [|constructor].
    eapply post_routes_writes; eauto.
Qed.

Lemma reachable_schema_ok d : reachable d -> schema_ok d.
Proof.
  intros H. induction H as [|ev d _ IH]; [apply schema_ok_empty|].
  eapply schema_ok_writes; eauto using step_writes.
Qed.

End Writes.

(** The rows after some writes are rows from before, with their lifetime as
    it was, or rows with an id above the counter from before. *)
Lemma server_writes_rows d d' :
  server_writes d d' ->
  sessions_seq d <= sessions_seq d'
  /\ password_reset_tokens_seq d <= password_reset_tokens_seq d'
  /\ (forall s', In s' (sessions d') ->
        (exists s, In s (sessions d) /\ same_lifetime s s') \/ sessions_seq d < s_id s')
  /\ (forall r', In r' (password_reset_tokens d') ->
        (exists r, In r (password_reset_tokens d) /\ same_reset_lifetime r r')
        \/ password_reset_tokens_seq d < r_id r').
Proof.
  intros Hw. induction Hw as
      [ | d1 d2 en sa ha a c _ IH _ _ _ Hins
        | d1 d2 uid k t _ IH Hins
        | d1 d2 uid k vh t _ IH Hins
        | d1 sa ha i _ IH | d1 v i _ IH _ | d1 v i _ IH _
        | d1 t i _ IH | d1 t i _ IH
        | d1 k _ IH | d1 i _ IH | d1 i _ IH ].
  - repeat split; try lia.
    + intros s' Hs. left. exists s'. unfold same_lifetime. auto.
    + intros r' Hr. left. exists r'. unfold same_reset_lifetime. auto.
  - apply insert_user_inv in Hins as [_ ->]. exact IH.
  - destruct IH as (H1 & H2 & H3 & H4).
    apply insert_session_inv in Hins as (_ & _ & ->). simpl.
    pose proof (proj1 (fold_max_ge (sessions_seq d1) (map s_id (sessions d1)))) as Hge.
    unfold Sql.next_rowid. repeat split; try lia; [|exact H4].
    intros s' Hs. apply in_app_or in Hs as [Hs|[<-|[]]]; [now apply H3|].
    right. simpl. lia.
  - destruct IH as (H1 & H2 & H3 & H4).
    apply insert_reset_token_inv in Hins as (_ & _ & ->). simpl.
    pose proof (proj1 (fold_max_ge (password_reset_tokens_seq d1)
                         (map r_id (password_reset_tokens d1)))) as Hge.
    unfold Sql.next_rowid. repeat split; try lia; [exact H3|].
    intros r' Hr. apply in_app_or in Hr as [Hr|[<-|[]]]; [now apply H4|].
    right. simpl. lia.
  - exact IH.
  - exact IH.
  - exact IH.
  - destruct IH as (H1 & H2 & H3 & H4). simpl. repeat split; auto.
    intros s' Hs. apply in_map_iff in Hs as (s1 & <- & Hs1).
    destruct (H3 s1 Hs1) as [(s & Hs & Hid & Hc & Hx)|Hnew].
    + left. exists s. split; [assumption|]. unfold same_lifetime.
      destruct (s_id s1 =? i); simpl; auto.
    + right. destruct (s_id s1 =? i); simpl; assumption.
  - destruct IH as (H1 & H2 & H3 & H4). simpl. repeat split; auto.
    intros r' Hr. apply in_map_iff in Hr as (r1 & <- & Hr1).
    destruct (H4 r1 Hr1) as [(r & Hr & Hid & Hc & Hx)|Hnew].
    + left. exists r. split; [assumption|]. unfold same_reset_lifetime.
      destruct (r_id r1 =? i); simpl; auto.
    + right. destruct (r_id r1 =? i); simpl; assumption.
  - destruct IH as (H1 & H2 & H3 & H4). simpl. repeat split; auto.
    intros s' Hs. apply filter_In in Hs as [Hs _]. auto.
  - destruct IH as (H1 & H2 & H3 & H4). simpl. repeat split; auto.
    intros s' Hs. apply filter_In in Hs as [Hs _]. auto.
  - destruct IH as (H1 & H2 & H3 & H4). simpl. repeat split; auto.
    + intros s' Hs. apply filter_In in Hs as [Hs _]. auto.
    + intros r' Hr. apply filter_In in Hr as [Hr _]. auto.
Qed.

Section Invariants.
Context {lib : PyLib}.

(** X1: in every store the server reaches from the empty tables, user ids,
    normalized e-mails, session ids, session token hashes, reset-record ids and
    selectors are each unique; every id lies between 1 and the AUTOINCREMENT
    counter of its table; every session and every reset record belongs to a user
    that exists. *)
Theorem reachable_store_keys_unique d :
  reachable d ->
  NoDup (map u_id (users d)) /\ NoDup (map u_email_norm (users d))
  /\ NoDup (map s_id (sessions d)) /\ NoDup (map s_token_hash (sessions d))
  /\ NoDup (map r_id (password_reset_tokens d))
  /\ NoDup (map r_selector (password_reset_tokens d))
  /\ (forall u, In u (users d) -> 1 <= u_id u <= users_seq d)
  /\ (forall s, In s (sessions d) ->
        1 <= s_id s <= sessions_seq d /\ In (s_user_id s) (map u_id (users d)))
  /\ (forall r, In r (password_reset_tokens d) ->
        1 <= r_id r <= password_reset_tokens_seq d
        /\ In (r_user_id r) (map u_id (users d))).
Proof.
  intros H. apply reachable_schema_ok in H. destruct H.
  repeat (split; [assumption|]). repeat split; try (now apply ok_user_range0);
    try (now apply ok_session_range0); try (now apply ok_session_cols0);
    try (now apply ok_reset_range0); now apply ok_reset_cols0.
Qed.

Lemma run_writes evs d : server_writes d (run evs d).
Proof.
  revert d. unfold run. induction evs as [|ev evs IH]; intros d; simpl; [constructor|].
  eapply server_writes_trans; [apply step_writes | apply IH].
Qed.

(** X2: in every store the server reaches, each session expires exactly 14 days
    after it was created and each reset record exactly one hour after it was
    created; and no request changes these times: whatever requests follow, a
    row that is still there (a row with the same id, and ids are not used
    twice) has the creation and expiry time it had. *)
Theorem reachable_store_lifetimes d :
  reachable d ->
  (forall s, In s (sessions d) -> s_expires_at s = s_created_at s + 60 * 60 * 24 * 14)
  /\ (forall r, In r (password_reset_tokens d) -> r_expires_at r = r_created_at r + 60 * 60)
  /\ (forall evs s s',
        In s (sessions d) -> In s' (sessions (run evs d)) -> s_id s' = s_id s ->
        s_created_at s' = s_created_at s /\ s_expires_at s' = s_expires_at s)
  /\ (forall evs r r',
        In r (password_reset_tokens d) -> In r' (password_reset_tokens (run evs d)) ->
        r_id r' = r_id r ->
        r_created_at r' = r_created_at r /\ r_expires_at r' = r_expires_at r).
Proof.
  intros H. pose proof (reachable_schema_ok d H) as Hok.
  split; [intros s Hs; now apply (ok_session_cols d Hok)|].
  split; [intros r Hr; now apply (ok_reset_cols d Hok)|].
  split.
  - intros evs s s' Hs Hs' Hid.
    destruct (server_writes_rows _ _ (run_writes evs d)) as (_ & _ & H3 & _).
    destruct (H3 s' Hs') as [(s0 & Hs0 & Hid0 & Hc & Hx)|Hnew].
    + assert (s0 = s)
        by (eapply NoDup_map_eq; [apply (ok_session_ids d Hok) | | | congruence]; auto).
      subst s0. auto.
    + pose proof (ok_session_range d Hok s Hs). lia.
  - intros evs r r' Hr Hr' Hid.
    destruct (server_writes_rows _ _ (run_writes evs d)) as (_ & _ & _ & H4).
    destruct (H4 r' Hr') as [(r0 & Hr0 & Hid0 & Hc & Hx)|Hnew].
    + assert (r0 = r)
        by (eapply NoDup_map_eq; [apply (ok_reset_ids d Hok) | | | congruence]; auto).
      subst r0. auto.
    + pose proof (ok_reset_range d Hok r Hr). lia.
Qed.

(** X3: every account in a store the server reaches has its e-mail stored in
    normalized form (the [email] and [email_norm] columns agree and are a fixed
    point of [_normalize_email]), passes [_is_emailish], and has its [is_admin]
    and [disabled] flags at 0 or 1. *)
Theorem reachable_store_accounts_valid d u :
  reachable d -> In u (users d) ->
  u_email u = u_email_norm u
  /\ _normalize_email (u_email_norm u) = u_email_norm u
  /\ _is_emailish (u_email_norm u) = true
  /\ (u_is_admin u = 0 \/ u_is_admin u = 1)
  /\ (u_disabled u = 0 \/ u_disabled u = 1).
Proof.
  intros H Hu. apply reachable_schema_ok in H. destruct H.
  destruct (ok_user_cols0 u Hu) as (? & ? & ? & ? & ?). auto.
Qed.

End Invariants.

(** ** Registering and the admin flag *)

Section Registration.
Context {lib : PyLib}.

(** C8: a successful registration appends one enabled user whose admin flag
    is 1 exactly when the users table was empty at the call, and 0 exactly
    when it held a user.  The first user ever registered (the AUTOINCREMENT
    counter of the users table is still 0) finds the table empty and is
    granted admin; a later registrant is granted admin exactly when every
    earlier account has been deleted by then. *)
Theorem register_grants_admin_iff_no_user req e d d' c :
  path req = "/app/register" ->
  _handle_app_post req e d = (d', Redirect "/app/account" (Some c)) ->
  exists u, users d' = users d ++ [u]
    /\ u_email_norm u = _normalize_email (form_get (form_of req) "email")
    /\ u_disabled u = 0
    /\ (u_is_admin u = 1 <-> users d = [])
    /\ (u_is_admin u = 0 <-> users d <> [])
    /\ (reachable d -> users_seq d = 0 -> u_is_admin u = 1).
Proof.
  intros Hp H. unfold _handle_app_post in H.
  destruct (negb (_same_origin_post req)); [discriminate|].
  rewrite post_routes_register in H by assumption.
  destruct (snd (_get_current_user req (clock_auth e) d)) eqn:Hu.
  { simpl in H. discriminate. }
  rewrite (get_current_user_anonymous _ _ _ Hu) in H. simpl fst in H.
  destruct (post_register _ _ _ _) as [[d1 r]|] eqn:E; simpl in H; [|discriminate].
  injection H as -> ->.
  unfold post_register in E. inv_handler E.
  apply insert_user_inv in Heqo as [_ ->].
  apply create_session_inv in Heqo1 as (Hs & _ & _).
  apply insert_session_inv in Hs as (_ & _ & ->).
  simpl. eexists. split; [reflexivity|]. simpl.
  unfold Sql.count_users. repeat split; try reflexivity.
  - destruct (users d); [reflexivity|]. simpl. discriminate.
  - intros ->. reflexivity.
  - destruct (users d); [simpl; discriminate | discriminate].
  - destruct (users d); [congruence|]. reflexivity.
  - intros Hreach Hseq. pose proof (reachable_schema_ok d Hreach) as Hok.
    destruct (users d) as [|u0 l] eqn:Hus; [reflexivity|]. exfalso.
    assert (Hin : In u0 (users d)) by (rewrite Hus; now left).
    pose proof (ok_user_range d Hok u0 Hin). lia.
Qed.

End Registration.

(** ** Issuing and resolving sessions *)

Lemma filter_by_unique_key {A} (key : A -> Z) (rows : list A) (a : A) :
  NoDup (map key rows) -> In a rows ->
  filter (fun b => key b =? key a) rows = [a].
Proof.
  induction rows as [|b rows IH]; simpl; [intros _ []|].
  intros Hnd Hin. inversion Hnd as [|? ? Hb Hnd']; subst.
  destruct Hin as [->|Hin].
  - rewrite Z.eqb_refl. f_equal.
    clear IH Hnd. induction rows as [|c rows IH]; simpl; [reflexivity|].
    inversion Hnd' as [|? ? Hc Hnd'']; subst.
    destruct (key c =? key a) eqn:E.
    + apply Z.eqb_eq in E. elim Hb. simpl. now left.
    + apply IH; [|assumption]. intros Hin. apply Hb. simpl. now right.
  - destruct (key b =? key a) eqn:E.
    + apply Z.eqb_eq in E. elim Hb. rewrite E. now apply in_map.
    + now apply IH.
Qed.

Lemma flat_map_nil {A B} (f : A -> list B) (l : list A) :
  (forall a, In a l -> f a = []) -> flat_map f l = [].
Proof.
  induction l as [|a l IH]; simpl; [reflexivity|]. intros H.
  rewrite (H a) by now left. apply IH. intros b Hb. apply H. now right.
Qed.

Section Sessions.
Context {lib : PyLib}.

Lemma select_new_session uid h t x d d' u now :
  NoDup (map u_id (users d)) ->
  Sql.insert_session uid h t t x d = Some d' ->
  In u (users d) -> u_id u = uid ->
  select_current_user h now d'
  = if x >? now
    then [row_of (Sql.next_rowid (sessions_seq d) (map s_id (sessions d))) u]
    else [].
Proof.
  intros Hnd Hins Hu Hid.
  apply insert_session_inv in Hins as (Hfresh & _ & ->).
  unfold select_current_user. simpl sessions. simpl users.
  rewrite flat_map_app. simpl.
  rewrite flat_map_nil.
  2:{ intros s Hs. specialize (Hfresh s Hs).
      destruct (bytes_eqb (s_token_hash s) h) eqn:E; [|reflexivity].
      apply bytes_eqb_eq in E. contradiction. }
  rewrite bytes_eqb_refl. simpl. destruct (x >? now); [|reflexivity].
  rewrite app_nil_r. subst uid.
  rewrite (filter_by_unique_key u_id (users d) u Hnd Hu). reflexivity.
Qed.

Lemma get_current_user_new_session e uid d d' tok x u req now :
  NoDup (map u_id (users d)) ->
  _create_session e uid d = Some (d', (tok, x)) ->
  In u (users d) -> u_id u = uid ->
  tok <> "" -> presents req tok ->
  _get_current_user req now d'
  = if x >? now
    then let sid := Sql.next_rowid (sessions_seq d) (map s_id (sessions d)) in
         (Sql.update_session_last_seen now sid d', Some (row_of sid u))
    else (d', None).
Proof.
  intros Hnd Hc Hu Hid Hne Hp.
  apply create_session_inv in Hc as (Hins & -> & ->).
  rewrite (get_current_user_token _ _ _ _ Hp Hne).
  rewrite (select_new_session _ _ _ _ _ _ u now Hnd Hins Hu Hid).
  destruct (_ >? now); reflexivity.
Qed.

(** X4: a session that [_create_session] issues expires 14 days after the clock
    reading of its creation; a request that presents its token resolves to the
    owner at every time before that, is anonymous from that time on, and a
    resolution (which touches [last_seen_at]) does not extend it. *)
Theorem issued_session_lives_fourteen_days e uid d d' tok x req :
  reachable d ->
  _create_session e uid d = Some (d', (tok, x)) ->
  tok <> "" -> presents req tok ->
  x = clock_session e + 60 * 60 * 24 * 14
  /\ (forall now, now < x ->
        exists row, snd (_get_current_user req now d') = Some row /\ user_id row = uid)
  /\ (forall now, x <= now -> _get_current_user req now d' = (d', None))
  /\ (forall now later, now < x -> x <= later ->
        snd (_get_current_user req later (fst (_get_current_user req now d'))) = None).
Proof.
  intros Hreach Hc Hne Hp.
  pose proof (reachable_schema_ok d Hreach) as Hok.
  pose proof (create_session_inv _ _ _ _ _ _ Hc) as (Hins & Htok & Hx).
  pose proof (insert_session_inv _ _ _ _ _ _ _ Hins) as (_ & Huid & _).
  apply in_map_iff in Huid as (u & Hid & Hu).
  pose proof (fun now => get_current_user_new_session e uid d d' tok x u req now
                           (ok_user_ids d Hok) Hc Hu Hid Hne Hp) as Hres.
  split; [assumption|]. split; [|split].
  - intros now Hnow. rewrite (Hres now).
    destruct (Z.gtb_spec x now); [|lia].
    eexists. split; [reflexivity | exact Hid].
  - intros now Hnow. rewrite (Hres now).
    destruct (Z.gtb_spec x now); [lia | reflexivity].
  - intros now later Hnow Hlater. rewrite (Hres now).
    destruct (Z.gtb_spec x now); [|lia]. simpl fst.
    rewrite (get_current_user_token _ _ _ _ Hp Hne).
    destruct (hd_error _) as [row|] eqn:Hhd; [|reflexivity]. exfalso.
    apply hd_error_In, select_current_user_In in Hhd
      as (s & u0 & Hs & _ & Hh & Hexp & _).
    simpl in Hs. apply in_map_iff in Hs as (s0 & Hs0 & Hin).
    assert (Hx0 : s_expires_at s = s_expires_at s0)
      by (rewrite <- Hs0; destruct (s_id s0 =? _); reflexivity).
    assert (Hh0 : s_token_hash s = s_token_hash s0)
      by (rewrite <- Hs0; destruct (s_id s0 =? _); reflexivity).
    apply insert_session_inv in Hins as (Hfresh & _ & ->). simpl in Hin.
    apply in_app_or in Hin as [Hin|[<-|[]]].
    + apply (Hfresh s0 Hin). rewrite <- Hh0, Hh, Htok. reflexivity.
    + simpl in Hx0. lia.
Qed.

End Sessions.

(** ** Logging in *)

Section Login.
Context {lib : PyLib}.

Lemma post_routes_login req e d :
  path req = "/app/login" ->
  post_routes req e d
  = post_login (form_of req) e (snd (_get_current_user req (clock_auth e) d))
      (fst (_get_current_user req (clock_auth e) d)).
Proof.
  intros Hp. unfold post_routes. rewrite Hp.
  destruct (_get_current_user req (clock_auth e) d). route. reflexivity.
Qed.

Lemma handle_login req e d :
  _same_origin_post req = true -> path req = "/app/login" ->
  snd (_get_current_user req (clock_auth e) d) = None ->
  _handle_app_post req e d = with_transaction d (post_login (form_of req) e None d).
Proof.
  intros Ho Hp Hu. rewrite handle_app_post_same_origin by assumption.
  rewrite post_routes_login by assumption.
  now rewrite (get_current_user_anonymous _ _ _ Hu).
Qed.

Lemma user_by_email_norm_In en d u :
  Sql.user_by_email_norm en d = Some u -> In u (users d) /\ u_email_norm u = en.
Proof.
  intros H. apply find_some in H as [Hin He]. split; [assumption | now apply String.eqb_eq].
Qed.

Lemma truthy_iff s : Py.truthy s = true <-> s <> "".
Proof. destruct s; simpl; split; congruence. Qed.

Lemma insert_session_accepted uid h t l x d :
  ~ In h (map s_token_hash (sessions d)) -> In uid (map u_id (users d)) ->
  exists d', Sql.insert_session uid h t l x d = Some d'.
Proof.
  intros Hh Hu. unfold Sql.insert_session.
  replace (existsb _ (sessions d)) with false.
  - apply user_exists_In in Hu. rewrite Hu. simpl. eauto.
  - symmetry. apply not_true_iff_false. intros Hex.
    apply existsb_exists in Hex as (s & Hs & E). apply bytes_eqb_eq in E.
    apply Hh. rewrite <- E. now apply in_map.
Qed.

(** What [/app/login] does for an anonymous client whose credentials verify. *)
Lemma post_login_accepts form e d u :
  Sql.user_by_email_norm (_normalize_email (form_get form "email")) d = Some u ->
  _is_emailish (u_email_norm u) = true ->
  form_get form "password" <> "" ->
  u_disabled u = 0 ->
  verifies (form_get form "password") u = true ->
  ~ In (_sha256_bytes (rnd_session_token e)) (map s_token_hash (sessions d)) ->
  exists d',
    _create_session e (u_id u) d = Some (d', (rnd_session_token e,
                                              clock_session e + 60 * 60 * 24 * 14))
    /\ post_login form e None d = Some (d', signed_in e).
Proof.
  intros Hrow Hem Hpw Hdis Hver Hfresh.
  pose proof (user_by_email_norm_In _ _ _ Hrow) as [Hin Hen].
  destruct (insert_session_accepted (u_id u) (_sha256_bytes (rnd_session_token e))
              (clock_session e) (clock_session e)
              (clock_session e + 60 * 60 * 24 * 14) d Hfresh) as [d' Hins];
    [now apply in_map|].
  exists d'.
  assert (Hc : _create_session e (u_id u) d
               = Some (d', (rnd_session_token e, clock_session e + 60 * 60 * 24 * 14)))
    by (unfold _create_session; now rewrite Hins).
  split; [exact Hc|].
  rewrite Hen in Hem. unfold post_login. rewrite Hrow, Hem.
  apply truthy_iff in Hpw. rewrite Hpw. simpl.
  rewrite Hdis. simpl. unfold verifies in Hver. rewrite Hver. simpl.
  rewrite Hc. reflexivity.
Qed.

(** X5: what [/app/login] refuses. For an anonymous same-origin request the
    store stays as it is and the answer is the one page [login_invalid] when the
    password is empty, when no account has the e-mail, and when the account is
    enabled but the password does not verify; when the account is disabled and
    the password is not empty the answer is the 403 page [login_disabled],
    whether or not the password is right. *)
Theorem login_refusals req e d :
  reachable d ->
  _same_origin_post req = true -> path req = "/app/login" ->
  snd (_get_current_user req (clock_auth e) d) = None ->
  let email := _normalize_email (form_get (form_of req) "email") in
  let password := form_get (form_of req) "password" in
  (password = "" -> _handle_app_post req e d = (d, login_invalid))
  /\ (Sql.user_by_email_norm email d = None ->
      _handle_app_post req e d = (d, login_invalid))
  /\ (forall u, Sql.user_by_email_norm email d = Some u ->
        (u_disabled u = 0 -> verifies password u = false ->
         _handle_app_post req e d = (d, login_invalid))
        /\ (u_disabled u <> 0 -> password <> "" ->
            _handle_app_post req e d = (d, login_disabled))).
Proof.
  intros Hreach Ho Hp Hu email password.
  rewrite (handle_login _ _ _ Ho Hp Hu). unfold post_login.
  fold email. fold password. split; [|split].
  - intros ->. simpl. now rewrite orb_true_r.
  - intros ->. now destruct (_ || _).
  - intros u Hrow. rewrite Hrow. split.
    + intros -> Hver. simpl. unfold verifies in Hver. rewrite Hver. simpl.
      now destruct (_ || _).
    + intros Hdis Hpw.
      pose proof (user_by_email_norm_In _ _ _ Hrow) as [Hin Hen].
      destruct (ok_user_cols d (reachable_schema_ok d Hreach) u Hin) as (_ & Hem & _).
      rewrite Hen in Hem. rewrite Hem. apply truthy_iff in Hpw. rewrite Hpw. simpl.
      apply Z.eqb_neq in Hdis. rewrite Hdis. reflexivity.
Qed.

(** X6: a login with the right password on an enabled account is accepted: the
    client is redirected to the account page with a session cookie whose Max-Age
    is the time left until expiry, the users and the reset records are
    untouched, exactly one session is appended (for that user, with the hash of
    the drawn token, living 14 days), and every request that presents the drawn
    token before expiry resolves to that user. *)
Theorem login_opens_session req e d u :
  reachable d ->
  _same_origin_post req = true -> path req = "/app/login" ->
  snd (_get_current_user req (clock_auth e) d) = None ->
  Sql.user_by_email_norm (_normalize_email (form_get (form_of req) "email")) d = Some u ->
  u_disabled u = 0 ->
  form_get (form_of req) "password" <> "" ->
  verifies (form_get (form_of req) "password") u = true ->
  rnd_session_token e <> "" ->
  ~ In (_sha256_bytes (rnd_session_token e)) (map s_token_hash (sessions d)) ->
  exists d' sid,
    _handle_app_post req e d = (d', signed_in e)
    /\ users d' = users d
    /\ password_reset_tokens d' = password_reset_tokens d
    /\ sessions d'
       = sessions d ++ [mk_session sid (u_id u) (_sha256_bytes (rnd_session_token e))
                          (clock_session e) (clock_session e)
                          (clock_session e + 60 * 60 * 24 * 14)]
    /\ (forall req' now,
          presents req' (rnd_session_token e) ->
          now < clock_session e + 60 * 60 * 24 * 14 ->
          snd (_get_current_user req' now d') = Some (row_of sid u)).
Proof.
  intros Hreach Ho Hp Hu Hrow Hdis Hpw Hver Htok Hfresh.
  pose proof (reachable_schema_ok d Hreach) as Hok.
  pose proof (user_by_email_norm_In _ _ _ Hrow) as [Hin Hen].
  destruct (ok_user_cols d Hok u Hin) as (_ & Hem & _).
  destruct (post_login_accepts (form_of req) e d u Hrow Hem Hpw Hdis Hver Hfresh)
    as (d' & Hc & Hlogin).
  exists d', (Sql.next_rowid (sessions_seq d) (map s_id (sessions d))).
  rewrite (handle_login _ _ _ Ho Hp Hu), Hlogin. simpl.
  pose proof (create_session_inv _ _ _ _ _ _ Hc) as (Hins & _ & _).
  pose proof (insert_session_inv _ _ _ _ _ _ _ Hins) as (_ & _ & Hd').
  split; [reflexivity|]. split; [now subst d'|]. split; [now subst d'|].
  split; [now subst d'|].
  intros req' now Hp' Hnow.
  rewrite (get_current_user_new_session e (u_id u) d d' _ _ u req' now
             (ok_user_ids d Hok) Hc Hin eq_refl Htok Hp').
  destruct (Z.gtb_spec (clock_session e + 60 * 60 * 24 * 14) now); [reflexivity | lia].
Qed.

End Login.

(** ** Registering *)

Section Register.
Context {lib : PyLib}.

Lemma handle_register req e d :
  _same_origin_post req = true -> path req = "/app/register" ->
  snd (_get_current_user req (clock_auth e) d) = None ->
  _handle_app_post req e d = with_transaction d (post_register (form_of req) e None d).
Proof.
  intros Ho Hp Hu. rewrite handle_app_post_same_origin by assumption.
  rewrite post_routes_register by assumption.
  now rewrite (get_current_user_anonymous _ _ _ Hu).
Qed.

Lemma insert_user_refused em en sa ha a di c d :
  Sql.user_by_email_norm en d <> None -> Sql.insert_user em en sa ha a di c d = None.
Proof.
  intros H. unfold Sql.insert_user, Sql.user_by_email_norm in *.
  destruct (existsb _ _) eqn:E; [reflexivity|].
  apply find_none_iff in E. contradiction.
Qed.

Lemma post_register_refuses form e d :
  let email := _normalize_email (form_get form "email") in
  let password := form_get form "password" in
  (_is_emailish email = false \/ Py.len password < 8 ->
   post_register form e None d = Some (d, register_invalid))
  /\ (_is_emailish email = true -> 8 <= Py.len password ->
      Sql.user_by_email_norm email d <> None ->
      post_register form e None d = Some (d, register_duplicate)).
Proof.
  intros email password. unfold post_register.
  fold email. fold password. split.
  - intros [Hem|Hlen].
    + now rewrite Hem.
    + replace (Py.len password <? 8) with true by (symmetry; apply Z.ltb_lt; lia).
      now rewrite orb_true_r.
  - intros Hem Hlen Hdup. rewrite Hem.
    replace (Py.len password <? 8) with false by (symmetry; apply Z.ltb_ge; lia).
    simpl. now rewrite insert_user_refused.
Qed.

(** X7: what [/app/register] refuses. An anonymous same-origin registration with
    an e-mail that is not e-mail-like or a password of fewer than 8 characters
    gets [register_invalid]; one with an acceptable e-mail and password whose
    normalized e-mail is taken gets [register_duplicate]; both leave the store
    as it is. *)
Theorem register_refusals req e d :
  _same_origin_post req = true -> path req = "/app/register" ->
  snd (_get_current_user req (clock_auth e) d) = None ->
  let email := _normalize_email (form_get (form_of req) "email") in
  let password := form_get (form_of req) "password" in
  (_is_emailish email = false \/ Py.len password < 8 ->
   _handle_app_post req e d = (d, register_invalid))
  /\ (_is_emailish email = true -> 8 <= Py.len password ->
      Sql.user_by_email_norm email d <> None ->
      _handle_app_post req e d = (d, register_duplicate)).
Proof.
  intros Ho Hp Hu email password.
  rewrite (handle_register _ _ _ Ho Hp Hu).
  destruct (post_register_refuses (form_of req) e d) as [H1 H2].
  split.
  - intros H. now rewrite H1.
  - intros Hem Hlen Hdup. now rewrite H2.
Qed.

(** What a successful registration leaves in the store. *)
Lemma register_inv req e d d' c :
  path req = "/app/register" ->
  _handle_app_post req e d = (d', Redirect "/app/account" (Some c)) ->
  let email := _normalize_email (form_get (form_of req) "email") in
  let password := form_get (form_of req) "password" in
  exists d1 u,
    _same_origin_post req = true
    /\ snd (_get_current_user req (clock_auth e) d) = None
    /\ _is_emailish email = true /\ 8 <= Py.len password
    /\ Sql.insert_user email email (rnd_salt e) (_password_hash password (rnd_salt e))
         (if Sql.count_users d =? 0 then 1 else 0) 0 (clock_post e) d = Some d1
    /\ Sql.user_by_email_norm email d1 = Some u
    /\ _create_session e (u_id u) d1
       = Some (d', (rnd_session_token e, clock_session e + 60 * 60 * 24 * 14))
    /\ c = SessionCookie (rnd_session_token e)
             (clock_session e + 60 * 60 * 24 * 14 - clock_post e).
Proof.
  intros Hp H email password. unfold _handle_app_post in H.
  destruct (_same_origin_post req) eqn:Ho; simpl in H; [|discriminate].
  rewrite post_routes_register in H by assumption.
  destruct (snd (_get_current_user req (clock_auth e) d)) eqn:Hu.
  { simpl in H. discriminate. }
  rewrite (get_current_user_anonymous _ _ _ Hu) in H. simpl fst in H.
  destruct (post_register _ _ _ _) as [[d2 r]|] eqn:E; simpl in H; [|discriminate].
  injection H as -> ->.
  unfold post_register in E. fold email in E. fold password in E.
  destruct (negb (_is_emailish email) || (Py.len password <? 8)) eqn:Hv; [discriminate|].
  apply orb_false_iff in Hv as [Hem Hlen].
  apply negb_false_iff in Hem. apply Z.ltb_ge in Hlen.
  cbv zeta in E.
  destruct (Sql.insert_user _ _ _ _ _ _ _ d) as [d1|] eqn:Hins; [|discriminate].
  destruct (Sql.user_by_email_norm email d1) as [u|] eqn:Hrow; [|discriminate].
  destruct (_create_session e (u_id u) d1) as [[d2 [tok x]]|] eqn:Hc; [|discriminate].
  injection E as -> <-.
  pose proof (create_session_inv _ _ _ _ _ _ Hc) as (_ & -> & ->).
  exists d1, u. repeat split; auto.
Qed.

Lemma user_by_email_norm_new em en sa ha a di c d d1 :
  Sql.insert_user em en sa ha a di c d = Some d1 ->
  Sql.user_by_email_norm en d1
  = Some (mk_user (Sql.next_rowid (users_seq d) (map u_id (users d))) em en sa ha a di c).
Proof.
  intros H. apply insert_user_inv in H as [Hnone ->].
  unfold Sql.user_by_email_norm in *. simpl.
  rewrite (find_app_none _ _ _ Hnone). simpl. now rewrite String.eqb_refl.
Qed.

Lemma user_by_email_norm_sessions en d d' uid h t l x :
  Sql.insert_session uid h t l x d = Some d' ->
  Sql.user_by_email_norm en d' = Sql.user_by_email_norm en d.
Proof. intros H. apply insert_session_inv in H as (_ & _ & ->). reflexivity. Qed.

(** X8: after a successful registration, an anonymous login with the same
    password and an e-mail that normalizes to the same address is accepted
    (given a fresh session token), and a second registration of that address is
    refused with [register_duplicate] and changes nothing. *)
Theorem registered_account_logs_in req e d d' c :
  path req = "/app/register" ->
  _handle_app_post req e d = (d', Redirect "/app/account" (Some c)) ->
  forall req2 e2,
    _same_origin_post req2 = true ->
    snd (_get_current_user req2 (clock_auth e2) d') = None ->
    _normalize_email (form_get (form_of req2) "email")
    = _normalize_email (form_get (form_of req) "email") ->
    form_get (form_of req2) "password" = form_get (form_of req) "password" ->
    (path req2 = "/app/login" ->
     ~ In (_sha256_bytes (rnd_session_token e2)) (map s_token_hash (sessions d')) ->
     exists d2, _handle_app_post req2 e2 d' = (d2, signed_in e2))
    /\ (path req2 = "/app/register" ->
        _handle_app_post req2 e2 d' = (d', register_duplicate)).
Proof.
  intros Hp H req2 e2 Ho2 Hu2 Hem2 Hpw2.
  destruct (register_inv _ _ _ _ _ Hp H) as (d1 & u & _ & _ & Hem & Hlen & Hins & Hrow & Hc & _).
  rewrite (user_by_email_norm_new _ _ _ _ _ _ _ _ _ Hins) in Hrow. injection Hrow as Hrow.
  pose proof (create_session_inv _ _ _ _ _ _ Hc) as (Hs & _ & _).
  assert (Hrow' : Sql.user_by_email_norm
                    (_normalize_email (form_get (form_of req2) "email")) d' = Some u).
  { rewrite Hem2, (user_by_email_norm_sessions _ _ _ _ _ _ _ _ Hs).
    rewrite (user_by_email_norm_new _ _ _ _ _ _ _ _ _ Hins). now rewrite Hrow. }
  assert (Hpw : form_get (form_of req2) "password" <> "").
  { rewrite Hpw2. intros E. rewrite E in Hlen. unfold Py.len in Hlen. simpl in Hlen. lia. }
  split.
  - intros Hp2 Hfresh.
    destruct (post_login_accepts (form_of req2) e2 d' u Hrow') as (d2 & _ & Hlogin); auto.
    + subst u. simpl. exact Hem.
    + now subst u.
    + subst u. unfold verifies, compare_digest. simpl. rewrite Hpw2. apply bytes_eqb_refl.
    + exists d2. now rewrite (handle_login _ _ _ Ho2 Hp2 Hu2), Hlogin.
  - intros Hp2. rewrite (handle_register _ _ _ Ho2 Hp2 Hu2).
    destruct (post_register_refuses (form_of req2) e2 d') as [_ Hdup].
    rewrite Hdup; [reflexivity | now rewrite Hem2 | now rewrite Hpw2 | now rewrite Hrow'].
Qed.

End Register.

(** ** Changing a password, deleting an account *)

Lemma find_map_preserved {A} (p : A -> bool) (g : A -> A) (l : list A) :
  (forall a, p (g a) = p a) -> find p (map g l) = option_map g (find p l).
Proof.
  intros Hg. induction l as [|a l IH]; simpl; [reflexivity|].
  rewrite Hg. destruct (p a); [reflexivity | exact IH].
Qed.

Lemma user_by_id_update_password sa ha i j d :
  Sql.user_by_id j (Sql.update_user_password sa ha i d)
  = option_map (fun u => if u_id u =? i then with_password sa ha u else u)
      (Sql.user_by_id j d).
Proof.
  unfold Sql.user_by_id. simpl. apply find_map_preserved.
  intros u. now destruct (u_id u =? i).
Qed.

Lemma user_by_email_norm_update_password sa ha i en d :
  Sql.user_by_email_norm en (Sql.update_user_password sa ha i d)
  = option_map (fun u => if u_id u =? i then with_password sa ha u else u)
      (Sql.user_by_email_norm en d).
Proof.
  unfold Sql.user_by_email_norm. simpl. apply find_map_preserved.
  intros u. now destruct (u_id u =? i).
Qed.

Section Account.
Context {lib : PyLib}.

Lemma verifies_new_password p sa u :
  verifies p (with_password sa (_password_hash p sa) u) = true.
Proof. unfold verifies, compare_digest. simpl. apply bytes_eqb_refl. Qed.

Lemma post_routes_change_password req e d :
  path req = "/app/account/change-password" ->
  post_routes req e d
  = post_change_password (form_of req) e (snd (_get_current_user req (clock_auth e) d))
      (fst (_get_current_user req (clock_auth e) d)).
Proof.
  intros Hp. unfold post_routes. rewrite Hp.
  destruct (_get_current_user req (clock_auth e) d). route. reflexivity.
Qed.

Lemma user_by_id_touched req now d d0 u i :
  _get_current_user req now d = (d0, Some u) -> Sql.user_by_id i d0 = Sql.user_by_id i d.
Proof. intros H. apply get_current_user_some in H. now subst d0. Qed.

(** X9: the outcomes of [/app/account/change-password] for a signed-in user
    whose row exists: a disabled account is refused with 403; a new password of
    fewer than 8 characters is refused; a current password that does not verify
    is refused; otherwise the salt and digest of that user alone are replaced,
    all sessions (the user's other sessions too) and all reset records stay, and
    the client is redirected to the account page. The refusals change nothing
    but the touch of the session. *)
Theorem change_password_outcomes req e d d0 u row :
  _same_origin_post req = true -> path req = "/app/account/change-password" ->
  _get_current_user req (clock_auth e) d = (d0, Some u) ->
  Sql.user_by_id (user_id u) d = Some row ->
  let current := form_get (form_of req) "current_password" in
  let new := form_get (form_of req) "new_password" in
  let d' := Sql.update_user_password (rnd_salt e) (_password_hash new (rnd_salt e))
              (user_id u) d0 in
  (disabled u <> 0 -> _handle_app_post req e d = (d0, account_disabled))
  /\ (disabled u = 0 -> Py.len new < 8 ->
      _handle_app_post req e d = (d0, new_password_too_short))
  /\ (disabled u = 0 -> 8 <= Py.len new -> verifies current row = false ->
      _handle_app_post req e d = (d0, current_password_incorrect))
  /\ (disabled u = 0 -> 8 <= Py.len new -> verifies current row = true ->
      _handle_app_post req e d = (d', Redirect "/app/account" None)
      /\ sessions d' = sessions d0
      /\ password_reset_tokens d' = password_reset_tokens d
      /\ Sql.user_by_id (user_id u) d'
         = Some (with_password (rnd_salt e) (_password_hash new (rnd_salt e)) row)
      /\ (forall i, i <> user_id u -> Sql.user_by_id i d' = Sql.user_by_id i d))
  /\ users d0 = users d.
Proof.
  intros Ho Hp Hu Hrow current new d'.
  rewrite handle_app_post_same_origin by assumption.
  rewrite post_routes_change_password by assumption. rewrite Hu. simpl fst. simpl snd.
  unfold post_change_password. fold current. fold new.
  rewrite (user_by_id_touched _ _ _ _ _ _ Hu), Hrow.
  pose proof (get_current_user_some _ _ _ _ _ Hu) as Hd0.
  split; [|split; [|split; [|split]]].
  - intros Hdis. apply Z.eqb_neq in Hdis. now rewrite Hdis.
  - intros -> Hlen. simpl.
    now replace (Py.len new <? 8) with true by (symmetry; apply Z.ltb_lt; lia).
  - intros -> Hlen Hver. simpl.
    replace (Py.len new <? 8) with false by (symmetry; apply Z.ltb_ge; lia).
    unfold verifies in Hver. now rewrite Hver.
  - intros -> Hlen Hver. simpl.
    replace (Py.len new <? 8) with false by (symmetry; apply Z.ltb_ge; lia).
    unfold verifies in Hver. rewrite Hver. simpl.
    split; [reflexivity|]. split; [reflexivity|]. split; [now subst d0|]. split.
    + unfold d'. rewrite user_by_id_update_password.
      rewrite (user_by_id_touched _ _ _ _ _ _ Hu), Hrow. simpl.
      apply find_some in Hrow as [_ Hid]. now rewrite Hid.
    + intros i Hi. unfold d'. rewrite user_by_id_update_password.
      rewrite (user_by_id_touched _ _ _ _ _ _ Hu).
      destruct (Sql.user_by_id i d) as [v|] eqn:Hv; [|reflexivity]. simpl.
      apply find_some in Hv as [_ Hid]. apply Z.eqb_eq in Hid.
      replace (u_id v =? user_id u) with false; [reflexivity|].
      symmetry. apply Z.eqb_neq. congruence.
  - now subst d0.
Qed.

End Account.

Section Deletion.
Context {lib : PyLib}.

Lemma delete_user_cascades i d :
  Sql.user_by_id i (Sql.delete_user i d) = None
  /\ (forall s, In s (sessions (Sql.delete_user i d)) -> In s (sessions d) /\ s_user_id s <> i)
  /\ (forall r, In r (password_reset_tokens (Sql.delete_user i d)) ->
        In r (password_reset_tokens d) /\ r_user_id r <> i)
  /\ (forall j, j <> i -> Sql.user_by_id j (Sql.delete_user i d) = Sql.user_by_id j d)
  /\ (forall s, In s (sessions d) -> s_user_id s <> i -> In s (sessions (Sql.delete_user i d)))
  /\ (forall r, In r (password_reset_tokens d) -> r_user_id r <> i ->
        In r (password_reset_tokens (Sql.delete_user i d))).
Proof.
  split; [|split; [|split; [|split; [|split]]]].
  - unfold Sql.user_by_id. simpl. apply find_none_iff.
    apply not_true_iff_false. intros H. apply existsb_exists in H as (u & Hu & E).
    apply filter_In in Hu as [_ Hne]. rewrite E in Hne. discriminate.
  - intros s Hs. simpl in Hs. apply filter_In in Hs as [Hs Hne].
    split; [assumption|]. apply negb_true_iff in Hne. now apply Z.eqb_neq.
  - intros r Hr. simpl in Hr. apply filter_In in Hr as [Hr Hne].
    split; [assumption|]. apply negb_true_iff in Hne. now apply Z.eqb_neq.
  - intros j Hj. unfold Sql.user_by_id. simpl.
    induction (users d) as [|u l IH]; simpl; [reflexivity|].
    destruct (u_id u =? i) eqn:E; simpl.
    + apply Z.eqb_eq in E. replace (u_id u =? j) with false; [exact IH|].
      symmetry. apply Z.eqb_neq. congruence.
    + destruct (u_id u =? j); [reflexivity | exact IH].
  - intros s Hs Hne. simpl. apply filter_In. split; [assumption|].
    apply negb_true_iff. now apply Z.eqb_neq.
  - intros r Hr Hne. simpl. apply filter_In. split; [assumption|].
    apply negb_true_iff. now apply Z.eqb_neq.
Qed.

Lemma get_current_user_owner req now d d0 u token :
  presents req token ->
  _get_current_user req now d = (d0, Some u) ->
  exists s, In s (sessions d) /\ s_token_hash s = _sha256_bytes token
            /\ s_user_id s = user_id u.
Proof.
  intros Hp H. unfold _get_current_user in H. rewrite Hp in H.
  destruct (negb (Py.truthy token)); [discriminate|].
  destruct (hd_error _) as [row|] eqn:Hhd; [|discriminate].
  injection H as _ <-.
  apply hd_error_In, select_current_user_In in Hhd as (s & u0 & Hs & _ & Hh & _ & _ & ->).
  exists s. auto.
Qed.

(** X10: the outcomes of [/app/account/delete] for a signed-in user whose row
    exists: a password that does not verify is refused and nothing is deleted;
    otherwise the user's row goes together with all of the user's sessions and
    reset records, the other users stay, the cookie is cleared, and the token of
    the request resolves to nobody from then on. *)
Theorem account_delete_outcomes req e d d0 u row token :
  reachable d ->
  _same_origin_post req = true -> path req = "/app/account/delete" ->
  presents req token ->
  _get_current_user req (clock_auth e) d = (d0, Some u) ->
  Sql.user_by_id (user_id u) d = Some row ->
  let password := form_get (form_of req) "password" in
  (verifies password row = false ->
   _handle_app_post req e d = (d0, password_incorrect))
  /\ (verifies password row = true ->
      let d' := Sql.delete_user (user_id u) d0 in
      _handle_app_post req e d = (d', Redirect "/app/register" (Some ClearSessionCookie))
      /\ Sql.user_by_id (user_id u) d' = None
      /\ (forall s, In s (sessions d') -> s_user_id s <> user_id u)
      /\ (forall r, In r (password_reset_tokens d') -> r_user_id r <> user_id u)
      /\ (forall j, j <> user_id u -> Sql.user_by_id j d' = Sql.user_by_id j d)
      /\ (forall req' now, presents req' token -> _get_current_user req' now d' = (d', None))).
Proof.
  intros Hreach Ho Hp Hc Hu Hrow password.
  rewrite handle_app_post_same_origin by assumption.
  rewrite post_routes_account_delete by assumption. rewrite Hu. simpl fst. simpl snd.
  unfold post_account_delete. fold password.
  rewrite (user_by_id_touched _ _ _ _ _ _ Hu), Hrow.
  split.
  - intros Hver. unfold verifies in Hver. now rewrite Hver.
  - intros Hver. cbv zeta. set (d' := Sql.delete_user (user_id u) d0).
    unfold verifies in Hver. rewrite Hver. simpl.
    destruct (delete_user_cascades (user_id u) d0) as (H1 & H2 & H3 & H4 & _).
    split; [reflexivity|]. split; [exact H1|].
    split; [intros s Hs; now apply H2|]. split; [intros r Hr; now apply H3|].
    split.
    { intros j Hj. unfold d'. rewrite H4 by assumption.
      apply (user_by_id_touched _ _ _ _ _ _ Hu). }
    intros req' now Hc'. apply get_current_user_anonymous.
    apply (get_current_user_absent _ _ _ token Hc').
    intros Hin. apply in_map_iff in Hin as (s' & Hh & Hs').
    apply H2 in Hs' as [Hs' Hne].
    pose proof (get_current_user_owner _ _ _ _ _ _ Hc Hu) as (s & Hs & Hsh & Hso).
    pose proof (get_current_user_some _ _ _ _ _ Hu) as Hd0.
    assert (Hwf0 : wf d0).
    { replace d0 with (fst (_get_current_user req (clock_auth e) d)) by now rewrite Hu.
      apply (wf_evolves None None d);
        [now apply reachable_wf | apply get_current_user_evolves]. }
    destruct Hwf0 as [_ Hnd _ _].
    (* the session of the request, as it is after the touch *)
    assert (Hs0 : exists s0, In s0 (sessions d0) /\ s_token_hash s0 = _sha256_bytes token
                             /\ s_user_id s0 = user_id u).
    { subst d0. simpl. eexists. split; [apply in_map_iff; exists s; split; [reflexivity|assumption]|].
      destruct (s_id s =? session_id u); simpl; auto. }
    destruct Hs0 as (s0 & Hs0 & Hh0 & Ho0).
    assert (s' = s0) by (eapply NoDup_map_eq; eauto; congruence). subst s'.
    contradiction.
Qed.

(** X11: after a reset token has been redeemed, the owner of the record, if the
    account is enabled, logs in with the new password (given a fresh session
    token). *)
Theorem reset_password_logs_in req e d d1 sel ver row u :
  reachable d ->
  path req = "/app/reset/confirm" ->
  _handle_app_post req e d = (d1, confirm_success) ->
  Py.cut "." (Py.strip (form_get (form_of req) "token")) = Some (sel, ver) ->
  Sql.reset_token_by_selector sel d = Some row ->
  forall req2 e2,
    _same_origin_post req2 = true -> path req2 = "/app/login" ->
    snd (_get_current_user req2 (clock_auth e2) d1) = None ->
    Sql.user_by_email_norm (_normalize_email (form_get (form_of req2) "email")) d = Some u ->
    u_id u = r_user_id row -> u_disabled u = 0 ->
    form_get (form_of req2) "password" = form_get (form_of req) "new_password" ->
    ~ In (_sha256_bytes (rnd_session_token e2)) (map s_token_hash (sessions d1)) ->
    exists d2, _handle_app_post req2 e2 d1 = (d2, signed_in e2).
Proof.
  intros Hreach Hp H Hcut Hrow req2 e2 Ho2 Hp2 Hu2 Hacc Hown Hdis Hpw Hfresh.
  apply reset_confirm_inv in H
    as (sel' & ver' & row' & _ & _ & Hlen & Hcut' & Hrow' & _ & _ & _ & ->); [|assumption].
  rewrite Hcut in Hcut'. injection Hcut' as <- <-.
  rewrite Hrow in Hrow'. injection Hrow' as <-.
  pose proof (user_by_email_norm_In _ _ _ Hacc) as [Hin Hen].
  destruct (ok_user_cols d (reachable_schema_ok d Hreach) u Hin) as (_ & Hem & _).
  set (pw := form_get (form_of req) "new_password") in *.
  set (u1 := with_password (rnd_salt e) (_password_hash pw (rnd_salt e)) u).
  destruct (post_login_accepts (form_of req2) e2
              (Sql.delete_sessions_by_user (r_user_id row)
                 (Sql.update_reset_token_used (clock_post e) (r_id row)
                    (Sql.update_user_password (rnd_salt e) (_password_hash pw (rnd_salt e))
                       (r_user_id row) d))) u1) as (d2 & _ & Hlogin); auto.
  - change (Sql.user_by_email_norm (_normalize_email (form_get (form_of req2) "email"))
              (Sql.update_user_password (rnd_salt e) (_password_hash pw (rnd_salt e))
                 (r_user_id row) d) = Some u1).
    rewrite user_by_email_norm_update_password, Hacc. simpl.
    rewrite Hown, Z.eqb_refl. reflexivity.
  - rewrite Hpw. intros E. rewrite E in Hlen. unfold Py.len in Hlen. simpl in Hlen. lia.
  - rewrite Hpw. apply verifies_new_password.
  - exists d2. now rewrite (handle_login _ _ _ Ho2 Hp2 Hu2), Hlogin.
Qed.

End Deletion.

(** ** What requests cannot do *)

Lemma map_id_ext {A} (g : A -> A) (l : list A) :
  (forall a, In a l -> g a = a) -> map g l = l.
Proof.
  induction l as [|a l IH]; simpl; intros H; [reflexivity|].
  rewrite (H a) by now left. f_equal. apply IH. intros b Hb. apply H. now right.
Qed.

Lemma filter_all {A} (p : A -> bool) (l : list A) :
  (forall a, In a l -> p a = true) -> filter p l = l.
Proof.
  induction l as [|a l IH]; simpl; intros H; [reflexivity|].
  rewrite (H a) by now left. f_equal. apply IH. intros b Hb. apply H. now right.
Qed.

Section Limits.
Context {lib : PyLib}.

Lemma touched_sessions now i d s' :
  In s' (sessions (Sql.update_session_last_seen now i d)) ->
  exists s, In s (sessions d) /\ same_session_seen now s s'.
Proof.
  simpl. intros H. apply in_map_iff in H as (s & <- & Hs). exists s. split; [assumption|].
  unfold same_session_seen. destruct (s_id s =? i); simpl; auto 10.
Qed.

Lemma get_current_user_sessions req now d s' :
  In s' (sessions (fst (_get_current_user req now d))) ->
  exists s, In s (sessions d) /\ same_session_seen now s s'.
Proof.
  destruct (_get_current_user req now d) as [d0 [u|]] eqn:E; simpl.
  - apply get_current_user_some in E. subst d0. apply touched_sessions.
  - pose proof (get_current_user_anonymous req now d) as H. rewrite E in H.
    specialize (H eq_refl). injection H as ->.
    intros Hs. exists s'. split; [assumption|]. unfold same_session_seen. auto 10.
Qed.

Lemma get_current_user_rest req now d :
  users (fst (_get_current_user req now d)) = users d
  /\ password_reset_tokens (fst (_get_current_user req now d)) = password_reset_tokens d
  /\ map s_id (sessions (fst (_get_current_user req now d))) = map s_id (sessions d).
Proof.
  destruct (_get_current_user req now d) as [d0 [u|]] eqn:E; simpl.
  - apply get_current_user_some in E. subst d0. simpl. repeat split.
    apply map_key_preserved. intros s. now destruct (s_id s =? session_id u).
  - pose proof (get_current_user_anonymous req now d) as H. rewrite E in H.
    specialize (H eq_refl). injection H as ->. auto.
Qed.

(** X12: a GET request never changes a user or a reset record and never adds a
    session: each session it leaves is a session that was there, with the same
    id, owner, token hash, creation and expiry time, and with [last_seen_at]
    either as it was or set to [now]; only [/app/logout] removes sessions. *)
Theorem get_requests_only_touch_sessions req now d :
  users (fst (_handle_app_get req now d)) = users d
  /\ password_reset_tokens (fst (_handle_app_get req now d)) = password_reset_tokens d
  /\ (forall s', In s' (sessions (fst (_handle_app_get req now d))) ->
        exists s, In s (sessions d) /\ same_session_seen now s s')
  /\ (path req <> "/app/logout" ->
      map s_id (sessions (fst (_handle_app_get req now d))) = map s_id (sessions d)).
Proof.
  pose proof (get_current_user_rest req now d) as (Hu & Hr & Hi).
  pose proof (get_current_user_sessions req now d) as Hs.
  unfold _handle_app_get.
  destruct (_get_current_user req now d) as [d0 user]. simpl in *.
  destruct (path req =? "/app")%string; [simpl; auto|].
  destruct (path req =? "/app/login")%string; [simpl; auto|].
  destruct (path req =? "/app/register")%string; [simpl; auto|].
  destruct (path req =? "/app/logout")%string eqn:Hlogout.
  - apply String.eqb_eq in Hlogout. simpl.
    assert (Hdel : forall k,
               users (Sql.delete_sessions_by_token_hash k d0) = users d
               /\ password_reset_tokens (Sql.delete_sessions_by_token_hash k d0)
                  = password_reset_tokens d
               /\ forall s', In s' (sessions (Sql.delete_sessions_by_token_hash k d0)) ->
                   exists s, In s (sessions d) /\ same_session_seen now s s').
    { intros k. simpl. repeat split; auto.
      intros s' H. apply filter_In in H as [H _]. auto. }
    destruct user; [|repeat split; auto; contradiction].
    destruct (dict_get _ _) as [token|]; [|repeat split; auto; contradiction].
    destruct (Py.truthy token); [|repeat split; auto; contradiction].
    destruct (Hdel (_sha256_bytes token)) as (H1 & H2 & H3).
    repeat split; auto. contradiction.
  - destruct (path req =? "/app/account")%string; [simpl; auto|].
    destruct (path req =? "/app/reset")%string; [simpl; auto|].
    destruct (path req =? "/app/reset/confirm")%string; [simpl; auto|].
    destruct (path req =? "/app/admin")%string; simpl; auto.
Qed.

(** X13: a same-origin POST without a valid session to [/app/account/change-
    password], to [/app/account/delete] or to any route below [/app/admin/] is
    redirected to [/app/login] and changes nothing. *)
Theorem anonymous_requests_are_sent_to_login req e d :
  _same_origin_post req = true ->
  snd (_get_current_user req (clock_auth e) d) = None ->
  path req = "/app/account/change-password" \/ path req = "/app/account/delete"
  \/ Py.startswith (path req) "/app/admin/" = true ->
  _handle_app_post req e d = (d, Redirect "/app/login" None).
Proof.
  intros Ho Hu Hp. rewrite handle_app_post_same_origin by assumption.
  destruct Hp as [Hp|[Hp|Hp]].
  - rewrite post_routes_change_password by assumption.
    now rewrite (get_current_user_anonymous _ _ _ Hu).
  - rewrite post_routes_account_delete by assumption.
    now rewrite (get_current_user_anonymous _ _ _ Hu).
  - rewrite post_routes_admin by assumption.
    now rewrite (get_current_user_anonymous _ _ _ Hu).
Qed.

(** X14: a signed-in user without the admin flag gets the 403 page on every
    route below [/app/admin/], also on routes that do not exist; no user, reset
    record or session is added or removed (the session of the request is
    touched). *)
Theorem admin_routes_refuse_other_users req e d d0 u :
  _same_origin_post req = true ->
  _get_current_user req (clock_auth e) d = (d0, Some u) ->
  is_admin u = 0 ->
  Py.startswith (path req) "/app/admin/" = true ->
  _handle_app_post req e d = (d0, admin_forbidden)
  /\ users d0 = users d
  /\ password_reset_tokens d0 = password_reset_tokens d
  /\ map s_id (sessions d0) = map s_id (sessions d).
Proof.
  intros Ho Hu Hadm Hp. rewrite handle_app_post_same_origin by assumption.
  rewrite post_routes_admin by assumption. rewrite Hu. simpl. rewrite Hadm. simpl.
  split; [reflexivity|].
  pose proof (get_current_user_rest req (clock_auth e) d) as H. now rewrite Hu in H.
Qed.

Lemma delete_absent_user i d :
  Sql.user_by_id i d = None ->
  (forall s, In s (sessions d) -> In (s_user_id s) (map u_id (users d))) ->
  (forall r, In r (password_reset_tokens d) -> In (r_user_id r) (map u_id (users d))) ->
  Sql.delete_user i d = d.
Proof.
  intros Hnone Hs Hr.
  assert (Habs : ~ In i (map u_id (users d))).
  { intros Hin. apply in_map_iff in Hin as (u & Hid & Hu).
    unfold Sql.user_by_id in Hnone. apply find_none_iff in Hnone.
    apply (existsb_false_In _ _ Hnone) in Hu. apply Z.eqb_neq in Hu. contradiction. }
  unfold Sql.delete_user. destruct d as [us useq ss sseq rs rseq]. simpl in *. f_equal.
  - apply filter_all. intros u Hu. apply negb_true_iff, Z.eqb_neq.
    intros E. apply Habs. rewrite <- E. now apply in_map.
  - apply filter_all. intros s Hin. apply negb_true_iff, Z.eqb_neq.
    intros E. apply Habs. rewrite <- E. auto.
  - apply filter_all. intros r Hin. apply negb_true_iff, Z.eqb_neq.
    intros E. apply Habs. rewrite <- E. auto.
Qed.

Lemma update_absent_user (g : user -> user) i d :
  Sql.user_by_id i d = None ->
  Sql.with_users d (map (fun u => if u_id u =? i then g u else u) (users d)) (users_seq d) = d.
Proof.
  intros Hnone. unfold Sql.user_by_id in Hnone. apply find_none_iff in Hnone.
  rewrite map_id_ext.
  - now destruct d.
  - intros u Hu. now rewrite (existsb_false_In _ _ Hnone u Hu).
Qed.

(** X15: what the admin routes do with a user id that names no user (a form
    without [user_id] names user 0, and no user has id 0): toggle-disabled and
    toggle-admin answer [Updated] and delete-user answers [User deleted]
    although nothing is updated or deleted; only create-reset answers [User not
    found]. *)
Theorem admin_operation_on_absent_user req e d d0 u uid :
  reachable d ->
  _same_origin_post req = true ->
  _get_current_user req (clock_auth e) d = (d0, Some u) ->
  is_admin u <> 0 ->
  Py.int (Py.or_else (dict_get "user_id" (form_of req)) "0") = Some uid ->
  - 2 ^ 63 <= uid < 2 ^ 63 ->
  Sql.user_by_id uid d = None ->
  (path req = "/app/admin/toggle-disabled" ->
   Py.int (Py.or_else (dict_get "disabled" (form_of req)) "0") <> None ->
   _handle_app_post req e d = (d0, admin_msg "Updated"))
  /\ (path req = "/app/admin/toggle-admin" ->
      Py.int (Py.or_else (dict_get "is_admin" (form_of req)) "0") <> None ->
      _handle_app_post req e d = (d0, admin_msg "Updated"))
  /\ (path req = "/app/admin/delete-user" ->
      _handle_app_post req e d = (d0, admin_msg "User deleted"))
  /\ (path req = "/app/admin/create-reset" ->
      _handle_app_post req e d = (d0, admin_msg "User not found")).
Proof.
  intros Hreach Ho Hu Hadm Huid Hrange Hnone.
  assert (Hbind : Sql.bindable uid = true)
    by (unfold Sql.bindable; apply andb_true_iff; split;
        [apply Z.leb_le | apply Z.ltb_lt]; lia).
  assert (Hnone0 : Sql.user_by_id uid d0 = None)
    by now rewrite (user_by_id_touched _ _ _ _ _ _ Hu).
  assert (Hok0 : schema_ok d0).
  { replace d0 with (fst (_get_current_user req (clock_auth e) d)) by now rewrite Hu.
    apply (schema_ok_writes d); [apply reachable_schema_ok, Hreach | apply get_current_user_writes]. }
  assert (Hgate : forall p, path req = p -> Py.startswith p "/app/admin/" = true ->
            _handle_app_post req e d = with_transaction d (admin_routes p (form_of req) e d0)).
  { intros p Hp Hs. rewrite handle_app_post_same_origin by assumption.
    rewrite post_routes_admin by (rewrite Hp; exact Hs). rewrite Hu, Hp. simpl.
    apply Z.eqb_neq in Hadm. now rewrite Hadm. }
  split; [|split; [|split]]; intros Hp.
  - intros Hv. rewrite (Hgate _ Hp eq_refl). unfold admin_routes. route.
    unfold admin_toggle_disabled. rewrite Huid.
    destruct (Py.int (Py.or_else (dict_get "disabled" (form_of req)) "0")) as [v|];
      [|now elim Hv].
    cbv zeta. rewrite Hbind. simpl negb. cbv iota.
    unfold Sql.update_user_disabled. now rewrite update_absent_user.
  - intros Hv. rewrite (Hgate _ Hp eq_refl). unfold admin_routes. route.
    unfold admin_toggle_admin. rewrite Huid.
    destruct (Py.int (Py.or_else (dict_get "is_admin" (form_of req)) "0")) as [v|];
      [|now elim Hv].
    cbv zeta. rewrite Hbind, Hnone0. simpl negb. cbv iota.
    replace (if (if v =? 0 then 0 else 1) =? 0 then false else false) with false
      by now destruct (v =? 0).
    unfold Sql.update_user_is_admin. now rewrite update_absent_user.
  - rewrite (Hgate _ Hp eq_refl). unfold admin_routes. route.
    unfold admin_delete_user. rewrite Huid. cbv zeta. rewrite Hbind, Hnone0.
    simpl negb. cbv iota.
    rewrite delete_absent_user; [reflexivity | assumption | |].
    + intros s Hs. now apply (ok_session_cols d0 Hok0).
    + intros r Hr. now apply (ok_reset_cols d0 Hok0).
  - rewrite (Hgate _ Hp eq_refl). unfold admin_routes. route.
    unfold admin_create_reset. rewrite Huid, Hbind, Hnone0. reflexivity.
Qed.

Lemma enabled_user_absent_when_disabled en d u :
  NoDup (map u_email_norm (users d)) ->
  Sql.user_by_email_norm en d = Some u -> u_disabled u <> 0 ->
  Sql.enabled_user_by_email_norm en d = None.
Proof.
  intros Hnd Hrow Hdis.
  destruct (Sql.enabled_user_by_email_norm en d) as [v|] eqn:E; [|reflexivity].
  exfalso. apply find_some in E as [Hv Hc]. apply andb_true_iff in Hc as [He Hd].
  apply String.eqb_eq in He. apply Z.eqb_eq in Hd.
  apply user_by_email_norm_In in Hrow as [Hu Hen].
  assert (v = u) by (eapply NoDup_map_eq; eauto; congruence). subst v. contradiction.
Qed.

(** X16: a self-service reset request for the e-mail of a disabled account gets
    the generic page and creates no record, exactly as for an e-mail of no
    account. *)
Theorem reset_request_for_disabled_account req e d u :
  reachable d ->
  _same_origin_post req = true -> path req = "/app/reset" ->
  snd (_get_current_user req (clock_auth e) d) = None ->
  Sql.user_by_email_norm (_normalize_email (form_get (form_of req) "email")) d = Some u ->
  u_disabled u <> 0 ->
  _handle_app_post req e d = (d, SendHtml 200 "Reset password" reset_generic_body).
Proof.
  intros Hreach Ho Hp Hu Hrow Hdis.
  rewrite (handle_reset _ _ _ Ho Hp Hu). unfold post_reset.
  rewrite (enabled_user_absent_when_disabled _ _ u); auto.
  apply (ok_emails d), reachable_schema_ok, Hreach.
Qed.

End Limits.

(** ** Reading the request *)

Lemma find_filter_other (k k' : string) (out : dict) :
  k' <> k ->
  find (fun p => (fst p =? k)%string) (filter (fun p => negb (fst p =? k')%string) out)
  = find (fun p => (fst p =? k)%string) out.
Proof.
  intros Hne. induction out as [|[a b] out IH]; simpl; [reflexivity|].
  destruct (a =? k')%string eqn:E1; simpl.
  - apply String.eqb_eq in E1. subst a.
    destruct (k' =? k)%string eqn:E2; [apply String.eqb_eq in E2; contradiction | exact IH].
  - destruct (a =? k)%string; [reflexivity | exact IH].
Qed.

Lemma dict_get_set k k' v out :
  dict_get k (dict_set k' v out) = if (k' =? k)%string then Some v else dict_get k out.
Proof.
  unfold dict_get, dict_set. simpl.
  destruct (k' =? k)%string eqn:E; [reflexivity|].
  apply String.eqb_neq in E. now rewrite find_filter_other.
Qed.

Lemma dict_mem_get k out : dict_mem k out = false <-> dict_get k out = None.
Proof.
  unfold dict_mem, dict_get. rewrite <- find_none_iff.
  destruct (find _ out); simpl; split; congruence.
Qed.

Lemma find_app {A} (p : A -> bool) (l l' : list A) :
  find p (l ++ l') = match find p l with Some a => Some a | None => find p l' end.
Proof.
  induction l as [|a l IH]; simpl; [reflexivity|]. destruct (p a); auto.
Qed.

Lemma append_assoc (a b c : string) : (a +s+ b) +s+ c = a +s+ (b +s+ c).
Proof. induction a as [|x a IH]; simpl; [reflexivity|]. now rewrite IH. Qed.

Lemma html_escape_app a b : Py.html_escape (a +s+ b) = Py.html_escape a +s+ Py.html_escape b.
Proof.
  induction a as [|c a IH]; simpl; [reflexivity|]. rewrite IH.
  repeat match goal with |- context [if ?x then _ else _] => destruct x end; reflexivity.
Qed.

Lemma html_escape_plain s : html_plain s = true -> Py.html_escape s = s.
Proof.
  induction s as [|c s IH]; [reflexivity|]. cbn [html_plain Py.html_escape]. intros H.
  apply andb_true_iff in H as [Hc Hs]. rewrite (IH Hs).
  apply negb_true_iff in Hc.
  repeat (apply orb_false_iff in Hc as [Hc ?]).
  repeat match goal with H : _ = false |- _ => rewrite H; clear H end. reflexivity.
Qed.

Lemma urlsafe_char_unreserved c :
  Py.urlsafe_char c = true ->
  Py.unreserved c = true
  /\ (Ascii.eqb c "&" || Ascii.eqb c "<" || Ascii.eqb c ">"
      || Ascii.eqb c (ascii_of_N 34) || Ascii.eqb c "'") = false.
Proof.
  destruct c as [[] [] [] [] [] [] [] []]; intros H; try discriminate H; split; reflexivity.
Qed.

Lemma quote_app a b : Py.quote (a +s+ b) = Py.quote a +s+ Py.quote b.
Proof.
  induction a as [|c a IH]; simpl; [reflexivity|]. rewrite IH.
  destruct (Py.unreserved c); reflexivity.
Qed.

Lemma quote_urlsafe s : Py.urlsafe s = true -> Py.quote s = s.
Proof.
  induction s as [|c s IH]; simpl; [reflexivity|]. intros H.
  apply andb_true_iff in H as [Hc Hs].
  apply urlsafe_char_unreserved in Hc as [-> _]. now rewrite IH.
Qed.

Lemma html_plain_urlsafe s : Py.urlsafe s = true -> html_plain s = true.
Proof.
  induction s as [|c s IH]; [reflexivity|]. cbn [html_plain Py.urlsafe]. intros H.
  apply andb_true_iff in H as [Hc Hs].
  apply urlsafe_char_unreserved in Hc as [_ Hc]. rewrite Hc. simpl. auto.
Qed.

Lemma html_plain_app a b : html_plain (a +s+ b) = html_plain a && html_plain b.
Proof.
  induction a as [|c a IH]; simpl; [reflexivity|]. rewrite IH. now rewrite andb_assoc.
Qed.

Lemma urlsafe_app a b : Py.urlsafe (a +s+ b) = Py.urlsafe a && Py.urlsafe b.
Proof.
  induction a as [|c a IH]; simpl; [reflexivity|]. rewrite IH. now rewrite andb_assoc.
Qed.

Lemma contains_app c a b : Py.contains c (a +s+ b) = Py.contains c a || Py.contains c b.
Proof.
  induction a as [|x a IH]; simpl; [reflexivity|]. rewrite IH. now rewrite orb_assoc.
Qed.

Section Parsing.
Context {lib : PyLib}.

Lemma parse_form_fold k pairs out :
  dict_get k
    (fold_left
       (fun out kv => if dict_mem (fst kv) out then out else dict_set (fst kv) (snd kv) out)
       pairs out)
  = match dict_get k out with
    | Some v => Some v
    | None => option_map snd (find (fun p => (fst p =? k)%string) pairs)
    end.
Proof.
  revert out. induction pairs as [|[k1 v1] pairs IH]; intros out; simpl.
  - now destruct (dict_get k out).
  - rewrite IH. destruct (dict_mem k1 out) eqn:Hm.
    + destruct (dict_get k out) eqn:Hg; [reflexivity|].
      destruct (k1 =? k)%string eqn:E; [|reflexivity].
      apply String.eqb_eq in E. subst k1.
      apply dict_mem_get in Hg. congruence.
    + rewrite dict_get_set. destruct (k1 =? k)%string eqn:E.
      * apply String.eqb_eq in E. subst k1.
        apply dict_mem_get in Hm. now rewrite Hm.
      * reflexivity.
Qed.

(** X17: in the form that [_parse_form_urlencoded] builds, a key has the value
    of its first occurrence in the body, and is absent when it does not occur. *)
Theorem parse_form_first_value_wins k pairs :
  dict_get k (_parse_form_urlencoded pairs)
  = option_map snd (find (fun p => (fst p =? k)%string) pairs).
Proof. unfold _parse_form_urlencoded. now rewrite parse_form_fold. Qed.

Lemma parse_cookies_fold k parts out :
  dict_get k
    (fold_left
       (fun out part =>
          match Py.cut "=" part with
          | None => out
          | Some (k, v) => dict_set (Py.strip k) (Py.strip v) out
          end)
       parts out)
  = match find (fun p => (fst p =? k)%string)
            (rev (flat_map
                    (fun part =>
                       match Py.cut "=" part with
                       | Some (k, v) => [(Py.strip k, Py.strip v)]
                       | None => []
                       end) parts)) with
    | Some p => Some (snd p)
    | None => dict_get k out
    end.
Proof.
  revert out. induction parts as [|part parts IH]; intros out; simpl; [reflexivity|].
  rewrite IH, rev_app_distr, find_app.
  destruct (find _ (rev (flat_map _ parts))); [reflexivity|].
  destruct (Py.cut "=" part) as [[a b]|]; simpl; [|reflexivity].
  rewrite dict_get_set. now destruct (Py.strip a =? k)%string.
Qed.

(** X18: in the dict that [_parse_cookies] builds, a name has the value of its
    last occurrence in the Cookie header; the pairs are the parts between
    semicolons that hold an equals sign, cut at the first one, name and value
    stripped. *)
Theorem parse_cookies_last_value_wins k hv :
  dict_get k (_parse_cookies (Some hv))
  = option_map snd (find (fun p => (fst p =? k)%string) (rev (cookie_pairs hv))).
Proof.
  unfold _parse_cookies, cookie_pairs. destruct hv as [|c hv]; [reflexivity|].
  simpl negb. cbv iota. rewrite parse_cookies_fold.
  now destruct (find _ _).
Qed.

(** X19: a POST whose Host header is missing or blank fails the origin check,
    whatever its Origin and Referer, and is answered with the 400 page without
    touching the store (not even the session of the request). *)
Theorem post_without_host_is_refused req e d :
  Py.strip (Py.or_else (header_host req) "") = "" ->
  _same_origin_post req = false
  /\ _handle_app_post req e d = (d, origin_check_failed).
Proof.
  intros H.
  assert (Hs : _same_origin_post req = false)
    by (unfold _same_origin_post; now rewrite H).
  split; [exact Hs|]. unfold _handle_app_post. now rewrite Hs.
Qed.

(** X20: when the request has a non-blank Origin header, the Referer header has
    no influence on the origin check. *)
Theorem origin_header_overrides_referer req referer :
  Py.strip (Py.or_else (header_origin req) "") <> "" ->
  _same_origin_post (with_referer referer req) = _same_origin_post req.
Proof.
  intros H. unfold _same_origin_post, with_referer. simpl.
  destruct (Py.strip (Py.or_else (header_origin req) "")) as [|c o]; [now elim H|].
  reflexivity.
Qed.

(** X21: [_normalize_email] is idempotent, and its result has no white space at
    either end and no upper-case ASCII letter (stripping and lower-casing leave
    it as it is). *)
Theorem normalize_email_idempotent raw :
  _normalize_email (_normalize_email raw) = _normalize_email raw
  /\ Py.strip (_normalize_email raw) = _normalize_email raw
  /\ Py.lower (_normalize_email raw) = _normalize_email raw.
Proof.
  unfold _normalize_email. repeat split.
  - now rewrite strip_lower, strip_idempotent, lower_idempotent.
  - now rewrite strip_lower, strip_idempotent.
  - apply lower_idempotent.
Qed.

(** X22: [_is_emailish s] holds exactly when the stripped [s] has an at sign and
    a dot somewhere after the first at sign; nothing is asked of the part before
    the at sign or of what surrounds the dot. *)
Theorem is_emailish_iff s :
  _is_emailish s = true
  <-> exists a b, Py.strip s = a +s+ String "@" b
                  /\ Py.contains "@" a = false /\ Py.contains "." b = true.
Proof.
  unfold _is_emailish, Py.split1. cbv zeta. split.
  - intros H. apply andb_true_iff in H as [Hat Hdot].
    destruct (Py.cut "@" (Py.strip s)) as [[a b]|] eqn:E.
    + apply cut_some_iff in E as [E Ha]. exists a, b. auto.
    + apply cut_none_iff in E. congruence.
  - intros (a & b & E & Ha & Hb).
    assert (Hc : Py.cut "@" (Py.strip s) = Some (a, b)) by (apply cut_some_iff; auto).
    rewrite Hc. change (Py.last_item [a; b]) with b. rewrite Hb, andb_true_r.
    rewrite E, contains_app. simpl. apply orb_true_r.
Qed.

(** X23: a reset token [selector.verifier] made of URL-safe draws reaches the
    client unescaped: the self-service page shows it as it is, in the link and
    in the text, the admin redirect carries it as it is in the [msg] parameter,
    and stripping and cutting it at the first dot, as [/app/reset/confirm] does,
    gives back the selector and the verifier. *)
Theorem reset_token_is_shown_verbatim sel ver :
  Py.urlsafe sel = true -> Py.urlsafe ver = true ->
  reset_created_body (sel +s+ "." +s+ ver)
  = "<h1>Reset password</h1><p class='ok'>Reset link created (dev).</p><p><a href='/app/reset/confirm?token="
    +s+ sel +s+ "." +s+ ver
    +s+ "'>Click here to reset your password</a></p><p class='muted'>Token: <code>"
    +s+ sel +s+ "." +s+ ver
    +s+ "</code></p><p><a href='/app/login'>Back to login</a></p>"
  /\ admin_msg ("Reset token (dev): " +s+ sel +s+ "." +s+ ver)
     = Redirect ("/app/admin?msg=Reset%20token%20%28dev%29%3A%20" +s+ sel +s+ "." +s+ ver) None
  /\ Py.cut "." (Py.strip (sel +s+ "." +s+ ver)) = Some (sel, ver).
Proof.
  intros Hs Hv.
  assert (Hu : Py.urlsafe (sel +s+ ver) = true) by (rewrite urlsafe_app, Hs, Hv; reflexivity).
  assert (Hq : Py.quote (sel +s+ "." +s+ ver) = sel +s+ "." +s+ ver).
  { rewrite quote_app, (quote_urlsafe _ Hs). simpl. now rewrite (quote_urlsafe _ Hv). }
  assert (Hh : Py.html_escape (sel +s+ "." +s+ ver) = sel +s+ "." +s+ ver).
  { apply html_escape_plain. rewrite html_plain_app, (html_plain_urlsafe _ Hs). simpl.
    apply (html_plain_urlsafe _ Hv). }
  split; [|split].
  - unfold reset_created_body. cbv zeta.
    rewrite Hq, html_escape_app, Hh.
    change (Py.html_escape "/app/reset/confirm?token=") with "/app/reset/confirm?token=".
    rewrite !append_assoc. reflexivity.
  - unfold admin_msg. rewrite quote_app, Hq. reflexivity.
  - change (sel +s+ "." +s+ ver) with (sel +s+ String "." ver).
    rewrite strip_token by assumption. now apply cut_token.
Qed.

End Parsing.

(** ** Accounts an administrator creates *)

Section AdminCreate.
Context {lib : PyLib}.

(** X24: the outcomes of [/app/admin/create-user] for an administrator: an
    e-mail that is not e-mail-like or a password of fewer than 8 characters is
    refused; a normalized e-mail that is taken is refused; otherwise one enabled
    account is appended, with the normalized e-mail, the digest of the password
    under the drawn salt, and the admin flag exactly when the form has
    [is_admin=1]; no session is created for it and no reset record changes. *)
Theorem admin_create_user_outcomes req e d d0 u :
  _same_origin_post req = true -> path req = "/app/admin/create-user" ->
  _get_current_user req (clock_auth e) d = (d0, Some u) -> is_admin u <> 0 ->
  let email := _normalize_email (form_get (form_of req) "email") in
  let password := form_get (form_of req) "password" in
  let flag := match dict_get "is_admin" (form_of req) with
              | Some v => if (v =? "1")%string then 1 else 0
              | None => 0
              end in
  (_is_emailish email = false \/ Py.len password < 8 ->
   _handle_app_post req e d = (d0, admin_msg "Invalid email or password too short"))
  /\ (_is_emailish email = true -> 8 <= Py.len password ->
      Sql.user_by_email_norm email d <> None ->
      _handle_app_post req e d = (d0, admin_msg "Email already exists"))
  /\ (_is_emailish email = true -> 8 <= Py.len password ->
      Sql.user_by_email_norm email d = None ->
      exists d',
        _handle_app_post req e d = (d', admin_msg "User created")
        /\ users d'
           = users d ++ [mk_user (Sql.next_rowid (users_seq d) (map u_id (users d)))
                           email email (rnd_salt e) (_password_hash password (rnd_salt e))
                           flag 0 (clock_post e)]
        /\ sessions d' = sessions d0
        /\ password_reset_tokens d' = password_reset_tokens d).
Proof.
  intros Ho Hp Hu Hadm email password flag.
  pose proof (get_current_user_some _ _ _ _ _ Hu) as Hd0.
  assert (Hgate : _handle_app_post req e d
                  = with_transaction d (admin_create_user (form_of req) e d0)).
  { rewrite handle_app_post_same_origin by assumption.
    rewrite post_routes_admin by (rewrite Hp; reflexivity). rewrite Hu, Hp. simpl.
    apply Z.eqb_neq in Hadm. rewrite Hadm. unfold admin_routes. route. reflexivity. }
  rewrite Hgate. unfold admin_create_user. fold email. fold password. fold flag.
  assert (Hrow : Sql.user_by_email_norm email d0 = Sql.user_by_email_norm email d)
    by (subst d0; reflexivity).
  split; [|split].
  - intros [Hem|Hlen].
    + now rewrite Hem.
    + replace (Py.len password <? 8) with true by (symmetry; apply Z.ltb_lt; lia).
      now rewrite orb_true_r.
  - intros Hem Hlen Hdup. rewrite Hem.
    replace (Py.len password <? 8) with false by (symmetry; apply Z.ltb_ge; lia).
    simpl. rewrite insert_user_refused; [reflexivity | now rewrite Hrow].
  - intros Hem Hlen Hnew. rewrite Hem.
    replace (Py.len password <? 8) with false by (symmetry; apply Z.ltb_ge; lia).
    simpl. unfold Sql.insert_user.
    replace (existsb _ (users d0)) with false
      by (symmetry; apply find_none_iff; rewrite <- Hnew, <- Hrow; reflexivity).
    eexists. split; [reflexivity|]. subst d0. simpl. auto.
Qed.

End AdminCreate.

(** ** Clean routes *)

Lemma split_nonempty c s : Py.split c s <> [].
Proof.
  destruct s as [|x s]; simpl; [discriminate|].
  destruct (Ascii.eqb x c); [discriminate|]. destruct (Py.split c s); discriminate.
Qed.

Lemma split_no_separator c s : Py.contains c s = false -> Py.split c s = [s].
Proof.
  induction s as [|x s IH]; simpl; [reflexivity|]. intros H.
  apply orb_false_iff in H as [Hx Hs]. rewrite Hx, (IH Hs). reflexivity.
Qed.

Lemma split_separator c s :
  Py.contains c s = true -> exists h k t, Py.split c s = h :: k :: t.
Proof.
  induction s as [|x s IH]; simpl; [discriminate|].
  destruct (Ascii.eqb x c); simpl.
  - intros _. pose proof (split_nonempty c s) as Hne.
    destruct (Py.split c s) as [|k t]; [contradiction|]. eauto.
  - intros H. destruct (IH H) as (h & k & t & ->). eauto.
Qed.

Lemma last_segment_cons c x s :
  Py.last_item (Py.split c (String x s))
  = if Ascii.eqb x c then Py.last_item (Py.split c s)
    else if Py.contains c s then Py.last_item (Py.split c s)
    else String x s.
Proof.
  unfold Py.last_item. simpl Py.split. destruct (Ascii.eqb x c).
  - pose proof (split_nonempty c s) as Hne.
    destruct (Py.split c s); [contradiction | reflexivity].
  - destruct (Py.contains c s) eqn:E.
    + destruct (split_separator _ _ E) as (h & k & t & ->). reflexivity.
    + now rewrite (split_no_separator _ _ E).
Qed.

Lemma last_segment_app c a b :
  Py.contains c b = false ->
  Py.last_item (Py.split c (a +s+ b)) = Py.last_item (Py.split c a) +s+ b.
Proof.
  intros Hb. induction a as [|x a IH].
  - simpl String.append. now rewrite (split_no_separator _ _ Hb).
  - change (String x a +s+ b) with (String x (a +s+ b)).
    rewrite !last_segment_cons, contains_app, Hb, orb_false_r, IH.
    destruct (Ascii.eqb x c); [reflexivity|]. destruct (Py.contains c a); reflexivity.
Qed.

Lemma last_segment_contains c k s :
  Py.contains k (Py.last_item (Py.split c s)) = true -> Py.contains k s = true.
Proof.
  induction s as [|x s IH]; [discriminate|]. rewrite last_segment_cons.
  change (Py.contains k (String x s)) with (Ascii.eqb x k || Py.contains k s).
  destruct (Ascii.eqb x c).
  - intros H. rewrite (IH H). apply orb_true_r.
  - destruct (Py.contains c s); [|trivial].
    intros H. rewrite (IH H). apply orb_true_r.
Qed.

Lemma endswith_contains c s : PyStr.endswith c s = true -> Py.contains c s = true.
Proof.
  induction s as [|x s IH]; [discriminate|]. simpl.
  destruct s as [|y s].
  - intros ->. reflexivity.
  - intros H. rewrite (IH H). apply orb_true_r.
Qed.

Lemma last_segment_open c k s :
  Py.contains k (Py.last_item (Py.split c s)) = true -> PyStr.endswith c s = false.
Proof.
  induction s as [|x s IH]; [discriminate|]. rewrite last_segment_cons.
  assert (Hrec : Py.contains k (Py.last_item (Py.split c s)) = true ->
                 PyStr.endswith c (String x s) = false).
  { intros H. destruct s as [|y s]; [discriminate H|]. exact (IH H). }
  destruct (Ascii.eqb x c) eqn:Ex; [exact Hrec|].
  destruct (Py.contains c s) eqn:Ec; [exact Hrec|].
  intros _. simpl. destruct s as [|y s]; [exact Ex|].
  apply not_true_iff_false. intros H. apply endswith_contains in H. congruence.
Qed.

Lemma span_spec cls s :
  s = fst (Re.span cls s) +s+ snd (Re.span cls s)
  /\ Re.all cls (fst (Re.span cls s)) = true.
Proof.
  induction s as [|c s [IH1 IH2]]; simpl; [auto|].
  destruct (cls c) eqn:E; simpl; [|auto].
  destruct (Re.span cls s) as [a r]. simpl in *. rewrite E, IH2. split; [congruence | reflexivity].
Qed.

Lemma span_all cls a r :
  Re.all cls a = true ->
  match r with String c _ => cls c = false | EmptyString => True end ->
  Re.span cls (a +s+ r) = (a, r).
Proof.
  intros Ha Hr. induction a as [|c a IH]; simpl.
  - destruct r as [|c r]; [reflexivity|]. simpl. now rewrite Hr.
  - simpl in Ha. apply andb_true_iff in Ha as [Hc Ha]. now rewrite Hc, (IH Ha).
Qed.

Lemma alnum_plain c : Re.alnum c = true -> Ascii.eqb c "." = false /\ Ascii.eqb c "/" = false.
Proof.
  destruct c as [[] [] [] [] [] [] [] []]; intros H; try discriminate H; split; reflexivity.
Qed.

Lemma digit_alnum c : Re.digit c = true -> Re.alnum c = true /\ Py.urlsafe_char c = true.
Proof.
  destruct c as [[] [] [] [] [] [] [] []]; intros H; try discriminate H; split; reflexivity.
Qed.

Lemma digit_of_digit c :
  Re.digit c = true ->
  Py.digit_of c = Some (Z.of_N (N_of_ascii c) - 48) /\ 0 <= Z.of_N (N_of_ascii c) - 48
  /\ Ascii.eqb c "-" = false /\ Ascii.eqb c "+" = false /\ Py.int_isspace c = false.
Proof.
  destruct c as [[] [] [] [] [] [] [] []]; intros H; try discriminate H;
    (split; [vm_compute; reflexivity|]); (split; [vm_compute; discriminate|]);
    repeat split; reflexivity.
Qed.

Lemma all_alnum_plain s : Re.all Re.alnum s = true -> Py.contains "." s = false.
Proof.
  induction s as [|c s IH]; simpl; [reflexivity|]. intros H.
  apply andb_true_iff in H as [Hc Hs]. apply alnum_plain in Hc as [-> _]. auto.
Qed.

Lemma all_digit_alnum s : Re.all Re.digit s = true -> Re.all Re.alnum s = true.
Proof.
  induction s as [|c s IH]; simpl; [reflexivity|]. intros H.
  apply andb_true_iff in H as [Hc Hs]. apply digit_alnum in Hc as [-> _]. auto.
Qed.

Lemma all_digit_urlsafe s : Re.all Re.digit s = true -> Py.urlsafe s = true.
Proof.
  induction s as [|c s IH]; simpl; [reflexivity|]. intros H.
  apply andb_true_iff in H as [Hc Hs]. apply digit_alnum in Hc as [_ ->]. auto.
Qed.

Lemma optional_slash_end_cases r :
  Re.optional_slash_end r = true ->
  Py.contains "." r = false
  /\ match r with String c _ => Re.digit c = false | EmptyString => True end.
Proof.
  unfold Re.optional_slash_end, Re.at_end. intros H.
  apply orb_true_iff in H as [H|H].
  - apply orb_true_iff in H as [H|H]; apply String.eqb_eq in H; subst r; split; auto.
  - destruct r as [|c r]; [discriminate|].
    apply andb_true_iff in H as [Hc H]. apply Ascii.eqb_eq in Hc. subst c.
    apply orb_true_iff in H as [H|H]; apply String.eqb_eq in H; subst r; split; auto.
Qed.

(** What a match of [_BOOK_CHAPTER_RE] says about the path. *)
Lemma book_chapter_match_inv p book chapter :
  _BOOK_CHAPTER_RE_match p = Some (book, chapter) ->
  exists r, p = "/" +s+ book +s+ "/" +s+ chapter +s+ r
            /\ Re.all Re.alnum book = true /\ book <> ""
            /\ Re.all Re.digit chapter = true /\ chapter <> ""
            /\ Re.optional_slash_end r = true.
Proof.
  unfold _BOOK_CHAPTER_RE_match. destruct p as [|c p]; [discriminate|].
  destruct (Ascii.eqb c "/") eqn:Ec; [|discriminate]. apply Ascii.eqb_eq in Ec. subst c.
  pose proof (span_spec Re.alnum p) as [Hp Hb].
  destruct (Re.span Re.alnum p) as [b r1]. simpl in Hp, Hb.
  destruct r1 as [|c1 r2]; [discriminate|].
  destruct (Ascii.eqb c1 "/") eqn:Ec1; [|discriminate]. apply Ascii.eqb_eq in Ec1. subst c1.
  destruct (Py.truthy b) eqn:Hbt; [|discriminate]. simpl andb. cbv iota.
  pose proof (span_spec Re.digit r2) as [Hr2 Hc].
  destruct (Re.span Re.digit r2) as [ch r3]. simpl in Hr2, Hc.
  destruct (Py.truthy ch) eqn:Hct; [|discriminate].
  destruct (Re.optional_slash_end r3) eqn:He; [|discriminate].
  simpl. intros H. injection H as <- <-. exists r3.
  apply truthy_iff in Hbt. apply truthy_iff in Hct.
  repeat split; auto. simpl. now rewrite Hp, Hr2.
Qed.

(** The paths that [_BOOK_CHAPTER_RE] matches. *)
Lemma book_chapter_match_intro book chapter r :
  Re.all Re.alnum book = true -> book <> "" ->
  Re.all Re.digit chapter = true -> chapter <> "" ->
  Re.optional_slash_end r = true ->
  _BOOK_CHAPTER_RE_match ("/" +s+ book +s+ "/" +s+ chapter +s+ r) = Some (book, chapter).
Proof.
  intros Hb Hbn Hc Hcn Hr. simpl.
  rewrite (span_all Re.alnum book (String "/" (chapter +s+ r)) Hb) by reflexivity.
  apply truthy_iff in Hbn. apply truthy_iff in Hcn. rewrite Hbn. simpl.
  rewrite (span_all Re.digit chapter r Hc)
    by (apply optional_slash_end_cases in Hr as [_ Hr]; exact Hr).
  now rewrite Hcn, Hr.
Qed.

Lemma book_chapter_match_dotless p :
  Py.contains "." p = true -> _BOOK_CHAPTER_RE_match p = None.
Proof.
  intros Hdot. destruct (_BOOK_CHAPTER_RE_match p) as [[book chapter]|] eqn:E; [|reflexivity].
  apply book_chapter_match_inv in E as (r & -> & Hb & _ & Hc & _ & Hr).
  apply optional_slash_end_cases in Hr as [Hr _].
  simpl in Hdot. rewrite contains_app in Hdot. simpl in Hdot.
  rewrite contains_app in Hdot.
  rewrite (all_alnum_plain _ Hb), (all_alnum_plain _ (all_digit_alnum _ Hc)), Hr in Hdot.
  discriminate.
Qed.

(** A path whose last segment holds a dot takes none of the rewrite rules. *)
Lemma dotted_falls_through p :
  Py.contains "." (Py.last_item (Py.split "/" p)) = true ->
  Py.or_else (Some p) "/" = p
  /\ _BOOK_CHAPTER_RE_match p = None /\ PyStr.endswith "/" p = false.
Proof.
  intros H. split; [|split].
  - destruct p; [discriminate H | reflexivity].
  - apply book_chapter_match_dotless. eapply last_segment_contains, H.
  - eapply last_segment_open, H.
Qed.

Lemma html_path_unchanged x : _rewrite_path (x +s+ ".html") = Unchanged.
Proof.
  assert (H : Py.contains "." (Py.last_item (Py.split "/" (x +s+ ".html"))) = true).
  { rewrite last_segment_app by reflexivity. rewrite contains_app. apply orb_true_r. }
  unfold _rewrite_path. destruct (dotted_falls_through _ H) as (-> & -> & ->).
  rewrite H. simpl. now destruct (_ && _).
Qed.

(** X25: the rewrite is stable: a path that [_rewrite_path] produces is one that
    [_rewrite_path] returns as it is. *)
Theorem rewritten_path_is_not_rewritten_again p q :
  _rewrite_path p = Rewritten q -> _rewrite_path q = Unchanged.
Proof.
  unfold _rewrite_path at 1. set (p0 := Py.or_else (Some p) "/").
  destruct (_BOOK_CHAPTER_RE_match p0) as [[book chapter]|].
  - destruct (Py.int chapter) as [n|]; [|discriminate]. intros H. injection H as <-.
    match goal with
    | |- _rewrite_path ?t = _ =>
        replace t with (("/" +s+ book +s+ "/" +s+ book +s+ PyStr.str n) +s+ ".html")
          by (now rewrite !append_assoc)
    end.
    apply html_path_unchanged.
  - destruct (negb (p0 =? "/")%string && (PyStr.count "/" p0 <=? 2)); [|discriminate].
    destruct (negb (PyStr.endswith "/" p0)).
    + destruct (negb (Py.contains "." (Py.last_item (Py.split "/" p0)))); [|discriminate].
      intros H. injection H as <-.
      match goal with
      | |- _rewrite_path ?t = _ =>
          replace t with ((p0 +s+ "/index") +s+ ".html") by (now rewrite append_assoc)
      end.
      apply html_path_unchanged.
    + intros H. injection H as <-.
      match goal with
      | |- _rewrite_path ?t = _ =>
          replace t with ((p0 +s+ "index") +s+ ".html") by (now rewrite append_assoc)
      end.
      apply html_path_unchanged.
Qed.

(** X26: a path whose last segment holds a dot (a file with an extension) is
    returned as it is, at any depth. *)
Theorem path_with_extension_is_unchanged p :
  Py.contains "." (Py.last_item (Py.split "/" p)) = true ->
  _rewrite_path p = Unchanged.
Proof.
  intros H. unfold _rewrite_path.
  destruct (dotted_falls_through _ H) as (-> & -> & ->).
  rewrite H. simpl. now destruct (_ && _).
Qed.

Lemma count_digits_all s : Re.all Re.digit s = true -> Py.count_digits s = Py.len s.
Proof.
  unfold Py.len. induction s as [|c s IH]; [reflexivity|]. intros H.
  simpl in H. apply andb_true_iff in H as [Hc Hs].
  destruct (digit_of_digit _ Hc) as (Hk & _).
  cbn [Py.count_digits String.length]. rewrite Hk, (IH Hs). lia.
Qed.

Lemma int_digits_all s :
  Re.all Re.digit s = true -> forall acc b, (s = "" -> b = true) ->
  Py.int_digits acc b s = Some (decimal_value acc s).
Proof.
  induction s as [|c s IH]; intros H acc b Hb.
  - now rewrite (Hb eq_refl).
  - simpl in H. apply andb_true_iff in H as [Hc Hs].
    destruct (digit_of_digit _ Hc) as (Hk & _).
    cbn [Py.int_digits decimal_value]. rewrite Hk. now apply IH.
Qed.

Lemma decimal_value_nonneg s :
  Re.all Re.digit s = true -> forall acc, 0 <= acc -> 0 <= decimal_value acc s.
Proof.
  induction s as [|c s IH]; intros H acc Hacc; [exact Hacc|].
  simpl in H. apply andb_true_iff in H as [Hc Hs].
  destruct (digit_of_digit _ Hc) as (_ & Hk & _).
  cbn [decimal_value]. apply IH; [assumption | lia].
Qed.

Lemma int_strip_digits s :
  Re.all Re.digit s = true -> Py.int_rstrip (Py.int_lstrip s) = s.
Proof.
  intros H.
  assert (Hl : Py.int_lstrip s = s).
  { destruct s as [|c s]; [reflexivity|]. simpl in H.
    apply andb_true_iff in H as [Hc _].
    destruct (digit_of_digit _ Hc) as (_ & _ & _ & _ & Hsp). simpl. now rewrite Hsp. }
  rewrite Hl. clear Hl. induction s as [|c s IH]; [reflexivity|].
  simpl in H. apply andb_true_iff in H as [Hc Hs].
  destruct (digit_of_digit _ Hc) as (_ & _ & _ & _ & Hsp).
  simpl. rewrite (IH Hs). destruct s; [now rewrite Hsp | reflexivity].
Qed.

(** [int] on a string of decimal digits. *)
Lemma int_of_digits s :
  Re.all Re.digit s = true -> s <> "" ->
  (Py.len s <= 4300 ->
   Py.int s = Some (decimal_value 0 s)
   /\ (Py.len s < 4300 -> Py.int (String "0" s) = Some (decimal_value 0 s)))
  /\ (4300 < Py.len s -> Py.int s = None).
Proof.
  intros H Hne.
  assert (H0 : Re.all Re.digit (String "0" s) = true) by (simpl; exact H).
  pose proof (int_strip_digits _ H) as Hs. pose proof (int_strip_digits _ H0) as Hs0.
  pose proof (count_digits_all _ H) as Hc. pose proof (count_digits_all _ H0) as Hc0.
  assert (Hlen0 : Py.len (String "0" s) = Py.len s + 1)
    by (unfold Py.len; cbn [String.length]; lia).
  unfold Py.int. rewrite Hs, Hs0, Hc, Hc0, Hlen0. unfold Py.max_str_digits. split.
  - intros Hlen.
    replace (4300 <? Py.len s) with false by (symmetry; apply Z.ltb_ge; lia).
    pose proof (int_digits_all _ H 0 false) as Hn.
    split.
    + destruct s as [|c s]; [congruence|]. simpl in H.
      apply andb_true_iff in H as [Hd _].
      destruct (digit_of_digit _ Hd) as (_ & _ & Hm & Hp & _).
      destruct c as [[] [] [] [] [] [] [] []]; try discriminate Hm; try discriminate Hp;
        apply Hn; discriminate.
    + intros Hlt.
      replace (4300 <? Py.len s + 1) with false by (symmetry; apply Z.ltb_ge; lia).
      cbv iota. rewrite (int_digits_all _ H0 0 false) by discriminate. reflexivity.
  - intros Hlen. now replace (4300 <? Py.len s) with true by (symmetry; apply Z.ltb_lt; lia).
Qed.

(** ** Printing the chapter number *)

Lemma uint_of_digits s :
  Re.all Re.digit s = true -> exists u, NilEmpty.uint_of_string s = Some u.
Proof.
  induction s as [|c s IH]; simpl; [eauto|]. intros H.
  apply andb_true_iff in H as [Hc Hs]. destruct (IH Hs) as [u ->].
  destruct c as [[] [] [] [] [] [] [] []]; try discriminate Hc; simpl; eauto.
Qed.

Lemma decimal_value_acc s : forall u p,
  NilEmpty.uint_of_string s = Some u ->
  Z.pos (Pos.of_uint_acc u p) = decimal_value (Z.pos p) s.
Proof.
  induction s as [|c s IH]; intros u p; cbn [NilEmpty.uint_of_string decimal_value].
  - now intros [= <-].
  - destruct (NilEmpty.uint_of_string s) as [u'|]; [|discriminate].
    intros H. apply uint_of_char_spec in H.
    repeat (destruct H as [[-> ->]|H]); [..|destruct H as [-> ->]];
      cbn [Pos.of_uint_acc]; rewrite (IH u' _ eq_refl); f_equal;
      match goal with
      | |- context [Z.of_N ?x - 48] =>
          let v := eval vm_compute in (Z.of_N x - 48) in change (Z.of_N x - 48) with v
      end; lia.
Qed.

Lemma decimal_value_of_uint s u :
  NilEmpty.uint_of_string s = Some u -> Z.of_N (Pos.of_uint u) = decimal_value 0 s.
Proof.
  revert u. induction s as [|c s IH]; intros u;
    cbn [NilEmpty.uint_of_string decimal_value].
  - now intros [= <-].
  - destruct (NilEmpty.uint_of_string s) as [u'|] eqn:E; [|discriminate].
    intros H. apply uint_of_char_spec in H.
    destruct H as [[-> ->]|H]; [exact (IH u' eq_refl)|].
    repeat (destruct H as [[-> ->]|H]); [..|destruct H as [-> ->]];
      cbn [Pos.of_uint N.of_uint Z.of_N]; rewrite (decimal_value_acc s u' _ E); reflexivity.
Qed.

(** [f"{n}"] gives back the digits that denote [n], when they are written
    without a leading zero. *)
Lemma str_decimal_value s :
  Re.all Re.digit s = true -> s <> "" ->
  s = "0" \/ Py.startswith s "0" = false ->
  PyStr.str (decimal_value 0 s) = s.
Proof.
  intros H Hne Hcanon. destruct (uint_of_digits s H) as [u Hu].
  rewrite <- (decimal_value_of_uint s u Hu). unfold PyStr.str.
  change (Z.of_N (Pos.of_uint u)) with (Z.of_int (Decimal.Pos u)).
  rewrite DecimalZ.to_of. cbn [Decimal.norm].
  assert (Hun : Decimal.unorm u = u /\ u <> Decimal.Nil).
  { destruct Hcanon as [->|Hz].
    - simpl in Hu. injection Hu as <-. split; [reflexivity | discriminate].
    - destruct s as [|c s]; [congruence|]. simpl in Hu.
      destruct (NilEmpty.uint_of_string s) as [u'|]; [|discriminate].
      apply uint_of_char_spec in Hu.
      destruct Hu as [[-> ->]|Hu];
        [unfold Py.startswith in Hz; simpl in Hz; destruct s; discriminate Hz|].
      repeat (destruct Hu as [[-> ->]|Hu]); [..|destruct Hu as [-> ->]];
        split; (reflexivity || discriminate). }
  destruct Hun as [-> Hnil]. simpl.
  unfold NilZero.string_of_uint. destruct u; [congruence|..]; now apply NilEmpty.sus.
Qed.

(** X27: a chapter route [/Book/<digits>] with an alphanumeric book name and
    fewer than 4300 digits is rewritten to [/Book/Book<n>.html] where [n] is
    the number that the digits denote in base ten, which is what [int] makes
    of them; for digits written without a leading zero that is
    [/Book/Book<digits>.html]; a trailing slash and a leading zero do not
    change the result. *)
Theorem chapter_route_ignores_slash_and_zeros book chapter :
  Re.all Re.alnum book = true -> book <> "" ->
  Re.all Re.digit chapter = true -> chapter <> "" -> Py.len chapter < 4300 ->
  Py.int chapter = Some (decimal_value 0 chapter)
  /\ 0 <= decimal_value 0 chapter
  /\ _rewrite_path ("/" +s+ book +s+ "/" +s+ chapter)
     = Rewritten ("/" +s+ book +s+ "/" +s+ book
                  +s+ PyStr.str (decimal_value 0 chapter) +s+ ".html")
  /\ _rewrite_path ("/" +s+ book +s+ "/" +s+ chapter +s+ "/")
     = _rewrite_path ("/" +s+ book +s+ "/" +s+ chapter)
  /\ _rewrite_path ("/" +s+ book +s+ "/" +s+ "0" +s+ chapter)
     = _rewrite_path ("/" +s+ book +s+ "/" +s+ chapter)
  /\ (chapter = "0" \/ Py.startswith chapter "0" = false ->
      _rewrite_path ("/" +s+ book +s+ "/" +s+ chapter)
      = Rewritten ("/" +s+ book +s+ "/" +s+ book +s+ chapter +s+ ".html")).
Proof.
  intros Hb Hbn Hc Hcn Hlen.
  destruct (int_of_digits _ Hc Hcn) as [Hint _].
  destruct Hint as (Hn & Hz); [lia|]. specialize (Hz Hlen).
  assert (Hm : forall r, Re.optional_slash_end r = true ->
             _rewrite_path ("/" +s+ book +s+ "/" +s+ chapter +s+ r)
             = Rewritten ("/" +s+ book +s+ "/" +s+ book
                          +s+ PyStr.str (decimal_value 0 chapter) +s+ ".html")).
  { intros r Hr. unfold _rewrite_path.
    change (Py.or_else (Some ("/" +s+ book +s+ "/" +s+ chapter +s+ r)) "/")
      with ("/" +s+ book +s+ "/" +s+ chapter +s+ r).
    now rewrite book_chapter_match_intro, Hn. }
  assert (Hplain : "/" +s+ book +s+ "/" +s+ chapter
                   = "/" +s+ book +s+ "/" +s+ chapter +s+ "").
  { f_equal. f_equal. f_equal. clear. induction chapter as [|c s IH]; simpl; congruence. }
  split; [exact Hn|]. split; [apply decimal_value_nonneg; [assumption | lia]|].
  split; [|split; [|split]].
  - rewrite Hplain. now apply Hm.
  - rewrite Hplain, !Hm; reflexivity.
  - rewrite Hplain, (Hm "" eq_refl).
    unfold _rewrite_path.
    change (Py.or_else (Some ("/" +s+ book +s+ "/" +s+ "0" +s+ chapter)) "/")
      with ("/" +s+ book +s+ "/" +s+ "0" +s+ chapter).
    assert (Hm0 : _BOOK_CHAPTER_RE_match ("/" +s+ book +s+ "/" +s+ "0" +s+ chapter)
                  = Some (book, String "0" chapter)).
    { replace ("/" +s+ book +s+ "/" +s+ "0" +s+ chapter)
        with ("/" +s+ book +s+ "/" +s+ String "0" chapter +s+ "").
      - apply book_chapter_match_intro; auto. discriminate.
      - f_equal. f_equal. f_equal. simpl. f_equal.
        clear. induction chapter as [|c s IH]; simpl; congruence. }
    now rewrite Hm0, Hz.
  - intros Hcanon. rewrite Hplain, (Hm "" eq_refl).
    now rewrite (str_decimal_value chapter Hc Hcn Hcanon).
Qed.

(** X28: a chapter route whose number has more than 4300 digits makes [int]
    raise [ValueError], which [_rewrite_path] does not catch. *)
Theorem chapter_number_too_long_raises book chapter :
  Re.all Re.alnum book = true -> book <> "" ->
  Re.all Re.digit chapter = true -> 4300 < Py.len chapter ->
  _rewrite_path ("/" +s+ book +s+ "/" +s+ chapter) = RaisesValueError.
Proof.
  intros Hb Hbn Hc Hlen.
  assert (Hcn : chapter <> "") by (intros ->; unfold Py.len in Hlen; simpl in Hlen; lia).
  destruct (int_of_digits _ Hc Hcn) as [_ Hnone].
  replace ("/" +s+ book +s+ "/" +s+ chapter) with ("/" +s+ book +s+ "/" +s+ chapter +s+ "").
  - unfold _rewrite_path.
    change (Py.or_else (Some ("/" +s+ book +s+ "/" +s+ chapter +s+ "")) "/")
      with ("/" +s+ book +s+ "/" +s+ chapter +s+ "").
    now rewrite book_chapter_match_intro, Hnone.
  - f_equal. f_equal. f_equal. clear. induction chapter as [|c s IH]; simpl; congruence.
Qed.

(** ** Logging out, and reset records an administrator creates *)

Lemma filter_map_kept {A} (keep : A -> bool) (g : A -> A) (rows : list A) :
  (forall x, In x rows -> keep (g x) = keep x) ->
  (forall x, In x rows -> keep x = true -> g x = x) ->
  filter keep (map g rows) = filter keep rows.
Proof.
  induction rows as [|x rows IH]; simpl; intros Hk Hg; [reflexivity|].
  rewrite (Hk x) by now left. destruct (keep x) eqn:E.
  - rewrite (Hg x) by auto. f_equal. apply IH; auto.
  - apply IH; auto.
Qed.

Lemma filter_one_out (h : bytes) (rows : list session) (s : session) :
  NoDup (map s_token_hash rows) -> In s rows -> s_token_hash s = h ->
  (List.length (filter (fun x => negb (bytes_eqb (s_token_hash x) h)) rows) + 1
   = List.length rows)%nat.
Proof.
  intros Hnd Hin Hh. induction rows as [|x rows IH]; [contradiction|].
  simpl in Hnd. inversion Hnd as [|? ? Hx Hnd']; subst. simpl.
  destruct (bytes_eqb (s_token_hash x) (s_token_hash s)) eqn:E; simpl.
  - apply bytes_eqb_eq in E. rewrite filter_all; [lia|].
    intros y Hy. apply negb_true_iff, not_true_iff_false. intros E'.
    apply bytes_eqb_eq in E'. apply Hx. rewrite E, <- E'. now apply in_map.
  - destruct Hin as [->|Hin]; [now rewrite bytes_eqb_refl in E|].
    rewrite <- (IH Hnd' Hin). lia.
Qed.

Section Logout.
Context {lib : PyLib}.

(** X29: [/app/logout] always clears the cookie and redirects to the login page;
    without a valid session it changes nothing; with one it deletes the session
    of the presented token, exactly one row, and leaves every other session as
    it was. *)
Theorem logout_removes_the_presented_session req now d token :
  reachable d -> path req = "/app/logout" -> presents req token ->
  snd (_handle_app_get req now d) = GetRedirect "/app/login" (Some ClearSessionCookie)
  /\ (snd (_get_current_user req now d) = None -> fst (_handle_app_get req now d) = d)
  /\ (snd (_get_current_user req now d) <> None ->
      sessions (fst (_handle_app_get req now d))
      = filter (fun s => negb (bytes_eqb (s_token_hash s) (_sha256_bytes token))) (sessions d)
      /\ (List.length (sessions (fst (_handle_app_get req now d))) + 1
          = List.length (sessions d))%nat).
Proof.
  intros Hreach Hp Hc.
  pose proof (reachable_schema_ok d Hreach) as Hok.
  unfold _handle_app_get. rewrite Hp.
  destruct (_get_current_user req now d) as [d0 user] eqn:E. route. simpl fst. simpl snd.
  split; [reflexivity|]. split.
  - intros ->. pose proof (get_current_user_anonymous req now d) as H.
    rewrite E in H. specialize (H eq_refl). now injection H as ->.
  - intros Hu. destruct user as [u|]; [|now elim Hu]. clear Hu.
    pose proof (get_current_user_owner _ _ _ _ _ _ Hc E) as (s & Hs & Hsh & _).
    assert (Hsid : s_id s = session_id u).
    { unfold _get_current_user in E. unfold presents in Hc. rewrite Hc in E.
      destruct (negb (Py.truthy token)); [discriminate|].
      destruct (hd_error _) as [row|] eqn:Hhd; [|discriminate].
      injection E as _ <-.
      apply hd_error_In, select_current_user_In in Hhd
        as (s1 & u1 & Hs1 & _ & Hh1 & _ & _ & ->). simpl.
      f_equal. eapply NoDup_map_eq; [apply (ok_session_hashes d Hok) | | | congruence]; auto. }
    assert (Ht : Py.truthy token = true).
    { unfold _get_current_user in E. unfold presents in Hc. rewrite Hc in E.
      destruct (Py.truthy token); [reflexivity | discriminate]. }
    unfold presents in Hc. rewrite Hc, Ht.
    apply get_current_user_some in E. subst d0. simpl.
    assert (Hf : filter (fun s0 => negb (bytes_eqb (s_token_hash s0) (_sha256_bytes token)))
                   (map (fun s0 => if s_id s0 =? session_id u
                                   then mk_session (s_id s0) (s_user_id s0) (s_token_hash s0)
                                          (s_created_at s0) now (s_expires_at s0)
                                   else s0) (sessions d))
                 = filter (fun s0 => negb (bytes_eqb (s_token_hash s0) (_sha256_bytes token)))
                     (sessions d)).
    { apply filter_map_kept.
      - intros x _. now destruct (s_id x =? session_id u).
      - intros x Hx Hkeep. destruct (s_id x =? session_id u) eqn:Ei; [|reflexivity].
        apply Z.eqb_eq in Ei.
        assert (x = s)
          by (eapply NoDup_map_eq; [apply (ok_session_ids d Hok) | | | congruence]; auto).
        subst x. rewrite Hsh, bytes_eqb_refl in Hkeep. discriminate. }
    rewrite Hf. split; [reflexivity|].
    apply (filter_one_out _ _ s (ok_session_hashes d Hok) Hs Hsh).
Qed.

(** X30: [/app/admin/create-reset] for an administrator and an existing user,
    enabled or disabled: with a selector that is not in use, one reset record is
    appended for that user, holding the selector and the hash of the verifier,
    created now, expiring in one hour and unused; the redirect carries the
    token; users and sessions are not changed (but for the touch of the
    session). *)
Theorem admin_create_reset_outcome req e d d0 u target :
  _same_origin_post req = true -> path req = "/app/admin/create-reset" ->
  _get_current_user req (clock_auth e) d = (d0, Some u) -> is_admin u <> 0 ->
  In target (users d) ->
  Py.int (Py.or_else (dict_get "user_id" (form_of req)) "0") = Some (u_id target) ->
  - 2 ^ 63 <= u_id target < 2 ^ 63 ->
  ~ In (rnd_selector e) (map r_selector (password_reset_tokens d)) ->
  exists d' rid,
    _handle_app_post req e d
    = (d', admin_msg ("Reset token (dev): " +s+ rnd_selector e +s+ "." +s+ rnd_verifier e))
    /\ users d' = users d
    /\ sessions d' = sessions d0
    /\ password_reset_tokens d'
       = password_reset_tokens d
           ++ [mk_reset_token rid (u_id target) (rnd_selector e)
                 (_sha256_bytes (rnd_verifier e)) (clock_post e) (clock_post e + 60 * 60)
                 None].
Proof.
  intros Ho Hp Hu Hadm Hin Huid Hrange Hfresh.
  assert (Hbind : Sql.bindable (u_id target) = true)
    by (unfold Sql.bindable; apply andb_true_iff; split;
        [apply Z.leb_le | apply Z.ltb_lt]; lia).
  pose proof (get_current_user_some _ _ _ _ _ Hu) as Hd0.
  rewrite handle_app_post_same_origin by assumption.
  rewrite post_routes_admin by (rewrite Hp; reflexivity). rewrite Hu, Hp. simpl.
  apply Z.eqb_neq in Hadm. rewrite Hadm. unfold admin_routes. route.
  unfold admin_create_reset. rewrite Huid, Hbind. simpl negb. cbv iota.
  assert (Hex : Sql.user_exists (u_id target) d0 = true).
  { apply user_exists_In. subst d0. simpl. now apply in_map. }
  assert (Hrow : exists t, Sql.user_by_id (u_id target) d0 = Some t).
  { destruct (Sql.user_by_id (u_id target) d0) as [t|] eqn:E; [eauto|].
    unfold Sql.user_by_id in E. apply find_none_iff in E.
    unfold Sql.user_exists in Hex. congruence. }
  destruct Hrow as [t ->]. cbv zeta. unfold Sql.insert_reset_token.
  replace (existsb _ (password_reset_tokens d0)) with false.
  - rewrite Hex. simpl. eexists. eexists. split; [reflexivity|]. subst d0. simpl. auto.
  - symmetry. apply not_true_iff_false. intros H.
    apply existsb_exists in H as (r & Hr & E). apply String.eqb_eq in E.
    apply Hfresh. rewrite <- E. subst d0. now apply in_map.
Qed.

End Logout.

(** ** The further properties on concrete runs *)

Lemma reachable_store_keys_unique_witness :
  NoDup (map u_email_norm (users db_alice_bob))
  /\ NoDup (map s_token_hash (sessions db_alice_bob)).
Proof.
  destruct (reachable_store_keys_unique (lib := toy) db_alice_bob)
    as (_ & H1 & _ & H2 & _); [apply (reachable_from_empty (lib := toy))|].
  split; assumption.
Defined.

Lemma reachable_store_lifetimes_witness :
  (forall s, In s (sessions db_alice_reset) ->
     s_expires_at s = s_created_at s + 60 * 60 * 24 * 14)
  /\ (forall r, In r (password_reset_tokens db_alice_reset) ->
        r_expires_at r = r_created_at r + 60 * 60)
  /\ (forall s s',
        In s (sessions db_alice_reset) ->
        In s' (sessions (run (lib := toy)
                           [Get (local_request "/app/account" alice_cookie []) 6000;
                            Post (login_as "alice@example.org" "correct horse") much_later]
                           db_alice_reset)) ->
        s_id s' = s_id s ->
        s_created_at s' = s_created_at s /\ s_expires_at s' = s_expires_at s).
Proof.
  destruct (reachable_store_lifetimes (lib := toy) db_alice_reset) as (H1 & H2 & H3 & _).
  - apply (reachable_from_empty (lib := toy)).
  - split; [exact H1|]. split; [exact H2|]. apply H3.
Defined.

Lemma reachable_store_accounts_valid_witness :
  u_email alice_row = u_email_norm alice_row
  /\ _normalize_email (u_email_norm alice_row) = u_email_norm alice_row
  /\ _is_emailish (u_email_norm alice_row) = true
  /\ (u_is_admin alice_row = 0 \/ u_is_admin alice_row = 1)
  /\ (u_disabled alice_row = 0 \/ u_disabled alice_row = 1).
Proof.
  apply (reachable_store_accounts_valid (lib := toy) db_alice alice_row).
  - apply (reachable_from_empty (lib := toy)).
  - vm_compute. left. reflexivity.
Defined.

Lemma issued_session_lives_fourteen_days_witness :
  (exists row,
     snd (_get_current_user (lib := toy)
            (local_request "/app/account" (Some "bi_session=tokE") []) 1214599 db_alice_twice)
     = Some row /\ user_id row = 1)
  /\ _get_current_user (lib := toy)
       (local_request "/app/account" (Some "bi_session=tokE") []) 1214600 db_alice_twice
     = (db_alice_twice, None).
Proof.
  destruct (issued_session_lives_fourteen_days (lib := toy) later 1 db_alice db_alice_twice
              "tokE" 1214600 (local_request "/app/account" (Some "bi_session=tokE") []))
    as (_ & H1 & H2 & _).
  - apply (reachable_from_empty (lib := toy)).
  - vm_compute. reflexivity.
  - discriminate.
  - vm_compute. reflexivity.
  - split; [apply H1 | apply H2]; lia.
Defined.

Lemma login_refusals_witness :
  _handle_app_post (lib := toy) (login_as "alice@example.org" "wrong horse") later db_alice
  = (db_alice, login_invalid)
  /\ _handle_app_post (lib := toy) (login_as "nobody@example.org" "correct horse") later db_alice
     = (db_alice, login_invalid).
Proof.
  split.
  - destruct (login_refusals (lib := toy) (login_as "alice@example.org" "wrong horse") later
                db_alice) as (_ & _ & H).
    + apply (reachable_from_empty (lib := toy)).
    + reflexivity.
    + reflexivity.
    + reflexivity.
    + destruct (H alice_row) as [H1 _]; [vm_compute; reflexivity|].
      apply H1; [reflexivity | vm_compute; reflexivity].
  - destruct (login_refusals (lib := toy) (login_as "nobody@example.org" "correct horse") later
                db_alice) as (_ & H & _).
    + apply (reachable_from_empty (lib := toy)).
    + reflexivity.
    + reflexivity.
    + reflexivity.
    + apply H. vm_compute. reflexivity.
Defined.

Lemma login_opens_session_witness :
  exists d' sid,
    _handle_app_post (lib := toy) (login_as "alice@example.org" "correct horse") later db_alice
    = (d', signed_in later)
    /\ sessions d'
       = sessions db_alice ++ [mk_session sid 1 (Py.encode "tokE") 5000 5000 1214600].
Proof.
  destruct (login_opens_session (lib := toy) (login_as "alice@example.org" "correct horse")
              later db_alice alice_row) as (d' & sid & H1 & _ & _ & H2 & _).
  - apply (reachable_from_empty (lib := toy)).
  - reflexivity.
  - reflexivity.
  - reflexivity.
  - vm_compute. reflexivity.
  - reflexivity.
  - vm_compute. discriminate.
  - vm_compute. reflexivity.
  - vm_compute. discriminate.
  - vm_compute. intros [H|[]]. discriminate H.
  - exists d', sid. split; [exact H1 | exact H2].
Defined.

Lemma register_refusals_witness :
  _handle_app_post (lib := toy)
    (local_request "/app/register" None [("email", "carol"); ("password", "correct horse")])
    later db_alice
  = (db_alice, register_invalid)
  /\ _handle_app_post (lib := toy) alice_registration later db_alice
     = (db_alice, register_duplicate).
Proof.
  split.
  - destruct (register_refusals (lib := toy)
                (local_request "/app/register" None
                   [("email", "carol"); ("password", "correct horse")])
                later db_alice) as [H _]; [reflexivity ..|].
    apply H. left. vm_compute. reflexivity.
  - destruct (register_refusals (lib := toy) alice_registration later db_alice) as [_ H]; [reflexivity ..|].
    apply H; [vm_compute; reflexivity | vm_compute; discriminate | vm_compute; discriminate].
Defined.

Lemma registered_account_logs_in_witness :
  (exists d2,
     _handle_app_post (lib := toy) (login_as " Alice@Example.ORG " "correct horse") later
       db_alice
     = (d2, signed_in later))
  /\ _handle_app_post (lib := toy) alice_registration later db_alice
     = (db_alice, register_duplicate).
Proof.
  split.
  - destruct (registered_account_logs_in (lib := toy) alice_registration
                (draws 1000 "tokAlice" "selA" "verA") empty_db db_alice
                (SessionCookie "tokAlice" 1209600) eq_refl eq_refl
                (login_as " Alice@Example.ORG " "correct horse") later) as [H _]; [reflexivity ..|].
    apply H; [reflexivity|]. vm_compute. intros [E|[]]. discriminate E.
  - destruct (registered_account_logs_in (lib := toy) alice_registration
                (draws 1000 "tokAlice" "selA" "verA") empty_db db_alice
                (SessionCookie "tokAlice" 1209600) eq_refl eq_refl
                alice_registration later) as [_ H]; [reflexivity ..|].
    apply H. reflexivity.
Defined.

Lemma change_password_outcomes_witness :
  snd (_handle_app_post (lib := toy) (alice_changes_password "correct horse" "short") later
         db_alice)
  = new_password_too_short
  /\ snd (_handle_app_post (lib := toy) (alice_changes_password "wrong horse" "new password")
            later db_alice)
     = current_password_incorrect
  /\ snd (_handle_app_post (lib := toy) (alice_changes_password "correct horse" "new password")
            later db_alice)
     = Redirect "/app/account" None.
Proof.
  split; [|split].
  - destruct (change_password_outcomes (lib := toy)
                (alice_changes_password "correct horse" "short") later db_alice
                (fst (_get_current_user (lib := toy)
                        (alice_changes_password "correct horse" "short") 5000 db_alice))
                alice_identity alice_row) as (_ & H & _); [reflexivity ..|].
    rewrite H; [reflexivity | reflexivity | vm_compute; reflexivity].
  - destruct (change_password_outcomes (lib := toy)
                (alice_changes_password "wrong horse" "new password") later db_alice
                (fst (_get_current_user (lib := toy)
                        (alice_changes_password "wrong horse" "new password") 5000 db_alice))
                alice_identity alice_row) as (_ & _ & H & _); [reflexivity ..|].
    rewrite H; [reflexivity | reflexivity | vm_compute; discriminate | vm_compute; reflexivity].
  - destruct (change_password_outcomes (lib := toy)
                (alice_changes_password "correct horse" "new password") later db_alice
                (fst (_get_current_user (lib := toy)
                        (alice_changes_password "correct horse" "new password") 5000 db_alice))
                alice_identity alice_row) as (_ & _ & _ & H & _); [reflexivity ..|].
    destruct H as [H _]; [reflexivity | vm_compute; discriminate | vm_compute; reflexivity |].
    rewrite H. reflexivity.
Defined.

Lemma account_delete_outcomes_witness :
  snd (_handle_app_post (lib := toy) (alice_deletes_her_account "wrong horse") later db_alice)
  = password_incorrect
  /\ snd (_handle_app_post (lib := toy) (alice_deletes_her_account "correct horse") later
            db_alice)
     = Redirect "/app/register" (Some ClearSessionCookie).
Proof.
  split.
  - destruct (account_delete_outcomes (lib := toy) (alice_deletes_her_account "wrong horse")
                later db_alice
                (fst (_get_current_user (lib := toy) (alice_deletes_her_account "wrong horse")
                        5000 db_alice))
                alice_identity alice_row "tokAlice") as [H _];
      [apply (reachable_from_empty (lib := toy)) | reflexivity ..|].
    rewrite H; [reflexivity | vm_compute; reflexivity].
  - destruct (account_delete_outcomes (lib := toy) (alice_deletes_her_account "correct horse")
                later db_alice
                (fst (_get_current_user (lib := toy) (alice_deletes_her_account "correct horse")
                        5000 db_alice))
                alice_identity alice_row "tokAlice") as [_ H];
      [apply (reachable_from_empty (lib := toy)) | reflexivity ..|].
    destruct H as [H _]; [vm_compute; reflexivity|]. rewrite H. reflexivity.
Defined.

Lemma reset_password_logs_in_witness :
  exists d2,
    _handle_app_post (lib := toy) (login_as "alice@example.org" "new password") much_later
      (fst (_handle_app_post (lib := toy) (confirm_with "selR.verR" "new password") later
              db_alice_reset))
    = (d2, signed_in much_later).
Proof.
  apply (reset_password_logs_in (lib := toy) (confirm_with "selR.verR" "new password") later
           db_alice_reset
           (fst (_handle_app_post (lib := toy) (confirm_with "selR.verR" "new password") later
                   db_alice_reset))
           "selR" "verR" (mk_reset_token 1 1 "selR" (Py.encode "verR") 4000 7600 None)
           alice_row).
  - apply (reachable_from_empty (lib := toy)).
  - reflexivity.
  - vm_compute. reflexivity.
  - vm_compute. reflexivity.
  - vm_compute. reflexivity.
  - reflexivity.
  - reflexivity.
  - vm_compute. reflexivity.
  - vm_compute. reflexivity.
  - reflexivity.
  - reflexivity.
  - reflexivity.
  - vm_compute. intros [].
Defined.

Lemma anonymous_requests_are_sent_to_login_witness :
  _handle_app_post (lib := toy)
    (local_request "/app/admin/delete-user" None [("user_id", "1")]) later db_alice
  = (db_alice, Redirect "/app/login" None).
Proof.
  apply (anonymous_requests_are_sent_to_login (lib := toy)).
  - reflexivity.
  - reflexivity.
  - right. right. reflexivity.
Defined.

Lemma admin_routes_refuse_other_users_witness :
  snd (_handle_app_post (lib := toy) bob_deletes_alice later db_alice_and_bob) = admin_forbidden
  /\ users (fst (_handle_app_post (lib := toy) bob_deletes_alice later db_alice_and_bob))
     = users db_alice_and_bob.
Proof.
  destruct (admin_routes_refuse_other_users (lib := toy) bob_deletes_alice later db_alice_and_bob
              (fst (_get_current_user (lib := toy) bob_deletes_alice 5000 db_alice_and_bob))
              (mk_current_user 2 2 "bob@example.org" 0 0))
    as (H & Hu & _); [reflexivity ..|].
  rewrite H. split; [reflexivity | exact Hu].
Defined.

Lemma admin_operation_on_absent_user_witness :
  _handle_app_post (lib := toy) alice_deletes_nobody later db_alice
  = (fst (_get_current_user (lib := toy) alice_deletes_nobody 5000 db_alice),
     admin_msg "User deleted").
Proof.
  destruct (admin_operation_on_absent_user (lib := toy) alice_deletes_nobody later db_alice
              (fst (_get_current_user (lib := toy) alice_deletes_nobody 5000 db_alice))
              alice_identity 0) as (_ & _ & H & _).
  - apply (reachable_from_empty (lib := toy)).
  - reflexivity.
  - reflexivity.
  - discriminate.
  - reflexivity.
  - lia.
  - reflexivity.
  - apply H. reflexivity.
Defined.

Lemma reset_request_for_disabled_account_witness :
  _handle_app_post (lib := toy) (reset_for "bob@example.org") later db_alice_bob_disabled
  = (db_alice_bob_disabled, SendHtml 200 "Reset password" reset_generic_body).
Proof.
  apply (reset_request_for_disabled_account (lib := toy) (reset_for "bob@example.org") later
           db_alice_bob_disabled bob_row_disabled).
  - apply (reachable_from_empty (lib := toy)).
  - reflexivity.
  - reflexivity.
  - reflexivity.
  - vm_compute. reflexivity.
  - discriminate.
Defined.

Lemma post_without_host_is_refused_witness :
  _same_origin_post (lib := toy) hostless_request = false
  /\ _handle_app_post (lib := toy) hostless_request later db_alice
     = (db_alice, origin_check_failed).
Proof.
  apply (post_without_host_is_refused (lib := toy) hostless_request later db_alice).
  reflexivity.
Defined.

Lemma origin_header_overrides_referer_witness :
  _same_origin_post (lib := toy)
    (with_referer (Some "http://localhost:8000/app/account") foreign_request)
  = _same_origin_post (lib := toy) foreign_request.
Proof.
  apply (origin_header_overrides_referer (lib := toy) foreign_request).
  vm_compute. discriminate.
Defined.

Lemma reset_token_is_shown_verbatim_witness :
  admin_msg "Reset token (dev): selE.verE"
  = Redirect "/app/admin?msg=Reset%20token%20%28dev%29%3A%20selE.verE" None
  /\ Py.cut "." (Py.strip "selE.verE") = Some ("selE", "verE").
Proof.
  destruct (reset_token_is_shown_verbatim "selE" "verE") as (_ & H1 & H2);
    [reflexivity | reflexivity |].
  split; [exact H1 | exact H2].
Defined.

Lemma admin_create_user_outcomes_witness :
  exists d',
    _handle_app_post (lib := toy) alice_creates_bob later db_alice
    = (d', admin_msg "User created")
    /\ users d'
       = users db_alice
           ++ [mk_user 2 "bob@example.org" "bob@example.org" [x2a]
                 (Py.encode "battery staple" ++ [x2a]) 1 0 5000].
Proof.
  destruct (admin_create_user_outcomes (lib := toy) alice_creates_bob later db_alice
              (fst (_get_current_user (lib := toy) alice_creates_bob 5000 db_alice))
              alice_identity) as (_ & _ & H);
    [reflexivity | reflexivity | reflexivity | discriminate |].
  destruct H as (d' & H1 & H2 & _);
    [vm_compute; reflexivity | vm_compute; discriminate | vm_compute; reflexivity |].
  exists d'. split; [exact H1 | exact H2].
Defined.

Lemma rewritten_path_is_not_rewritten_again_witness :
  _rewrite_path "/Mark/Mark7.html" = Unchanged /\ _rewrite_path "/Mark/index.html" = Unchanged.
Proof.
  split.
  - apply (rewritten_path_is_not_rewritten_again "/Mark/007"). vm_compute. reflexivity.
  - apply (rewritten_path_is_not_rewritten_again "/Mark"). vm_compute. reflexivity.
Defined.

Lemma path_with_extension_is_unchanged_witness :
  _rewrite_path "/assets/site.css" = Unchanged.
Proof. apply path_with_extension_is_unchanged. vm_compute. reflexivity. Defined.

Lemma chapter_route_ignores_slash_and_zeros_witness :
  _rewrite_path "/Mark/12" = Rewritten "/Mark/Mark12.html"
  /\ _rewrite_path "/Mark/12/" = _rewrite_path "/Mark/12"
  /\ _rewrite_path "/Mark/012" = _rewrite_path "/Mark/12".
Proof.
  destruct (chapter_route_ignores_slash_and_zeros "Mark" "12") as (_ & _ & _ & H1 & H2 & H0).
  - reflexivity.
  - discriminate.
  - reflexivity.
  - discriminate.
  - vm_compute. reflexivity.
  - split; [apply H0; right; reflexivity | split; [exact H1 | exact H2]].
Defined.

Lemma chapter_number_too_long_raises_witness :
  _rewrite_path ("/Mark/" +s+ long_chapter) = RaisesValueError.
Proof.
  apply (chapter_number_too_long_raises "Mark" long_chapter).
  - reflexivity.
  - discriminate.
  - vm_compute. reflexivity.
  - vm_compute. reflexivity.
Defined.

Lemma logout_removes_the_presented_session_witness :
  snd (_handle_app_get (lib := toy) alice_logs_out 6000 db_alice_twice)
  = GetRedirect "/app/login" (Some ClearSessionCookie)
  /\ (List.length (sessions (fst (_handle_app_get (lib := toy) alice_logs_out 6000
                                    db_alice_twice))) + 1
      = List.length (sessions db_alice_twice))%nat.
Proof.
  destruct (logout_removes_the_presented_session (lib := toy) alice_logs_out 6000
              db_alice_twice "tokAlice") as (H1 & _ & H2).
  - apply (reachable_from_empty (lib := toy)).
  - reflexivity.
  - reflexivity.
  - split; [exact H1|]. apply H2. vm_compute. discriminate.
Defined.

Lemma admin_create_reset_outcome_witness :
  exists d' rid,
    _handle_app_post (lib := toy) alice_creates_reset_for_bob later db_alice_bob_disabled
    = (d', admin_msg "Reset token (dev): selE.verE")
    /\ password_reset_tokens d'
       = password_reset_tokens db_alice_bob_disabled
           ++ [mk_reset_token rid 2 "selE" (Py.encode "verE") 5000 8600 None].
Proof.
  destruct (admin_create_reset_outcome (lib := toy) alice_creates_reset_for_bob later
              db_alice_bob_disabled
              (fst (_get_current_user (lib := toy) alice_creates_reset_for_bob 5000
                      db_alice_bob_disabled))
              alice_identity bob_row_disabled) as (d' & rid & H1 & _ & _ & H2).
  - reflexivity.
  - reflexivity.
  - reflexivity.
  - discriminate.
  - vm_compute. right. left. reflexivity.
  - reflexivity.
  - simpl. lia.
  - vm_compute. intros [].
  - exists d', rid. split; [exact H1 | exact H2].
Defined.

Lemma register_grants_admin_iff_no_user_witness :
  exists u, users db_alice = users empty_db ++ [u]
    /\ u_email_norm u = "alice@example.org"
    /\ u_disabled u = 0
    /\ (u_is_admin u = 1 <-> users empty_db = [])
    /\ (u_is_admin u = 0 <-> users empty_db <> [])
    /\ (reachable (lib := toy) empty_db -> users_seq empty_db = 0 -> u_is_admin u = 1).
Proof.
  apply (register_grants_admin_iff_no_user (lib := toy) alice_registration
           (draws 1000 "tokAlice" "selA" "verA") empty_db db_alice
           (SessionCookie "tokAlice" 1209600)).
  - reflexivity.
  - vm_compute. reflexivity.
Defined.

(** C8 fails as stated: Alice registers first and is made admin, then deletes
    her own account; Bob, who registers after her and gets the second id, finds
    the table empty and is made admin too. *)
Lemma later_registrant_is_granted_admin :
  reachable (lib := toy) db_alice_gone
  /\ users db_alice_gone = [] /\ users_seq db_alice_gone = 1
  /\ snd (_handle_app_post (lib := toy) bob_registration
            (draws 6000 "tokBob" "selB" "verB") db_alice_gone)
     = Redirect "/app/account" (Some (SessionCookie "tokBob" 1209600))
  /\ map (fun u => (u_id u, u_email_norm u, u_is_admin u))
         (users (step (lib := toy) bob_registers_late db_alice_gone))
     = [(2, "bob@example.org", 1)].
Proof.
  split; [apply (reachable_from_empty (lib := toy))|]. repeat split; vm_compute; reflexivity.
Qed.

(** The digit 2 after the separator FS is no number for [int]: the admin route
    answers [Invalid request] and Bob's account stays. *)
Example admin_route_rejects_separator_before_digits :
  _handle_app_post (lib := toy) alice_deletes_separator_two later db_alice_bob
  = (fst (_get_current_user (lib := toy) alice_deletes_separator_two 5000 db_alice_bob),
     admin_msg "Invalid request")
  /\ Sql.user_by_id 2
       (fst (_handle_app_post (lib := toy) alice_deletes_separator_two later db_alice_bob))
     <> None.
Proof. split; [vm_compute; reflexivity | vm_compute; discriminate]. Qed.
